(** * go-micloud: the chunked upload pipeline of [internal/file/file.go]

    A shallow embedding of [UploadFile], [getFileBlocks], [uploadBlock] and
    [createFile].  The file system, the hash helpers of [pkg/utils], the
    form poster of the [Api] and the HTTP client are oracles of an abstract
    world; every call to one of them is recorded in the trace of the run, so
    that statements such as "no block is transferred" or "the commit is
    called once" are statements about traces.

    Conventions.
    - [int] and [int64] are 64-bit two's complement integers ([Z] wrapped by
      [int64]); the program is built for a 64-bit target.
    - A Go function returning [(T, error)] returns [inl t] or [inr err].
    - A Go run-time panic is the outcome [Panicked].
    - Console output ([zlog.Info], [fmt.Printf]) is not recorded. *)

From Stdlib Require Import ZArith List String Ascii Bool Lia QArith Qround.
Import ListNotations.

Set Warnings "-register-all".

Local Open Scope string_scope.
Local Open Scope list_scope.
Local Open Scope Z_scope.

(** ** Machine integers *)

Definition int64 (x : Z) : Z := (x + 2 ^ 63) mod 2 ^ 64 - 2 ^ 63.

(** ** The part of [github.com/tidwall/gjson] the program uses

    A [gjson.Result] is the value found at a path of a JSON text.  The text
    of a response is represented by the value it denotes; a value that is
    absent is [JNull], as in the library, whose zero [Result] has the type
    [Null].  Numbers carry their raw text and their value; the protocol only
    carries integers. *)

Module gjson.

Inductive Result : Type :=
| JNull
| JFalse
| JTrue
| JNumber (raw : string) (num : Z)
| JString (str : string)
| JArray (raw : string) (elems : list Result)
| JObject (raw : string) (members : list (string * Result)).

(** The path syntax is used with plain keys only: [a.b.c]. *)
Fixpoint splitPath (acc : string) (path : string) : list string :=
  match path with
  | EmptyString => [acc]
  | String c rest =>
      if Ascii.eqb c "."%char then acc :: splitPath "" rest
      else splitPath (acc ++ String c "")%string rest
  end.

(** The first member with the key wins. *)
Fixpoint member (key : string) (ms : list (string * Result)) : Result :=
  match ms with
  | [] => JNull
  | (k, v) :: rest => if String.eqb k key then v else member key rest
  end.

Fixpoint getKeys (r : Result) (keys : list string) : Result :=
  match keys with
  | [] => r
  | k :: rest =>
      match r with
      | JObject _ ms => getKeys (member k ms) rest
      | _ => JNull
      end
  end.

(** [gjson.Get(json, path)] and [Result.Get(path)]. *)
Definition Get (r : Result) (path : string) : Result :=
  getKeys r (splitPath "" path).

(** [Result.String()]. *)
Definition String_ (r : Result) : string :=
  match r with
  | JNull => ""
  | JFalse => "false"
  | JTrue => "true"
  | JNumber raw _ => raw
  | JString s => s
  | JArray raw _ => raw
  | JObject raw _ => raw
  end.

Definition lowerAscii (c : ascii) : ascii :=
  let n := N_of_ascii c in
  if ((65 <=? n) && (n <=? 90))%N then ascii_of_N (n + 32) else c.

Fixpoint toLower (s : string) : string :=
  match s with
  | EmptyString => EmptyString
  | String c rest => String (lowerAscii c) (toLower rest)
  end.

(** [strconv.ParseBool] after [strings.ToLower]. *)
Definition parseBoolLower (s : string) : bool :=
  let l := toLower s in
  String.eqb l "1" || String.eqb l "t" || String.eqb l "true".

(** [Result.Bool()]. *)
Definition Bool (r : Result) : bool :=
  match r with
  | JTrue => true
  | JString s => parseBoolLower s
  | JNumber _ n => negb (n =? 0)
  | _ => false
  end.

Definition digit (c : ascii) : option Z :=
  let n := N_of_ascii c in
  if ((48 <=? n) && (n <=? 57))%N then Some (Z.of_N n - 48) else None.

Fixpoint parseDigits (n : Z) (s : string) : option Z :=
  match s with
  | EmptyString => Some n
  | String c rest =>
      match digit c with
      | Some d => parseDigits (int64 (int64 (n * 10) + d)) rest
      | None => None
      end
  end.

(** The library's [parseInt]: an optional minus sign and decimal digits;
    anything else reads as 0. *)
Definition parseInt (s : string) : Z :=
  match s with
  | EmptyString => 0
  | String c rest =>
      if Ascii.eqb c "-"%char then
        match rest with
        | EmptyString => 0
        | _ => match parseDigits 0 rest with
               | Some n => int64 (n * -1)
               | None => 0
               end
        end
      else match parseDigits 0 s with Some n => n | None => 0 end
  end.

(** [Result.Int()]. *)
Definition Int (r : Result) : Z :=
  match r with
  | JTrue => 1
  | JString s => parseInt s
  | JNumber _ n => n
  | _ => 0
  end.

(** [Result.Array()]: nothing for null, the elements of an array, and the
    value itself as the only element otherwise. *)
Definition Array (r : Result) : list Result :=
  match r with
  | JNull => []
  | JArray _ elems => elems
  | _ => [r]
  end.

End gjson.

(** ** Data of the upload *)

Definition ChunkSize : Z := 4194304.

Inductive error : Type :=
| SizeTooBigError
| errors_New (msg : string)
| os_error (msg : string).

(** [os.FileInfo], of which only [Size()] is used. *)
Record FileInfo : Type := { fiSize : Z }.

(** [*os.File]: a descriptor. *)
Definition File : Type := Z.

(** A byte slice: its length and its contents by index. *)
Record Buffer : Type := { len : Z; data : Z -> Byte.byte }.

Record BlockInfo : Type := { Sha1 : string; Md5 : string; Size : Z }.

(** [map[string]string] with the single key the program writes. *)
Definition CommitMeta : Type := list (string * string).

(** The [interface{}] fields of [UploadJson] hold one of the two shapes
    the program stores in them. *)
Inductive KssField : Type :=
| UploadKss (BlockInfos : list BlockInfo)
| Kss (Stat : string) (NodeUrls : list gjson.Result)
      (SecureKey ContentCacheKey FileMeta : string)
      (CommitMetas : list CommitMeta).

Inductive StorageField : Type :=
| UploadStorage (size : Z) (sha1 : string) (kss : KssField)
                (UploadId : string) (Exists : bool)
| UploadExistedStorage (UploadId : string) (Exists : bool).

Record UploadContent : Type := { Name : string; Storage : StorageField }.

Record UploadJson : Type := { Content : UploadContent }.

(** [url.Values]. *)
Definition Values : Type := list (string * list string).

Inductive Body : Type :=
| BytesBody (b : Buffer)
| StringBody (s : string).

Record Request : Type :=
  { Method : string; URL : string; Header : list (string * string);
    ReqBody : Body }.

Definition Header_Set (k v : string) (r : Request) : Request :=
  {| Method := Method r; URL := URL r;
     Header := Header r ++ [(k, v)]; ReqBody := ReqBody r |}.

(** An HTTP response: what [ioutil.ReadAll] reads of its body, as the JSON
    value [gjson] finds in it, and the error of that read if any. *)
Record Response : Type :=
  { RespBody : gjson.Result; ReadAllErr : option error }.

(** ** Runs: outcome, world and trace *)

Inductive outcome (A : Type) : Type :=
| Returned (a : A)
| Panicked (msg : string).
Arguments Returned {A} a.
Arguments Panicked {A} msg.

Inductive Event : Type :=
| EvStat (path : string) (res : FileInfo + error)
| EvFilePathHash (path alg : string) (digest : string)
| EvOpen (path : string) (res : File + error)
| EvSeek (f : File) (offset : Z)
| EvRead (f : File) (length : Z) (err : option error)
| EvFileStat (f : File)
| EvPostForm (url : string) (form : Values) (res : gjson.Result + error)
| EvUploadBlockDo (req : Request) (res : Response + error)
| EvCreateFile (parentId : string) (payload : UploadJson)
| EvCreateFileDo (req : Request) (res : Response + error).

(** The collaborators of the upload.  [W] is the state of everything
    outside the program: disk, network, server. *)
Class Env (W : Type) : Type :=
  { os_Stat : string -> W -> (FileInfo + error) * W;
    os_OpenFile : string -> W -> (File + error) * W;
    file_Seek : File -> Z -> W -> option error * W;
    file_Read : File -> Buffer -> W -> ((Z -> Byte.byte) * Z * option error) * W;
    file_Stat : File -> W -> (FileInfo + error) * W;
    path_Base : string -> string;
    utils_FilePathHash : string -> string -> W -> string * W;
    utils_FileHash : Buffer -> string -> string;
    json_Marshal : UploadJson -> string + error;
    url_Encode : Values -> string;
    http_NewRequest : string -> string -> Body -> Request + error;
    api_postForm : string -> Values -> W -> (gjson.Result + error) * W;
    HttpClient_Do : Request -> W -> (Response + error) * W;
    ServiceToken : string;
    CreateFile : string;
    UploadFileURL : string }.

Section Monad.
Context {W : Type}.

Definition M (A : Type) : Type := W -> outcome A * W * list Event.

Definition ret {A} (a : A) : M A := fun w => (Returned a, w, []).

Definition panic {A} (msg : string) : M A := fun w => (Panicked msg, w, []).

Definition bind {A B} (m : M A) (f : A -> M B) : M B :=
  fun w =>
    match m w with
    | (Returned a, w1, t1) =>
        match f a w1 with
        | (o, w2, t2) => (o, w2, t1 ++ t2)
        end
    | (Panicked msg, w1, t1) => (Panicked msg, w1, t1)
    end.

(** A call to a collaborator, recorded with its result. *)
Definition call {A} (f : W -> A * W) (ev : A -> Event) : M A :=
  fun w => match f w with (a, w1) => (Returned a, w1, [ev a]) end.

Definition mark (ev : Event) : M unit := fun w => (Returned tt, w, [ev]).

Definition outcome_of {A} (r : outcome A * W * list Event) : outcome A :=
  fst (fst r).
Definition world_of {A} (r : outcome A * W * list Event) : W := snd (fst r).
Definition trace_of {A} (r : outcome A * W * list Event) : list Event := snd r.

End Monad.

Notation "x <- m ;; k" := (bind m (fun x => k))
  (at level 61, m at next level, right associativity).

(** ** The program *)

Section Program.
Context {W : Type} {E : Env W}.

(** [make([]byte, n)]. *)
Definition make (n : Z) : M (W := W) Buffer :=
  if n <? 0 then panic "makeslice: len out of range"
  else ret {| len := n; data := fun _ => Byte.x00 |}.

(** [file.Seek(offset, 0)]; every caller drops the position. *)
Definition Seek (file : File) (offset : Z) : M (option error) :=
  call (file_Seek file offset) (fun _ => EvSeek file offset).

(** [file.Read(b)]: the slice keeps its length, the read fills it; every
    caller drops the count. *)
Definition Read (file : File) (b : Buffer) : M (Buffer * option error) :=
  fun w =>
    match file_Read file b w with
    | ((d, _, err), w1) =>
        (Returned ({| len := len b; data := d |}, err), w1,
         [EvRead file (len b) err])
    end.

Definition FilePathHash (filePath alg : string) : M string :=
  call (utils_FilePathHash filePath alg) (EvFilePathHash filePath alg).

(** [int(math.Ceil(float64(size) / float64(ChunkSize)))].  The quotient is
    taken in the rationals: a [float64] holds every integer below 2^53, and
    the division by 2^22 is exact. *)
Definition numBlocks (size : Z) : Z :=
  Qceiling (inject_Z size / inject_Z ChunkSize).

(** What is left for the last block. *)
Definition lastBlockSize (size : Z) : Z :=
  size - (numBlocks size - 1) * ChunkSize.

(** The loop of [getFileBlocks] (file.go:191-208), [n] iterations left,
    [i] the block number from 1. *)
Fixpoint blocksLoop (n : nat) (fileInfo : FileInfo) (file : File) (i : Z)
    (b : Buffer) (blockInfos : list BlockInfo) : M (list BlockInfo) :=
  match n with
  | O => ret blockInfos
  | S n' =>
      let offset := int64 ((i - 1) * ChunkSize) in
      _ <- Seek file offset ;;
      b1 <- (if len b >? int64 (fiSize fileInfo - offset)
             then make (int64 (fiSize fileInfo - offset))
             else ret b) ;;
      r <- Read file b1 ;;
      match r with
      | (b2, Some _) =>
          blocksLoop n' fileInfo file (int64 (i + 1)) b2 blockInfos
      | (b2, None) =>
          let blockInfo :=
            {| Sha1 := utils_FileHash b2 "sha1";
               Md5 := utils_FileHash b2 "md5";
               Size := len b2 |} in
          blocksLoop n' fileInfo file (int64 (i + 1)) b2
                     (blockInfos ++ [blockInfo])
      end
  end.

(** file.go:183-210.  The loop runs for [i] from 1 to [num]. *)
Definition getFileBlocks (fileInfo : FileInfo) (filePath : string)
  : M (list BlockInfo + error) :=
  let num := numBlocks (fiSize fileInfo) in
  f <- call (os_OpenFile filePath) (EvOpen filePath) ;;
  match f with
  | inr err => ret (inr err)
  | inl file =>
      b <- make ChunkSize ;;
      blockInfos <- blocksLoop (Z.to_nat num) fileInfo file 1 b [] ;;
      ret (inl blockInfos)
  end.

Definition setHeaders (contentType : string) (request : Request) : Request :=
  Header_Set "Content-Type" contentType
    (Header_Set "Referer" "https://i.mi.com/drive"
       (Header_Set "Origin" "https://i.mi.com"
          (Header_Set "DNT" "1" request))).

(** file.go:213-252.  [block] is always a [gjson.Result], so the type
    assertion of line 214 holds.  A failed [file.Stat] leaves [fileInfo]
    nil and [fileInfo.Size()] panics; a failed [http.NewRequest] leaves
    [request] nil and [request.Header] panics. *)
Definition uploadBlock (num : Z) (apiNode fileMeta : string) (file : File)
    (m : gjson.Result) : M (CommitMeta + error) :=
  if gjson.Int (gjson.Get m "is_existed") =? 1 then
    ret (inl [("commit_meta", gjson.String_ (gjson.Get m "commit_meta"))])
  else
    let uploadUrl :=
      (apiNode ++ "/upload_block_chunk?chunk_pos=0&file_meta=" ++ fileMeta
       ++ "&block_meta=" ++ gjson.String_ (gjson.Get m "block_meta"))%string in
    st <- call (file_Stat file) (fun _ => EvFileStat file) ;;
    match st with
    | inr _ => panic "invalid memory address or nil pointer dereference"
    | inl fileInfo =>
        let offset := int64 (num * ChunkSize) in
        let chunkSize :=
          if ChunkSize >? int64 (fiSize fileInfo - offset)
          then int64 (fiSize fileInfo - offset) else ChunkSize in
        fileBlock <- make chunkSize ;;
        _ <- Seek file offset ;;
        r <- Read file fileBlock ;;
        match r with
        | (_, Some err) => ret (inr err)
        | (fileBlock, None) =>
            match http_NewRequest "POST" uploadUrl (BytesBody fileBlock) with
            | inr _ => panic "invalid memory address or nil pointer dereference"
            | inl request =>
                let request := setHeaders "application/octet-stream" request in
                resp <- call (HttpClient_Do request) (EvUploadBlockDo request) ;;
                match resp with
                | inr err => ret (inr err)
                | inl response =>
                    let readAll := RespBody response in
                    let stat := gjson.String_ (gjson.Get readAll "stat") in
                    if negb (String.eqb stat "BLOCK_COMPLETED") then
                      ret (inr (errors_New "block not completed"))
                    else
                      ret (inl [("commit_meta",
                                 gjson.String_ (gjson.Get readAll "commit_meta"))])
                end
            end
        end
    end.

(** file.go:255-284.  The entry into the function is recorded. *)
Definition createFile (parentId : string) (payload : UploadJson)
  : M (string + error) :=
  _ <- mark (EvCreateFile parentId payload) ;;
  match json_Marshal payload with
  | inr err => ret (inr err)
  | inl dataJson =>
      let form : Values :=
        [("data", [dataJson]); ("serviceToken", [ServiceToken]);
         ("parentId", [parentId])] in
      match http_NewRequest "POST" UploadFileURL (StringBody (url_Encode form)) with
      | inr _ => panic "invalid memory address or nil pointer dereference"
      | inl request =>
          let request :=
            setHeaders "application/x-www-form-urlencoded" request in
          resp <- call (HttpClient_Do request) (EvCreateFileDo request) ;;
          match resp with
          | inr err => ret (inr err)
          | inl response =>
              match ReadAllErr response with
              | Some err => ret (inr err)
              | None =>
                  let readAll := RespBody response in
                  let result := gjson.String_ (gjson.Get readAll "result") in
                  if negb (String.eqb result "ok") then
                    ret (inr (errors_New
                                (gjson.String_ (gjson.Get readAll "description"))))
                  else
                    ret (inl (gjson.String_ (gjson.Get readAll "data.id")))
              end
          end
      end
  end.

(** The manifest of file.go:70-88. *)
Definition buildBlockInfos (fileInfo : FileInfo) (filePath : string)
    (fileSize : Z) (fileSha1 : string) : M (list BlockInfo + error) :=
  if fileSize >? ChunkSize then
    r <- getFileBlocks fileInfo filePath ;;
    match r with
    | inr _ => ret (inr (errors_New "get file blocks failed"))
    | inl blockInfos => ret (inl blockInfos)
    end
  else
    md5 <- FilePathHash filePath "md5" ;;
    ret (inl [{| Sha1 := fileSha1; Md5 := md5; Size := fileSize |}]).

(** The loop of file.go:146-157, [k] the index of the first entry left. *)
Fixpoint uploadBlocks (k : Z) (apiNode fileMeta : string) (file : File)
    (blockMetas : list gjson.Result) (commitMetas : list CommitMeta)
  : M (list CommitMeta + error) :=
  match blockMetas with
  | [] => ret (inl commitMetas)
  | block :: rest =>
      r <- uploadBlock k apiNode fileMeta file block ;;
      match r with
      | inr err => ret (inr err)
      | inl commitMeta =>
          uploadBlocks (k + 1) apiNode fileMeta file rest
                       (commitMetas ++ [commitMeta])
      end
  end.

Definition existedPayload (fileName : string) (resp : gjson.Result) : UploadJson :=
  {| Content :=
       {| Name := fileName;
          Storage :=
            UploadExistedStorage
              (gjson.String_ (gjson.Get resp "data.storage.uploadId")) true |} |}.

Definition commitPayload (fileName : string) (fileSize : Z) (fileSha1 : string)
    (resp : gjson.Result) (commitMetas : list CommitMeta) : UploadJson :=
  let kss := gjson.Get resp "data.storage.kss" in
  {| Content :=
       {| Name := fileName;
          Storage :=
            UploadStorage fileSize fileSha1
              (Kss "OK" (gjson.Array (gjson.Get kss "node_urls"))
                   (gjson.String_ (gjson.Get kss "secure_key"))
                   (gjson.String_ (gjson.Get kss "contentCacheKey"))
                   (gjson.String_ (gjson.Get kss "file_meta"))
                   commitMetas)
              (gjson.String_ (gjson.Get resp "data.storage.uploadId"))
              false |} |}.

(** file.go:113-179: what [UploadFile] does with the negotiation response. *)
Definition afterNegotiation (filePath parentId fileName : string)
    (fileSize : Z) (fileSha1 : string) (resp : gjson.Result)
  : M (string + error) :=
  let result := gjson.String_ (gjson.Get resp "result") in
  if negb (String.eqb result "ok") then
    ret (inr (errors_New
                ("create file block failed, error: "
                 ++ gjson.String_ (gjson.Get resp "description"))%string))
  else
    let isExisted := gjson.Bool (gjson.Get resp "data.storage.exists") in
    if isExisted then
      createFile parentId (existedPayload fileName resp)
    else
      let kss := gjson.Get resp "data.storage.kss" in
      let nodeUrls := gjson.Array (gjson.Get kss "node_urls") in
      let fileMeta := gjson.String_ (gjson.Get kss "file_meta") in
      let blockMetas := gjson.Array (gjson.Get kss "block_metas") in
      match nodeUrls with
      | [] => panic "index out of range [0] with length 0"
      | node0 :: _ =>
          let apiNode := gjson.String_ node0 in
          if String.eqb apiNode "" then
            ret (inr (errors_New "no available url node"))
          else
            f <- call (os_OpenFile filePath) (EvOpen filePath) ;;
            match f with
            | inr err => ret (inr err)
            | inl file =>
                r <- uploadBlocks 0 apiNode fileMeta file blockMetas [] ;;
                match r with
                | inr err => ret (inr err)
                | inl commitMetas =>
                    createFile parentId
                      (commitPayload fileName fileSize fileSha1 resp commitMetas)
                end
            end
      end.

(** The form of file.go:101-109; a failed [json.Marshal] leaves no bytes. *)
Definition negotiationForm (uploadJson : UploadJson) : Values :=
  let data :=
    match json_Marshal uploadJson with
    | inl s => s
    | inr _ => ""
    end in
  [("data", [data]); ("serviceToken", [ServiceToken])].

Definition manifest (fileName : string) (fileSize : Z) (fileSha1 : string)
    (blockInfos : list BlockInfo) : UploadJson :=
  {| Content :=
       {| Name := fileName;
          Storage :=
            UploadStorage fileSize fileSha1 (UploadKss blockInfos) "" false |} |}.

(** file.go:54-180. *)
Definition UploadFile (filePath parentId : string) : M (string + error) :=
  st <- call (os_Stat filePath) (EvStat filePath) ;;
  match st with
  | inr err => ret (inr err)
  | inl fileInfo =>
      let fileName := path_Base filePath in
      if (fiSize fileInfo =? 0) || (fiSize fileInfo >=? 4 * 1024 * 1024 * 1024)
      then ret (inr SizeTooBigError)
      else
        let fileSize := fiSize fileInfo in
        fileSha1 <- FilePathHash filePath "sha1" ;;
        bi <- buildBlockInfos fileInfo filePath fileSize fileSha1 ;;
        match bi with
        | inr err => ret (inr err)
        | inl blockInfos =>
            let uploadJson := manifest fileName fileSize fileSha1 blockInfos in
            let form := negotiationForm uploadJson in
            resp <- call (api_postForm CreateFile form)
                         (EvPostForm CreateFile form) ;;
            match resp with
            | inr err => ret (inr err)
            | inl resp =>
                afterNegotiation filePath parentId fileName fileSize fileSha1 resp
            end
        end
  end.

End Program.

(** ** Predicates on traces *)

(** The events of the chunking pass of [getFileBlocks]. *)
Definition isChunking (ev : Event) : bool :=
  match ev with
  | EvOpen _ _ | EvSeek _ _ | EvRead _ _ _ => true
  | _ => false
  end.

(** The open succeeded, the read returned no error. *)
Definition ioSucceeded (ev : Event) : bool :=
  match ev with
  | EvOpen _ (inr _) => false
  | EvRead _ _ (Some _) => false
  | _ => true
  end.

Definition isTransfer (ev : Event) : bool :=
  match ev with
  | EvUploadBlockDo _ _ => true
  | _ => false
  end.

Definition isCommit (ev : Event) : bool :=
  match ev with
  | EvCreateFile _ _ | EvCreateFileDo _ _ => true
  | _ => false
  end.

(** A transfer the node did not complete: the transport failed, or the
    status marker of the response is not the accepted one. *)
Definition failedTransfer (ev : Event) : bool :=
  match ev with
  | EvUploadBlockDo _ (inr _) => true
  | EvUploadBlockDo _ (inl response) =>
      negb (String.eqb (gjson.String_ (gjson.Get (RespBody response) "stat"))
                       "BLOCK_COMPLETED")
  | _ => false
  end.

(** What the program does on its own machine. *)
Definition isLocal (ev : Event) : bool :=
  match ev with
  | EvStat _ _ | EvFilePathHash _ _ _ | EvOpen _ _ | EvSeek _ _
  | EvRead _ _ _ | EvFileStat _ => true
  | _ => false
  end.

Definition isCreateFileCall (ev : Event) : bool :=
  match ev with
  | EvCreateFile _ _ => true
  | _ => false
  end.

Definition inLoop (ev : Event) : bool := isLocal ev || isTransfer ev.

Definition pastNegotiation (ev : Event) : bool :=
  isLocal ev || isTransfer ev || isCommit ev.

(** Nothing follows the first failed transfer. *)
Fixpoint abortsAtFailure (t : list Event) : bool :=
  match t with
  | [] => true
  | ev :: rest =>
      if failedTransfer ev then
        match rest with
        | [] => true
        | _ => false
        end
      else abortsAtFailure rest
  end.

(** What [uploadBlock] returns past the transfer (file.go:241-250). *)
Definition transferOutcome (res : Response + error)
  : outcome (CommitMeta + error) :=
  match res with
  | inr err => Returned (inr err)
  | inl response =>
      if String.eqb (gjson.String_ (gjson.Get (RespBody response) "stat"))
                    "BLOCK_COMPLETED"
      then Returned
             (inl [("commit_meta",
                    gjson.String_ (gjson.Get (RespBody response) "commit_meta"))])
      else Returned (inr (errors_New "block not completed"))
  end.

(** The commit token of an entry that already exists (file.go:220). *)
Definition existingToken (m : gjson.Result) : CommitMeta :=
  [("commit_meta", gjson.String_ (gjson.Get m "commit_meta"))].

Definition isCreateFileDo (ev : Event) : bool :=
  match ev with
  | EvCreateFileDo _ _ => true
  | _ => false
  end.

Definition count (p : Event -> bool) (t : list Event) : nat :=
  List.length (filter p t).

Definition sumSizes (blockInfos : list BlockInfo) : Z :=
  fold_right (fun b acc => Size b + acc) 0 blockInfos.

(** ** A scripted world

    A file of [toySize] bytes whose reads fail at the offsets [toyReadFails]
    picks, a server that answers the negotiation with [toyNegotiation],
    every block transfer with [toyBlock] and the commit with [toyCommit].
    The state of the world is the read cursor of the file. *)

Record Toy : Type :=
  { toySize : Z;
    toyReadFails : Z -> bool;
    toyNegotiation : gjson.Result + error;
    toyBlock : Response + error;
    toyCommit : Response + error }.

Definition toyCommitURL : string := "https://i.mi.test/create".

Definition toyEnv (t : Toy) : Env Z :=
  {| os_Stat := fun _ w => (inl {| fiSize := toySize t |}, w);
     os_OpenFile := fun _ w => (inl 3, w);
     file_Seek := fun _ offset _ => (None, offset);
     file_Read := fun _ b w =>
       if toyReadFails t w
       then ((data b, 0, Some (os_error "input/output error")), w)
       else ((fun _ => Byte.x01, len b, None), w + len b);
     file_Stat := fun _ w => (inl {| fiSize := toySize t |}, w);
     path_Base := fun p => p;
     utils_FilePathHash := fun p alg w => ((alg ++ ":" ++ p)%string, w);
     utils_FileHash := fun b alg => alg;
     json_Marshal := fun _ => inl "{}";
     url_Encode := fun _ => "data=%7B%7D";
     http_NewRequest := fun m u b =>
       inl {| Method := m; URL := u; Header := []; ReqBody := b |};
     api_postForm := fun _ _ w => (toyNegotiation t, w);
     HttpClient_Do := fun req w =>
       if String.eqb (URL req) toyCommitURL then (toyCommit t, w)
       else (toyBlock t, w);
     ServiceToken := "token";
     CreateFile := "https://i.mi.test/create_block";
     UploadFileURL := toyCommitURL |}.

Definition obj (members : list (string * gjson.Result)) : gjson.Result :=
  gjson.JObject "" members.

Definition okResponse (body : gjson.Result) : Response + error :=
  inl {| RespBody := body; ReadAllErr := None |}.

(** A file of [ChunkSize + 1] bytes read without fault. *)
Definition toyTwoBlocks : Toy :=
  {| toySize := ChunkSize + 1;
     toyReadFails := fun _ => false;
     toyNegotiation := inr (os_error "connection refused");
     toyBlock := inr (os_error "connection refused");
     toyCommit := inr (os_error "connection refused") |}.

(** The same file, the read at the offset of the second block failing. *)
Definition toyBadRead : Toy :=
  {| toySize := ChunkSize + 1;
     toyReadFails := fun offset => offset =? ChunkSize;
     toyNegotiation := inr (os_error "connection refused");
     toyBlock := inr (os_error "connection refused");
     toyCommit := inr (os_error "connection refused") |}.

(** A file of one MiB. *)
Definition toySmall : Toy :=
  {| toySize := 1048576;
     toyReadFails := fun _ => false;
     toyNegotiation := inr (os_error "connection refused");
     toyBlock := inr (os_error "connection refused");
     toyCommit := inr (os_error "connection refused") |}.

(** An empty file. *)
Definition toyEmpty : Toy :=
  {| toySize := 0;
     toyReadFails := fun _ => false;
     toyNegotiation := inr (os_error "connection refused");
     toyBlock := inr (os_error "connection refused");
     toyCommit := inr (os_error "connection refused") |}.

Definition committedResponse : Response :=
  {| RespBody := obj [("result", gjson.JString "ok");
                      ("data", obj [("id", gjson.JString "42")])];
     ReadAllErr := None |}.

Definition committed : Response + error := inl committedResponse.

Definition toyForm : Values := [("data", ["{}"]); ("serviceToken", ["token"])].

Definition toyCommitRequest : Request :=
  {| Method := "POST"; URL := toyCommitURL;
     Header := [("DNT", "1"); ("Origin", "https://i.mi.com");
                ("Referer", "https://i.mi.com/drive");
                ("Content-Type", "application/x-www-form-urlencoded")];
     ReqBody := StringBody "data=%7B%7D" |}.

(** The kss part of a negotiation response. *)
Definition kssOf (nodes blocks : list gjson.Result) : gjson.Result :=
  obj [("result", gjson.JString "ok");
       ("data",
        obj [("storage",
              obj [("exists", gjson.JFalse);
                   ("uploadId", gjson.JString "u-7");
                   ("kss",
                    obj [("node_urls", gjson.JArray "" nodes);
                         ("file_meta", gjson.JString "fm");
                         ("secure_key", gjson.JString "sk");
                         ("block_metas", gjson.JArray "" blocks)])])])].

Definition needed (blockMeta : string) : gjson.Result :=
  obj [("block_meta", gjson.JString blockMeta)].

Definition existing (commitMeta : string) : gjson.Result :=
  obj [("is_existed", gjson.JNumber "1" 1);
       ("commit_meta", gjson.JString commitMeta)].

(** The flag written as a JSON boolean. *)
Definition existingTrue (commitMeta : string) : gjson.Result :=
  obj [("is_existed", gjson.JTrue);
       ("commit_meta", gjson.JString commitMeta)].

Definition respFileExists : gjson.Result :=
  obj [("result", gjson.JString "ok");
       ("data",
        obj [("storage",
              obj [("exists", gjson.JTrue);
                   ("uploadId", gjson.JString "u-7")])])].

(** The server already has the file of one MiB. *)
Definition toyFileExists : Toy :=
  {| toySize := 1048576;
     toyReadFails := fun _ => false;
     toyNegotiation := inl respFileExists;
     toyBlock := inr (os_error "connection refused");
     toyCommit := committed |}.

(** The server rejects the manifest, in a response that also says that the
    file exists. *)
Definition respRejectedExists : gjson.Result :=
  obj [("result", gjson.JString "error");
       ("description", gjson.JString "quota exceeded");
       ("data",
        obj [("storage",
              obj [("exists", gjson.JTrue);
                   ("uploadId", gjson.JString "u-7")])])].

Definition toyRejectedExists : Toy :=
  {| toySize := 1048576;
     toyReadFails := fun _ => false;
     toyNegotiation := inl respRejectedExists;
     toyBlock := inr (os_error "connection refused");
     toyCommit := committed |}.

(** The server names no node. *)
Definition toyNoNode : Toy :=
  {| toySize := 1048576;
     toyReadFails := fun _ => false;
     toyNegotiation := inl (kssOf [] [needed "bm0"]);
     toyBlock := okResponse (obj [("stat", gjson.JString "BLOCK_COMPLETED");
                                  ("commit_meta", gjson.JString "cm")]);
     toyCommit := committed |}.


(** A file of two blocks, the first known to the server, the second
    transferred. *)
Definition toyUpload : Toy :=
  {| toySize := ChunkSize + 1;
     toyReadFails := fun _ => false;
     toyNegotiation :=
       inl (kssOf [gjson.JString "https://node.test"]
                  [existing "cm0"; needed "bm1"]);
     toyBlock := okResponse (obj [("stat", gjson.JString "BLOCK_COMPLETED");
                                  ("commit_meta", gjson.JString "cm1")]);
     toyCommit := committed |}.

(** ** Reading the file accesses off a trace *)

(** The byte ranges read: each seek with the length of the read after it. *)
Fixpoint ranges (t : list Event) : list (Z * Z) :=
  match t with
  | [] => []
  | EvSeek _ offset :: (EvRead _ length _ :: rest) =>
      (offset, length) :: ranges rest
  | _ :: rest => ranges rest
  end.

(** The lengths of the reads that returned no error. *)
Definition readLengths (t : list Event) : list Z :=
  flat_map (fun ev => match ev with
                      | EvRead _ length None => [length]
                      | _ => []
                      end) t.

Definition isFailedRead (ev : Event) : bool :=
  match ev with
  | EvRead _ _ (Some _) => true
  | _ => false
  end.

(** The blocks of a file of [size] bytes: offset and length of each. *)
Definition blockRange (size : Z) (k : nat) : Z * Z :=
  (Z.of_nat k * ChunkSize, Z.min ChunkSize (size - Z.of_nat k * ChunkSize)).

Definition blockRanges (size : Z) : list (Z * Z) :=
  map (blockRange size) (seq 0 (Z.to_nat (numBlocks size))).

(** The ranges follow one another from [from] to [to], none empty. *)
Fixpoint tiles (l : list (Z * Z)) (from to : Z) : Prop :=
  match l with
  | [] => from = to
  | (offset, length) :: rest =>
      offset = from /\ 0 < length /\ tiles rest (from + length) to
  end.

(** ** Reading the exchange with the server off a trace *)

Definition isPostForm (ev : Event) : bool :=
  match ev with
  | EvPostForm _ _ _ => true
  | _ => false
  end.

(** The entry is not one that [uploadBlock] takes as existing. *)
Definition needsUpload (m : gjson.Result) : bool :=
  negb (gjson.Int (gjson.Get m "is_existed") =? 1).

(** The responses of the nodes to the transfers, in order. *)
Definition transferResponses (t : list Event) : list Response :=
  flat_map (fun ev => match ev with
                      | EvUploadBlockDo _ (inl response) => [response]
                      | _ => []
                      end) t.

(** The tokens of the entries: its own for an entry that exists, the one
    of the next response of a node for an entry that was transferred. *)
Fixpoint mergeTokens (blockMetas : list gjson.Result)
    (responses : list Response) : list CommitMeta :=
  match blockMetas with
  | [] => []
  | m :: rest =>
      if needsUpload m then
        match responses with
        | [] => []
        | response :: responses' =>
            [("commit_meta",
              gjson.String_ (gjson.Get (RespBody response) "commit_meta"))]
              :: mergeTokens rest responses'
        end
      else existingToken m :: mergeTokens rest responses
  end.

(** The indices, from [k] on, of the entries that need the transfer. *)
Fixpoint neededFrom (k : nat) (blockMetas : list gjson.Result) : list nat :=
  match blockMetas with
  | [] => []
  | m :: rest =>
      if needsUpload m then k :: neededFrom (S k) rest
      else neededFrom (S k) rest
  end.

(** What [createFile] returns past its request (file.go:270-283). *)
Definition commitOutcome (res : Response + error) : outcome (string + error) :=
  match res with
  | inr err => Returned (inr err)
  | inl response =>
      match ReadAllErr response with
      | Some err => Returned (inr err)
      | None =>
          if String.eqb (gjson.String_ (gjson.Get (RespBody response) "result"))
                        "ok"
          then Returned
                 (inl (gjson.String_ (gjson.Get (RespBody response) "data.id")))
          else Returned
                 (inr (errors_New
                         (gjson.String_
                            (gjson.Get (RespBody response) "description"))))
      end
  end.

(** A commit request answered, read to the end, with the marker "ok". *)
Definition committedOk (ev : Event) : bool :=
  match ev with
  | EvCreateFileDo _ (inl response) =>
      match ReadAllErr response with
      | Some _ => false
      | None =>
          String.eqb (gjson.String_ (gjson.Get (RespBody response) "result"))
                     "ok"
      end
  | _ => false
  end.

(** The scripted world with a disk on which no file opens. *)
Definition toyEnvNoOpen (t : Toy) : Env Z :=
  {| os_Stat := os_Stat (Env := toyEnv t);
     os_OpenFile := fun _ w => (inr (os_error "permission denied"), w);
     file_Seek := file_Seek (Env := toyEnv t);
     file_Read := file_Read (Env := toyEnv t);
     file_Stat := file_Stat (Env := toyEnv t);
     path_Base := path_Base (Env := toyEnv t);
     utils_FilePathHash := utils_FilePathHash (Env := toyEnv t);
     utils_FileHash := utils_FileHash (Env := toyEnv t);
     json_Marshal := json_Marshal (Env := toyEnv t);
     url_Encode := url_Encode (Env := toyEnv t);
     http_NewRequest := http_NewRequest (Env := toyEnv t);
     api_postForm := api_postForm (Env := toyEnv t);
     HttpClient_Do := HttpClient_Do (Env := toyEnv t);
     ServiceToken := ServiceToken (Env := toyEnv t);
     CreateFile := CreateFile (Env := toyEnv t);
     UploadFileURL := UploadFileURL (Env := toyEnv t) |}.

(** The negotiation cannot be sent. *)
Definition toyOffline : Toy :=
  {| toySize := 1048576;
     toyReadFails := fun _ => false;
     toyNegotiation := inr (os_error "connection refused");
     toyBlock := inr (os_error "connection refused");
     toyCommit := inr (os_error "connection refused") |}.

(** The server asks for two blocks of a file that has one. *)
Definition toyTooManyBlocks : Toy :=
  {| toySize := 1048576;
     toyReadFails := fun _ => false;
     toyNegotiation :=
       inl (kssOf [gjson.JString "https://node.test"]
                  [needed "bm0"; needed "bm1"]);
     toyBlock := okResponse (obj [("stat", gjson.JString "BLOCK_COMPLETED");
                                  ("commit_meta", gjson.JString "cm")]);
     toyCommit := committed |}.

(** ** The other operations of the file

    [CreateFolder] and [DeleteFile] go through [api.postForm] like the
    negotiation.  The URL constants of the package and the encoding of the
    delete record are declared outside this file and are taken as given. *)

Record DeleteFileRecord : Type := { Id : string; Type_ : string }.

Section Folders.
Context {W : Type} {E : Env W}.
Variable CreateFolderURL : string.
Variable DeleteFilesURL : string.
Variable marshalRecords : list DeleteFileRecord -> string + error.

Definition createFolderForm (name parentId : string) : Values :=
  [("name", [name]); ("parentId", [parentId]);
   ("serviceToken", [ServiceToken])].

(** file.go:326-340. *)
Definition CreateFolder (name parentId : string) : M (string + error) :=
  resp <- call (api_postForm CreateFolderURL (createFolderForm name parentId))
               (EvPostForm CreateFolderURL (createFolderForm name parentId)) ;;
  match resp with
  | inr err => ret (inr err)
  | inl resp =>
      if String.eqb (gjson.String_ (gjson.Get resp "result")) "ok" then
        ret (inl (gjson.String_ (gjson.Get resp "data.id")))
      else ret (inr (errors_New "创建目录失败"))
  end.

(** The form of file.go:343-352; a failed [json.Marshal] leaves no bytes. *)
Definition deleteForm (id fType : string) : Values :=
  let content :=
    match marshalRecords [{| Id := id; Type_ := fType |}] with
    | inl s => s
    | inr _ => ""
    end in
  [("operateType", ["DELETE"]); ("operateRecords", [content]);
   ("serviceToken", [ServiceToken])].

(** file.go:342-361; [None] is the nil error. *)
Definition DeleteFile (id fType : string) : M (option error) :=
  resp <- call (api_postForm DeleteFilesURL (deleteForm id fType))
               (EvPostForm DeleteFilesURL (deleteForm id fType)) ;;
  match resp with
  | inr err => ret (Some err)
  | inl resp =>
      if String.eqb (gjson.String_ (gjson.Get resp "result")) "ok" then
        ret None
      else ret (Some (errors_New "删除失败"))
  end.

End Folders.

(** ** [strings.Trim] with a cutset of ASCII characters *)

Fixpoint inCutset (cutset : string) (c : ascii) : bool :=
  match cutset with
  | EmptyString => false
  | String d rest => Ascii.eqb c d || inCutset rest c
  end.

Fixpoint TrimLeft (s cutset : string) : string :=
  match s with
  | EmptyString => EmptyString
  | String c rest => if inCutset cutset c then TrimLeft rest cutset else s
  end.

Fixpoint TrimRight (s cutset : string) : string :=
  match s with
  | EmptyString => EmptyString
  | String c rest =>
      match TrimRight rest cutset with
      | EmptyString => if inCutset cutset c then EmptyString else String c ""
      | kept => String c kept
      end
  end.

Definition Trim (s cutset : string) : string :=
  TrimLeft (TrimRight s cutset) cutset.

Fixpoint lastChar (s : string) : option ascii :=
  match s with
  | EmptyString => None
  | String c EmptyString => Some c
  | String _ rest => lastChar rest
  end.

(** The text begins and ends with characters that are not of the cutset. *)
Definition delimited (cutset s : string) : bool :=
  match s, lastChar s with
  | String c _, Some d => negb (inCutset cutset c) && negb (inCutset cutset d)
  | _, _ => false
  end.

(** ** Reading files and folders

    [api.get], the plain HTTP client calls, the parser of [gjson] on a text
    and the decoder of the folder listing are taken as given, as are the
    URL formats [GetFiles] and [GetFolders] applied to an identifier.  The
    state of the world is passed along. *)

Section Reading.
Context {W : Type}.
Variable DriveFile : Type.

(** [Msg], as far as [GetFolder] reads it: [Result] and [Data.List]. *)
Record Msg : Type := { msgResult : string; msgList : list DriveFile }.

Variable api_get : string -> W -> (string + error) * W.
Variable HttpClient_Get : string -> W -> (Response + error) * W.
Variable HttpClient_PostForm : string -> Values -> W -> (Response + error) * W.
Variable gjson_Parse : string -> gjson.Result.
Variable json_Unmarshal : string -> Msg + error.
Variable GetFiles : string -> string.
Variable GetFolders : string -> string.

(** file.go:42 and 304. *)
Definition realUrlOf (result : string) : gjson.Result :=
  gjson_Parse (Trim result "callback()").

(** file.go:29-51; the response stands for the reader of its body. *)
Definition GetFile (id : string) (w : W) : (Response + error) * W :=
  match api_get (GetFiles id) w with
  | (inr err, w1) => (inr err, w1)
  | (inl result, w1) =>
      let realUrlStr :=
        gjson.String_ (gjson.Get (gjson_Parse result) "data.storage.jsonpUrl") in
      if String.eqb realUrlStr "" then
        (inr (errors_New "get fileUrl failed"), w1)
      else
        match api_get realUrlStr w1 with
        | (inr err, w2) => (inr err, w2)
        | (inl result, w2) =>
            let realUrl := realUrlOf result in
            match HttpClient_PostForm
                    (gjson.String_ (gjson.Get realUrl "url"))
                    [("meta", [gjson.String_ (gjson.Get realUrl "meta")])] w2 with
            | (inr err, w3) => (inr err, w3)
            | (inl resp, w3) => (inl resp, w3)
            end
        end
  end.

(** file.go:287-306. *)
Definition GetFileDownLoadUrl (id : string) (w : W) : (string + error) * W :=
  match HttpClient_Get (GetFiles id) w with
  | (inr err, w1) => (inr err, w1)
  | (inl resp, w1) =>
      match ReadAllErr resp with
      | Some err => (inr err, w1)
      | None =>
          let realUrlStr :=
            gjson.String_ (gjson.Get (RespBody resp) "data.storage.jsonpUrl") in
          if String.eqb realUrlStr "" then
            (inr (errors_New "get fileUrl failed"), w1)
          else
            match api_get realUrlStr w1 with
            | (inr err, w2) => (inr err, w2)
            | (inl result, w2) => (inl (gjson.String_ (realUrlOf result)), w2)
            end
      end
  end.

(** file.go:309-324. *)
Definition GetFolder (id : string) (w : W) : (list DriveFile + error) * W :=
  match api_get (GetFolders id) w with
  | (inr err, w1) => (inr err, w1)
  | (inl result, w1) =>
      match json_Unmarshal result with
      | inr err => (inr err, w1)
      | inl msg =>
          if String.eqb (msgResult msg) "ok" then (inl (msgList msg), w1)
          else (inr (errors_New "获取文件夹下文件失败"), w1)
      end
  end.

End Reading.

Arguments msgResult {DriveFile} _.
Arguments msgList {DriveFile} _.

(** A scripted server for the reading operations: the state counts the
    requests. *)
Definition toyMetaText : string := "{jsonpUrl=https://jsonp.test/x}".
Definition toyRealText : string := "{url=https://dl.test/f;meta=m1}".

Definition toyGet (url : string) (w : nat) : (string + error) * nat :=
  if String.eqb url "files/7" then (inl toyMetaText, S w)
  else if String.eqb url "https://jsonp.test/x"
       then (inl ("callback(" ++ toyRealText ++ ")")%string, S w)
       else if String.eqb url "folders/0" then (inl "listing", S w)
            else (inr (os_error "not found"), S w).

Definition toyParse (text : string) : gjson.Result :=
  if String.eqb text toyMetaText then
    obj [("data",
          obj [("storage",
                obj [("jsonpUrl", gjson.JString "https://jsonp.test/x")])])]
  else if String.eqb text toyRealText then
    gjson.JObject toyRealText
      [("url", gjson.JString "https://dl.test/f");
       ("meta", gjson.JString "m1")]
  else gjson.JNull.

Definition toyDownload : Response :=
  {| RespBody := gjson.JNull; ReadAllErr := None |}.

Definition toyPostForm (url : string) (form : Values) (w : nat)
  : (Response + error) * nat :=
  if String.eqb url "https://dl.test/f" then (inl toyDownload, S w)
  else (inr (os_error "not found"), S w).

Definition toyHttpGet (url : string) (w : nat) : (Response + error) * nat :=
  if String.eqb url "files/7" then
    (inl {| RespBody := toyParse toyMetaText; ReadAllErr := None |}, S w)
  else if String.eqb url "files/8" then
    (inl {| RespBody := obj [("data", obj [])]; ReadAllErr := None |}, S w)
  else (inr (os_error "not found"), S w).

Definition toyUnmarshal (text : string) : Msg string + error :=
  if String.eqb text "listing" then
    inl {| msgResult := "ok"; msgList := ["a.bin"; "b.bin"] |}
  else inr (os_error "unexpected end of JSON input").

Definition toyFilesFormat (id : string) : string := ("files/" ++ id)%string.
Definition toyFoldersFormat (id : string) : string := ("folders/" ++ id)%string.

(** The server creates the folder, and refuses to delete. *)
Definition toyFolders : Toy :=
  {| toySize := 0;
     toyReadFails := fun _ => false;
     toyNegotiation :=
       inl (obj [("result", gjson.JString "ok");
                 ("data", obj [("id", gjson.JString "f-9")])]);
     toyBlock := inr (os_error "connection refused");
     toyCommit := inr (os_error "connection refused") |}.

Definition toyRefusal : Toy :=
  {| toySize := 0;
     toyReadFails := fun _ => false;
     toyNegotiation :=
       inl (obj [("result", gjson.JString "error");
                 ("description", gjson.JString "no such file")]);
     toyBlock := inr (os_error "connection refused");
     toyCommit := inr (os_error "connection refused") |}.

Definition toyMarshalRecords (records : list DeleteFileRecord) : string + error :=
  inl "[{}]".

(** The server names a node and no block entry for a file of two blocks. *)
Definition toyNoEntries : Toy :=
  {| toySize := ChunkSize + 1;
     toyReadFails := fun _ => false;
     toyNegotiation := inl (kssOf [gjson.JString "https://node.test"] []);
     toyBlock := inr (os_error "connection refused");
     toyCommit := committed |}.

(** * Properties *)

Lemma int64_small (x : Z) :
  -9223372036854775808 <= x < 9223372036854775808 -> int64 x = x.
Proof.
  intros H. unfold int64.
  change (2 ^ 63) with 9223372036854775808.
  change (2 ^ 64) with 18446744073709551616.
  rewrite Z.mod_small; lia.
Qed.

Example get_nested :
  gjson.Get (obj [("data", obj [("id", gjson.JString "7")])]) "data.id"
  = gjson.JString "7".
Proof. reflexivity. Qed.

Example int_of_true : gjson.Int gjson.JTrue = 1.
Proof. reflexivity. Qed.

Example int_of_text : gjson.Int (gjson.JString "-12") = -12.
Proof. reflexivity. Qed.

Example array_of_absent : gjson.Array (gjson.Get (obj []) "node_urls") = [].
Proof. reflexivity. Qed.

Section Runs.
Context {W : Type} {E : Env W}.

Lemma bind_call {A B} (f : W -> A * W) (ev : A -> Event) (k : A -> M B) (w : W) :
  bind (call f ev) k w =
  let r := k (fst (f w)) (snd (f w)) in
  (outcome_of r, world_of r, ev (fst (f w)) :: trace_of r).
Proof.
  unfold bind, call. destruct (f w) as [a w1]. simpl.
  destruct (k a w1) as [[o w2] t2]. reflexivity.
Qed.

Lemma bind_ret {A B} (a : A) (k : A -> M B) (w : W) :
  bind (ret a) k w = k a w.
Proof.
  unfold bind, ret. destruct (k a w) as [[o w2] t2]. reflexivity.
Qed.

Lemma bind_mark {B} (ev : Event) (k : unit -> M B) (w : W) :
  bind (mark ev) k w =
  let r := k tt w in (outcome_of r, world_of r, ev :: trace_of r).
Proof.
  unfold bind, mark. destruct (k tt w) as [[o w2] t2]. reflexivity.
Qed.

Lemma bind_Returned {A B} (m : M A) (k : A -> M B) (w : W) (a : A) :
  outcome_of (m w) = Returned a ->
  bind m k w =
  let r := k a (world_of (m w)) in
  (outcome_of r, world_of r, trace_of (m w) ++ trace_of r).
Proof.
  unfold bind, outcome_of, world_of, trace_of.
  destruct (m w) as [[o w1] t1]. cbn [fst snd]. intros ->.
  destruct (k a w1) as [[o2 w2] t2]. reflexivity.
Qed.

Lemma bind_Panicked {A B} (m : M A) (k : A -> M B) (w : W) (msg : string) :
  outcome_of (m w) = Panicked msg ->
  bind m k w = (Panicked msg, world_of (m w), trace_of (m w)).
Proof.
  unfold bind, outcome_of, world_of, trace_of.
  destruct (m w) as [[o w1] t1]. cbn [fst snd]. intros ->. reflexivity.
Qed.

Lemma bind_trace {A B} (m : M A) (k : A -> M B) (w : W) :
  exists t2, trace_of (bind m k w) = trace_of (m w) ++ t2.
Proof.
  unfold bind. destruct (m w) as [[[a | msg] w1] t1]; simpl.
  - destruct (k a w1) as [[o w2] t2]. exists t2. reflexivity.
  - exists []. now rewrite app_nil_r.
Qed.

Lemma bind_panic {A B} (msg : string) (k : A -> M B) (w : W) :
  bind (panic msg) k w = (Panicked msg, w, []).
Proof. reflexivity. Qed.

Lemma bind_forallb {A B} (P : Event -> bool) (m : M A) (k : A -> M B) (w : W) :
  forallb P (trace_of (m w)) = true ->
  (forall a w', forallb P (trace_of (k a w')) = true) ->
  forallb P (trace_of (bind m k w)) = true.
Proof.
  intros Hm Hk. unfold bind, trace_of in *.
  destruct (m w) as [[[a | msg] w1] t1]; cbn [snd] in *; [| exact Hm].
  specialize (Hk a w1). destruct (k a w1) as [[o w2] t2]. cbn [snd] in *.
  rewrite forallb_app, Hm, Hk. reflexivity.
Qed.

Lemma call_forallb {A} (P : Event -> bool) (f : W -> A * W) (ev : A -> Event)
    (w : W) :
  (forall a, P (ev a) = true) ->
  forallb P (trace_of (call f ev w)) = true.
Proof.
  intros H. unfold call, trace_of. destruct (f w) as [a w1]. cbn.
  now rewrite H.
Qed.

Lemma forallb_weaken (P Q : Event -> bool) (t : list Event) :
  (forall ev, P ev = true -> Q ev = true) ->
  forallb P t = true -> forallb Q t = true.
Proof.
  intros HPQ H. rewrite forallb_forall in *. auto.
Qed.

Lemma forallb_existsb_false (P Q : Event -> bool) (t : list Event) :
  (forall ev, P ev = true -> Q ev = false) ->
  forallb P t = true -> existsb Q t = false.
Proof.
  intros HPQ H. induction t as [| ev t IH]; [reflexivity |].
  cbn in *. apply andb_true_iff in H as [H1 H2].
  rewrite (HPQ _ H1), (IH H2). reflexivity.
Qed.

Lemma local_not_failed (t : list Event) :
  forallb isLocal t = true -> existsb failedTransfer t = false.
Proof.
  apply forallb_existsb_false. intros [] H; try discriminate H; reflexivity.
Qed.

Lemma abortsAtFailure_app (t1 t2 : list Event) :
  existsb failedTransfer t1 = false ->
  abortsAtFailure (t1 ++ t2) = abortsAtFailure t2.
Proof.
  induction t1 as [| ev t1 IH]; intros H; [reflexivity |].
  cbn in *. apply orb_false_iff in H as [H1 H2]. rewrite H1. auto.
Qed.

Lemma abortsAtFailure_clean (t : list Event) :
  existsb failedTransfer t = false -> abortsAtFailure t = true.
Proof.
  intros H. rewrite <- (app_nil_r t). rewrite abortsAtFailure_app; auto.
Qed.

Lemma abortsAtFailure_last (t : list Event) (ev : Event) :
  existsb failedTransfer t = false -> abortsAtFailure (t ++ [ev]) = true.
Proof.
  intros H. rewrite abortsAtFailure_app by exact H.
  cbn. destruct (failedTransfer ev); reflexivity.
Qed.


End Runs.

Section SizeCheck.
Context {W : Type} {E : Env W}.

(** C3.  When [os.Stat] gives a size that is 0 or at least 4*1024*1024*1024,
    [UploadFile] returns [SizeTooBigError] and the run consists of the
    [Stat] alone: no digest was computed.  For a size strictly between, the
    run goes on with the SHA-1 of the file. *)
Theorem UploadFile_size_check (filePath parentId : string) (w w1 : W)
    (fileInfo : FileInfo) :
  os_Stat filePath w = (inl fileInfo, w1) ->
  (fiSize fileInfo = 0 \/ 4 * 1024 * 1024 * 1024 <= fiSize fileInfo ->
   UploadFile filePath parentId w
   = (Returned (inr SizeTooBigError), w1, [EvStat filePath (inl fileInfo)]))
  /\
  (0 < fiSize fileInfo < 4 * 1024 * 1024 * 1024 ->
   exists rest,
     trace_of (UploadFile filePath parentId w)
     = EvStat filePath (inl fileInfo)
       :: EvFilePathHash filePath "sha1"
            (fst (utils_FilePathHash filePath "sha1" w1))
       :: rest).
Proof.
  intros Hstat. unfold UploadFile. rewrite bind_call, Hstat. cbn [fst snd].
  split; intros Hsize.
  - replace ((fiSize fileInfo =? 0) || (fiSize fileInfo >=? 4 * 1024 * 1024 * 1024))
      with true by (symmetry; apply orb_true_iff; lia).
    reflexivity.
  - replace ((fiSize fileInfo =? 0) || (fiSize fileInfo >=? 4 * 1024 * 1024 * 1024))
      with false by (symmetry; apply orb_false_iff; lia).
    cbn [trace_of snd]. unfold FilePathHash. rewrite bind_call.
    cbn [trace_of snd]. eexists. reflexivity.
Qed.

End SizeCheck.

Section Chunking.
Context {W : Type} {E : Env W}.

Lemma numBlocks_div (size : Z) : numBlocks size = - ((- size) / ChunkSize).
Proof.
  unfold numBlocks, Qceiling, Qfloor, Qdiv, Qmult, Qinv, Qopp, inject_Z, ChunkSize.
  cbn -[Z.div Z.mul Z.opp].
  rewrite Z.mul_1_r. reflexivity.
Qed.

Lemma numBlocks_ceil (size : Z) :
  0 < size -> numBlocks size = (size + ChunkSize - 1) / ChunkSize.
Proof.
  intros H. rewrite numBlocks_div. unfold ChunkSize.
  Z.div_mod_to_equations. lia.
Qed.

Lemma bind_Read {B} (file : File) (b : Buffer) (k : Buffer * option error -> M B)
    (w : W) :
  bind (Read file b) k w =
  let x := file_Read file b w in
  let err := snd (fst x) in
  let r := k ({| len := len b; data := fst (fst (fst x)) |}, err) (snd x) in
  (outcome_of r, world_of r, EvRead file (len b) err :: trace_of r).
Proof.
  unfold bind, Read. destruct (file_Read file b w) as [[[d n] err] w1].
  cbn [fst snd].
  match goal with |- context [k ?a ?b] => destruct (k a b) as [[o w2] t2] end.
  reflexivity.
Qed.

Lemma make_nonneg (n : Z) : 0 <= n ->
  make (W := W) n = ret {| len := n; data := fun _ => Byte.x00 |}.
Proof.
  intros H. unfold make. destruct (Z.ltb_spec n 0); [lia | reflexivity].
Qed.

(** One turn of the loop of [getFileBlocks], the read being given. *)
Lemma blocksLoop_step (n : nat) (fileInfo : FileInfo) (file : File) (i : Z)
    (b : Buffer) (acc : list BlockInfo) (w : W) :
  0 < fiSize fileInfo < 4294967296 ->
  1 <= i <= numBlocks (fiSize fileInfo) ->
  len b = ChunkSize ->
  let remaining := fiSize fileInfo - (i - 1) * ChunkSize in
  let size := Z.min ChunkSize remaining in
  let w1 := snd (file_Seek file ((i - 1) * ChunkSize) w) in
  exists b1, len b1 = size /\
  let x := file_Read file b1 w1 in
  let b2 := {| len := size; data := fst (fst (fst x)) |} in
  let r :=
    blocksLoop n fileInfo file (i + 1) b2
      (match snd (fst x) with
       | Some _ => acc
       | None => acc ++ [{| Sha1 := utils_FileHash b2 "sha1";
                            Md5 := utils_FileHash b2 "md5";
                            Size := size |}]
       end) (snd x) in
  blocksLoop (S n) fileInfo file i b acc w
  = (outcome_of r, world_of r,
     EvSeek file ((i - 1) * ChunkSize)
       :: EvRead file size (snd (fst x)) :: trace_of r).
Proof.
  intros Hs Hi Hb remaining size w1.
  assert (Hnum := numBlocks_div (fiSize fileInfo)).
  assert (Hrem : 0 < remaining).
  { subst remaining. unfold ChunkSize in *. Z.div_mod_to_equations. lia. }
  assert (Hoff : int64 ((i - 1) * ChunkSize) = (i - 1) * ChunkSize).
  { apply int64_small. unfold ChunkSize in *. Z.div_mod_to_equations. lia. }
  assert (Hrem64 : int64 (fiSize fileInfo - (i - 1) * ChunkSize) = remaining).
  { apply int64_small. subst remaining. unfold ChunkSize in *.
    Z.div_mod_to_equations. lia. }
  assert (Hi64 : int64 (i + 1) = i + 1).
  { apply int64_small. unfold ChunkSize in *. Z.div_mod_to_equations. lia. }
  exists (if len b >? remaining
          then {| len := remaining; data := fun _ => Byte.x00 |} else b).
  split.
  { subst size. destruct (Z.gtb_spec (len b) remaining); cbn [len]; lia. }
  cbn [blocksLoop]. rewrite Hoff, Hrem64, Hi64.
  unfold Seek. rewrite bind_call. fold w1.
  assert (Hb1 : forall B (k : Buffer -> M B) (w' : W),
             bind (if len b >? remaining then make remaining else ret b) k w'
             = k (if len b >? remaining
                  then {| len := remaining; data := fun _ => Byte.x00 |}
                  else b) w').
  { intros B k w'. destruct (len b >? remaining).
    - rewrite make_nonneg by lia. apply bind_ret.
    - apply bind_ret. }
  cbv zeta. rewrite Hb1. rewrite bind_Read. cbv zeta.
  set (b1 := if len b >? remaining
             then {| len := remaining; data := fun _ => Byte.x00 |} else b).
  assert (Hlen : len b1 = size).
  { subst b1 size. destruct (Z.gtb_spec (len b) remaining); cbn [len]; lia. }
  rewrite Hlen.
  destruct (file_Read file b1 w1) as [[[d cnt] [err |]] w2]; cbn [fst snd];
    reflexivity.
Qed.

(** With every read succeeding, the loop appends one block per turn: full
    blocks, then the tail. *)
Lemma blocksLoop_sizes (n : nat) (fileInfo : FileInfo) (file : File) :
  0 < fiSize fileInfo < 4294967296 ->
  forall (i : Z) (b : Buffer) (acc : list BlockInfo) (w : W),
    1 <= i ->
    Z.of_nat (S n) = numBlocks (fiSize fileInfo) - i + 1 ->
    len b = ChunkSize ->
    forallb ioSucceeded
      (trace_of (blocksLoop (S n) fileInfo file i b acc w)) = true ->
    exists blocks,
      outcome_of (blocksLoop (S n) fileInfo file i b acc w)
      = Returned (acc ++ blocks)
      /\ map Size blocks
         = repeat ChunkSize n ++ [lastBlockSize (fiSize fileInfo)].
Proof.
  intros Hs. induction n as [| n IH]; intros i b acc w Hi Hn Hb Hio.
  - destruct (blocksLoop_step 0 fileInfo file i b acc w Hs ltac:(lia) Hb)
      as [b1 [Hlen Hstep]].
    cbv zeta in Hstep. rewrite Hstep in *. clear Hstep.
    cbn [trace_of snd forallb ioSucceeded] in Hio.
    destruct (snd (fst (file_Read file b1 _))) as [err |];
      [discriminate Hio |].
    eexists [_]. split; [reflexivity |].
    cbn [map repeat app Size]. f_equal.
    unfold lastBlockSize. replace (numBlocks (fiSize fileInfo)) with i by lia.
    assert (Hnum := numBlocks_div (fiSize fileInfo)).
    unfold ChunkSize in *. Z.div_mod_to_equations. lia.
  - destruct (blocksLoop_step (S n) fileInfo file i b acc w Hs ltac:(lia) Hb)
      as [b1 [Hlen Hstep]].
    cbv zeta in Hstep. rewrite Hstep in *. clear Hstep.
    cbn [trace_of snd forallb ioSucceeded] in Hio.
    destruct (snd (fst (file_Read file b1 _))) as [err |];
      [discriminate Hio |].
    assert (Hfull : Z.min ChunkSize (fiSize fileInfo - (i - 1) * ChunkSize)
                    = ChunkSize).
    { assert (Hnum := numBlocks_div (fiSize fileInfo)).
      unfold ChunkSize in *. Z.div_mod_to_equations. lia. }
    cbn [andb] in Hio.
    match type of Hio with
    | context [blocksLoop (S n) fileInfo file (i + 1) ?b2 ?acc2 ?w2] =>
        destruct (IH (i + 1) b2 acc2 w2 ltac:(lia) ltac:(lia) Hfull Hio)
          as [blocks [Hout Hsizes]]
    end.
    unfold outcome_of in *. cbn [fst]. rewrite Hout.
    eexists (_ :: blocks). split.
    + rewrite <- app_assoc. reflexivity.
    + cbn [map repeat app Size]. rewrite Hsizes, Hfull. reflexivity.
Qed.

Lemma sizes_shape (c x : Z) (n : nat) :
  forall blocks : list BlockInfo,
    map Size blocks = repeat c n ++ [x] ->
    List.length blocks = S n
    /\ sumSizes blocks = Z.of_nat n * c + x
    /\ Forall (fun b => Size b = c) (removelast blocks).
Proof.
  induction n as [| n IH]; intros blocks H.
  - destruct blocks as [| b [| b' rest]]; try discriminate H.
    injection H as H. cbn. repeat split; [lia | constructor].
  - destruct blocks as [| b blocks]; [discriminate H |].
    cbn [map repeat app] in H. injection H as Hb Hrest.
    destruct (IH blocks Hrest) as [Hlen [Hsum Hall]].
    destruct blocks as [| b' rest]; [discriminate Hlen |].
    repeat split.
    + cbn [List.length] in *. lia.
    + change (sumSizes (b :: b' :: rest))
        with (Size b + sumSizes (b' :: rest)).
      rewrite Hsum, Hb. lia.
    + change (removelast (b :: b' :: rest))
        with (b :: removelast (b' :: rest)).
      constructor; assumption.
Qed.

(** Past the open, [getFileBlocks] returns the list the loop built. *)
Lemma getFileBlocks_sizes (fileInfo : FileInfo) (filePath : string) (w : W) :
  ChunkSize < fiSize fileInfo < 4294967296 ->
  forallb ioSucceeded (trace_of (getFileBlocks fileInfo filePath w)) = true ->
  exists blocks,
    outcome_of (getFileBlocks fileInfo filePath w) = Returned (inl blocks)
    /\ map Size blocks
       = repeat ChunkSize (Z.to_nat (numBlocks (fiSize fileInfo) - 1))
         ++ [lastBlockSize (fiSize fileInfo)].
Proof.
  intros Hs Hio. unfold getFileBlocks in *. rewrite bind_call in *.
  cbv zeta in *. cbn [trace_of snd outcome_of fst forallb] in *.
  destruct (os_OpenFile filePath w) as [[file | err] w1]; cbn [fst snd] in *;
    [| discriminate Hio].
  cbn [ioSucceeded andb] in Hio.
  rewrite make_nonneg in * by (unfold ChunkSize; lia).
  rewrite bind_ret in *.
  assert (Hnum := numBlocks_div (fiSize fileInfo)).
  assert (Hn : Z.to_nat (numBlocks (fiSize fileInfo))
               = S (Z.to_nat (numBlocks (fiSize fileInfo) - 1))).
  { unfold ChunkSize in *. Z.div_mod_to_equations. lia. }
  rewrite Hn in *.
  pose proof (bind_trace
    (blocksLoop (S (Z.to_nat (numBlocks (fiSize fileInfo) - 1))) fileInfo file 1
       {| len := ChunkSize; data := fun _ => Byte.x00 |} [])
    (fun blockInfos => ret (@inl _ error blockInfos)) w1) as [t2 Ht].
  unfold trace_of in Ht, Hio. rewrite Ht in Hio.
  rewrite forallb_app in Hio. apply andb_true_iff in Hio as [Hio _].
  assert (Hcount : Z.of_nat (S (Z.to_nat (numBlocks (fiSize fileInfo) - 1)))
                   = numBlocks (fiSize fileInfo) - 1 + 1) by lia.
  assert (Hrange : 0 < fiSize fileInfo < 4294967296)
    by (unfold ChunkSize in Hs; lia).
  destruct (blocksLoop_sizes _ fileInfo file Hrange 1
              {| len := ChunkSize; data := fun _ => Byte.x00 |} [] w1
              ltac:(lia) Hcount eq_refl Hio) as [blocks [Hout Hsizes]].
  exists blocks. split; [| exact Hsizes].
  rewrite (bind_Returned _ _ _ _ Hout). reflexivity.
Qed.

(** The block list of file.go:70-88, the open and the reads succeeding. *)
Lemma buildBlockInfos_sizes (fileInfo : FileInfo) (filePath fileSha1 : string)
    (w : W) :
  0 < fiSize fileInfo < 4 * 1024 * 1024 * 1024 ->
  forallb ioSucceeded
    (trace_of (buildBlockInfos fileInfo filePath (fiSize fileInfo) fileSha1 w))
  = true ->
  exists blockInfos,
    outcome_of (buildBlockInfos fileInfo filePath (fiSize fileInfo) fileSha1 w)
    = Returned (inl blockInfos)
    /\ Z.of_nat (List.length blockInfos)
       = (fiSize fileInfo + ChunkSize - 1) / ChunkSize
    /\ sumSizes blockInfos = fiSize fileInfo
    /\ Forall (fun b => Size b = ChunkSize) (removelast blockInfos)
    /\ (fiSize fileInfo <= ChunkSize ->
        List.length blockInfos = 1%nat
        /\ existsb isChunking
             (trace_of (buildBlockInfos fileInfo filePath (fiSize fileInfo)
                          fileSha1 w)) = false)
    /\ (fiSize fileInfo = ChunkSize + 1 -> List.length blockInfos = 2%nat).
Proof.
  intros Hs Hio. unfold buildBlockInfos in *.
  destruct (Z.gtb_spec (fiSize fileInfo) ChunkSize) as [Hbig | Hsmall].
  - pose proof (bind_trace (getFileBlocks fileInfo filePath)
      (fun r => match r with
                | inr _ => ret (inr (errors_New "get file blocks failed"))
                | inl blockInfos => ret (inl blockInfos)
                end) w) as [t2 Ht].
    rewrite Ht in Hio. rewrite forallb_app in Hio.
    apply andb_true_iff in Hio as [Hio _].
    destruct (getFileBlocks_sizes fileInfo filePath w ltac:(lia) Hio)
      as [blocks [Hout Hsizes]].
    rewrite (bind_Returned _ _ _ _ Hout). cbv zeta. cbn [outcome_of fst ret].
    exists blocks.
    destruct (sizes_shape _ _ _ _ Hsizes) as [Hlen [Hsum Hall]].
    assert (Hnum := numBlocks_div (fiSize fileInfo)).
    split; [reflexivity |]. split; [| split; [| split; [exact Hall | split]]].
    + rewrite Hlen. unfold ChunkSize in *. Z.div_mod_to_equations. lia.
    + rewrite Hsum. unfold lastBlockSize.
      replace (Z.of_nat (Z.to_nat (numBlocks (fiSize fileInfo) - 1)))
        with (numBlocks (fiSize fileInfo) - 1); [lia |].
      unfold ChunkSize in *. Z.div_mod_to_equations. lia.
    + lia.
    + intros Heq. rewrite Hlen. f_equal.
      unfold ChunkSize in *. Z.div_mod_to_equations. lia.
  - unfold FilePathHash. rewrite bind_call. cbv zeta.
    cbn [outcome_of trace_of fst snd ret existsb isChunking orb].
    eexists [_]. split; [reflexivity |].
    cbn [List.length sumSizes fold_right Size removelast].
    repeat split; try lia; try constructor.
    unfold ChunkSize in *. Z.div_mod_to_equations. lia.
Qed.

(** Past the size check, [UploadFile] posts the manifest made of the block
    list. *)
Lemma UploadFile_posts_manifest (filePath parentId : string) (w w1 w2 : W)
    (fileInfo : FileInfo) (fileSha1 : string) (blockInfos : list BlockInfo) :
  os_Stat filePath w = (inl fileInfo, w1) ->
  utils_FilePathHash filePath "sha1" w1 = (fileSha1, w2) ->
  0 < fiSize fileInfo < 4 * 1024 * 1024 * 1024 ->
  outcome_of (buildBlockInfos fileInfo filePath (fiSize fileInfo) fileSha1 w2)
  = Returned (inl blockInfos) ->
  exists res rest,
    trace_of (UploadFile filePath parentId w)
    = EvStat filePath (inl fileInfo)
        :: EvFilePathHash filePath "sha1" fileSha1
        :: trace_of (buildBlockInfos fileInfo filePath (fiSize fileInfo)
                       fileSha1 w2)
        ++ EvPostForm CreateFile
             (negotiationForm
                (manifest (path_Base filePath) (fiSize fileInfo) fileSha1
                   blockInfos))
             res
        :: rest.
Proof.
  intros Hstat Hsha Hs Hout.
  unfold UploadFile. rewrite bind_call, Hstat. cbv zeta.
  cbn [outcome_of world_of trace_of fst snd].
  replace ((fiSize fileInfo =? 0) || (fiSize fileInfo >=? 4 * 1024 * 1024 * 1024))
    with false by (symmetry; apply orb_false_iff; lia).
  unfold FilePathHash at 1. rewrite bind_call, Hsha. cbv zeta.
  cbn [outcome_of world_of trace_of fst snd].
  rewrite (bind_Returned _ _ _ _ Hout). cbv zeta.
  cbn [outcome_of world_of trace_of fst snd].
  rewrite bind_call. cbv zeta. cbn [outcome_of world_of trace_of fst snd].
  eauto.
Qed.

(** X22.  For a size [s] with [0 < s < 4 GiB], in a run whose open and
    reads of the chunking pass succeed, [UploadFile] posts a manifest whose
    block list has [ceil(s/ChunkSize)] entries, with sizes that add up to
    [s] and, but for the last, equal [ChunkSize]; for [s <= ChunkSize] the
    list is one entry and was made without an event of the chunking pass,
    for [s = ChunkSize + 1] it has two entries. *)
Theorem manifest_blocks (filePath parentId : string) (w w1 w2 : W)
    (fileInfo : FileInfo) (fileSha1 : string) :
  os_Stat filePath w = (inl fileInfo, w1) ->
  utils_FilePathHash filePath "sha1" w1 = (fileSha1, w2) ->
  0 < fiSize fileInfo < 4 * 1024 * 1024 * 1024 ->
  forallb ioSucceeded
    (trace_of (buildBlockInfos fileInfo filePath (fiSize fileInfo) fileSha1 w2))
  = true ->
  exists blockInfos res rest,
    trace_of (UploadFile filePath parentId w)
    = EvStat filePath (inl fileInfo)
        :: EvFilePathHash filePath "sha1" fileSha1
        :: trace_of (buildBlockInfos fileInfo filePath (fiSize fileInfo)
                       fileSha1 w2)
        ++ EvPostForm CreateFile
             (negotiationForm
                {| Content :=
                     {| Name := path_Base filePath;
                        Storage :=
                          UploadStorage (fiSize fileInfo) fileSha1
                            (UploadKss blockInfos) "" false |} |})
             res
        :: rest
    /\ Z.of_nat (List.length blockInfos)
       = (fiSize fileInfo + ChunkSize - 1) / ChunkSize
    /\ sumSizes blockInfos = fiSize fileInfo
    /\ Forall (fun b => Size b = ChunkSize) (removelast blockInfos)
    /\ (fiSize fileInfo <= ChunkSize ->
        List.length blockInfos = 1%nat
        /\ existsb isChunking
             (trace_of (buildBlockInfos fileInfo filePath (fiSize fileInfo)
                          fileSha1 w2)) = false)
    /\ (fiSize fileInfo = ChunkSize + 1 -> List.length blockInfos = 2%nat).
Proof.
  intros Hstat Hsha Hs Hio.
  destruct (buildBlockInfos_sizes fileInfo filePath fileSha1 w2 Hs Hio)
    as [blockInfos [Hout Hrest]].
  destruct (UploadFile_posts_manifest filePath parentId w w1 w2 fileInfo
              fileSha1 blockInfos Hstat Hsha Hs Hout) as [res [rest Htr]].
  exists blockInfos, res, rest. split; [exact Htr | exact Hrest].
Qed.

End Chunking.

(** The file of [ChunkSize + 1] bytes gives the two blocks. *)
Lemma manifest_blocks_witness :
  exists blockInfos res rest,
    trace_of (UploadFile (E := toyEnv toyTwoBlocks) "a.bin" "0" 0)
    = EvStat "a.bin" (inl {| fiSize := ChunkSize + 1 |})
        :: EvFilePathHash "a.bin" "sha1" "sha1:a.bin"
        :: trace_of (buildBlockInfos (E := toyEnv toyTwoBlocks)
                       {| fiSize := ChunkSize + 1 |} "a.bin" (ChunkSize + 1)
                       "sha1:a.bin" 0)
        ++ EvPostForm "https://i.mi.test/create_block"
             (negotiationForm (E := toyEnv toyTwoBlocks)
                (manifest "a.bin" (ChunkSize + 1) "sha1:a.bin" blockInfos))
             res
        :: rest
    /\ List.length blockInfos = 2%nat
    /\ sumSizes blockInfos = ChunkSize + 1.
Proof.
  destruct (manifest_blocks (E := toyEnv toyTwoBlocks) "a.bin" "0" 0 0 0
              {| fiSize := ChunkSize + 1 |} "sha1:a.bin")
    as [blockInfos [res [rest [Htr [_ [Hsum [_ [_ Htwo]]]]]]]].
  - reflexivity.
  - reflexivity.
  - cbn [fiSize]. unfold ChunkSize. lia.
  - vm_compute. reflexivity.
  - exists blockInfos, res, rest.
    split; [exact Htr | split; [apply Htwo; reflexivity | exact Hsum]].
Defined.

(** C2, at a file of [ChunkSize + 1] bytes whose second block cannot be
    read: [getFileBlocks] records the failed read and returns, without an
    error, a list that holds the first block only. *)
Theorem getFileBlocks_skips_unread_block :
  getFileBlocks (E := toyEnv toyBadRead) {| fiSize := ChunkSize + 1 |} "a.bin" 0
  = (Returned (inl [{| Sha1 := "sha1"; Md5 := "md5"; Size := ChunkSize |}]),
     ChunkSize,
     [EvOpen "a.bin" (inl 3);
      EvSeek 3 0; EvRead 3 ChunkSize None;
      EvSeek 3 ChunkSize; EvRead 3 1 (Some (os_error "input/output error"))]).
Proof. vm_compute. reflexivity. Qed.

(** C1, at a file of [ChunkSize + 1] bytes whose second block cannot be
    read: the size asks for [ceil(s/ChunkSize) = 2] blocks summing to
    [ChunkSize + 1], and the manifest that [UploadFile] builds and posts is
    the one block of [ChunkSize] bytes, the read error of file.go:197-200
    being dropped. *)
Theorem manifest_misses_unread_block :
  (ChunkSize + 1 + ChunkSize - 1) / ChunkSize = 2
  /\ outcome_of (buildBlockInfos (E := toyEnv toyBadRead)
                   {| fiSize := ChunkSize + 1 |} "a.bin" (ChunkSize + 1)
                   "sha1:a.bin" 0)
     = Returned (inl [{| Sha1 := "sha1"; Md5 := "md5"; Size := ChunkSize |}])
  /\ sumSizes [{| Sha1 := "sha1"; Md5 := "md5"; Size := ChunkSize |}]
     = ChunkSize
  /\ trace_of (UploadFile (E := toyEnv toyBadRead) "a.bin" "0" 0)
     = [EvStat "a.bin" (inl {| fiSize := ChunkSize + 1 |});
        EvFilePathHash "a.bin" "sha1" "sha1:a.bin";
        EvOpen "a.bin" (inl 3);
        EvSeek 3 0; EvRead 3 ChunkSize None;
        EvSeek 3 ChunkSize; EvRead 3 1 (Some (os_error "input/output error"));
        EvPostForm "https://i.mi.test/create_block"
          (negotiationForm (E := toyEnv toyBadRead)
             (manifest "a.bin" (ChunkSize + 1) "sha1:a.bin"
                [{| Sha1 := "sha1"; Md5 := "md5"; Size := ChunkSize |}]))
          (inr (os_error "connection refused"))].
Proof. repeat split; vm_compute; reflexivity. Qed.

Section Transfer.
Context {W : Type} {E : Env W}.

(** A run of [uploadBlock] on an entry that needs the transfer either stops
    before the request, and then does not succeed, or ends with the request
    and returns what the node's answer decides. *)
Lemma uploadBlock_needed_run (num : Z) (apiNode fileMeta : string)
    (file : File) (m : gjson.Result) (w : W) :
  gjson.Int (gjson.Get m "is_existed") <> 1 ->
  (forallb isLocal (trace_of (uploadBlock num apiNode fileMeta file m w)) = true
   /\ forall c, outcome_of (uploadBlock num apiNode fileMeta file m w)
                <> Returned (inl c))
  \/ (exists pre req res,
        forallb isLocal pre = true
        /\ trace_of (uploadBlock num apiNode fileMeta file m w)
           = pre ++ [EvUploadBlockDo req res]
        /\ outcome_of (uploadBlock num apiNode fileMeta file m w)
           = transferOutcome res).
Proof.
  intros Hneed. unfold uploadBlock.
  destruct (Z.eqb_spec (gjson.Int (gjson.Get m "is_existed")) 1) as [|_];
    [contradiction |].
  rewrite bind_call. cbv zeta. cbn [outcome_of trace_of fst snd].
  destruct (file_Stat file w) as [[fileInfo | err] w1]; cbn [fst snd].
  2: { left. split; [reflexivity | discriminate]. }
  set (offset := int64 (num * ChunkSize)).
  set (chunkSize := if ChunkSize >? int64 (fiSize fileInfo - offset)
                    then int64 (fiSize fileInfo - offset) else ChunkSize).
  unfold make. destruct (chunkSize <? 0).
  { rewrite bind_panic. left. split; [reflexivity | discriminate]. }
  rewrite bind_ret. unfold Seek. rewrite bind_call. cbv zeta.
  rewrite bind_Read. cbv zeta. cbn [outcome_of trace_of fst snd len].
  destruct (file_Read _ _ _) as [[[d cnt] [err |]] w2]; cbn [fst snd].
  { left. split; [reflexivity | discriminate]. }
  destruct (http_NewRequest _ _ _) as [request | err].
  2: { left. split; [reflexivity | discriminate]. }
  rewrite bind_call. cbv zeta. cbn [outcome_of trace_of fst snd].
  right.
  exists [EvFileStat file; EvSeek file offset; EvRead file chunkSize None].
  unfold transferOutcome.
  destruct (HttpClient_Do _ _) as [[response | err] w3]; cbn [fst snd];
    [destruct (String.eqb _ "BLOCK_COMPLETED") eqn:Hstat |];
    eexists; eexists; (split; [reflexivity |]);
    (split; [reflexivity |]); cbv beta iota; rewrite ?Hstat; reflexivity.
Qed.

Lemma uploadBlock_existing (num : Z) (apiNode fileMeta : string)
    (file : File) (m : gjson.Result) (w : W) :
  gjson.Int (gjson.Get m "is_existed") = 1 ->
  uploadBlock num apiNode fileMeta file m w
  = (Returned (inl (existingToken m)), w, []).
Proof.
  intros H. unfold uploadBlock. rewrite H. reflexivity.
Qed.

Lemma uploadBlocks_existing (blockMetas : list gjson.Result) :
  Forall (fun m => gjson.Int (gjson.Get m "is_existed") = 1) blockMetas ->
  forall (k : Z) (apiNode fileMeta : string) (file : File)
         (commitMetas : list CommitMeta) (w : W),
    uploadBlocks k apiNode fileMeta file blockMetas commitMetas w
    = (Returned (inl (commitMetas ++ map existingToken blockMetas)), w, []).
Proof.
  induction 1 as [| m rest Hm _ IH]; intros k apiNode fileMeta file acc w.
  - cbn. now rewrite app_nil_r.
  - cbn [uploadBlocks map].
    rewrite (bind_Returned _ _ _ (inl (existingToken m)))
      by (now rewrite uploadBlock_existing).
    cbv zeta. rewrite uploadBlock_existing by exact Hm.
    cbn [world_of trace_of fst snd]. rewrite IH.
    cbn [outcome_of world_of trace_of fst snd app].
    now rewrite <- app_assoc.
Qed.

(** C7.  On an entry whose [is_existed] reads 1, [uploadBlock] returns the
    entry's commit token and the run has no event; when every entry is
    such, the loop of [UploadFile] returns the tokens of all entries in
    their order, again with no event. *)
Theorem existing_blocks_not_transferred :
  (forall (num : Z) (apiNode fileMeta : string) (file : File)
          (m : gjson.Result) (w : W),
      gjson.Int (gjson.Get m "is_existed") = 1 ->
      uploadBlock num apiNode fileMeta file m w
      = (Returned (inl [("commit_meta",
                         gjson.String_ (gjson.Get m "commit_meta"))]), w, []))
  /\
  (forall (apiNode fileMeta : string) (file : File)
          (blockMetas : list gjson.Result) (w : W),
      Forall (fun m => gjson.Int (gjson.Get m "is_existed") = 1) blockMetas ->
      uploadBlocks 0 apiNode fileMeta file blockMetas [] w
      = (Returned
           (inl (map (fun m => [("commit_meta",
                                 gjson.String_ (gjson.Get m "commit_meta"))])
                     blockMetas)), w, [])).
Proof.
  split.
  - intros. now apply uploadBlock_existing.
  - intros. now rewrite uploadBlocks_existing.
Qed.

(** What the loop of [UploadFile] leaves in the trace: local events and
    transfers, nothing after a failed transfer, and an error returned when
    a transfer failed. *)
Lemma uploadBlocks_run (blockMetas : list gjson.Result) :
  forall (k : Z) (apiNode fileMeta : string) (file : File)
         (commitMetas : list CommitMeta) (w : W),
    forallb inLoop
      (trace_of (uploadBlocks k apiNode fileMeta file blockMetas commitMetas w))
    = true
    /\ abortsAtFailure
         (trace_of (uploadBlocks k apiNode fileMeta file blockMetas commitMetas w))
       = true
    /\ (existsb failedTransfer
          (trace_of (uploadBlocks k apiNode fileMeta file blockMetas commitMetas w))
        = true ->
        exists err,
          outcome_of (uploadBlocks k apiNode fileMeta file blockMetas commitMetas w)
          = Returned (inr err)).
Proof.
  induction blockMetas as [| m rest IH]; intros k apiNode fileMeta file acc w.
  - cbn. repeat split. discriminate.
  - cbn [uploadBlocks].
    destruct (Z.eq_dec (gjson.Int (gjson.Get m "is_existed")) 1) as [He | Hn].
    + rewrite (bind_Returned _ _ _ (inl (existingToken m)))
        by (now rewrite uploadBlock_existing).
      cbv zeta. rewrite uploadBlock_existing by exact He.
      cbn [world_of trace_of outcome_of fst snd app].
      apply IH.
    + destruct (uploadBlock_needed_run k apiNode fileMeta file m w Hn)
        as [[Hloc Hfail] | [pre [req [res [Hpre [Htr Hout]]]]]].
      * assert (Hclean := local_not_failed _ Hloc).
        destruct (outcome_of (uploadBlock k apiNode fileMeta file m w))
          as [[c | err] | msg] eqn:Hout.
        -- exfalso. now apply (Hfail c).
        -- rewrite (bind_Returned _ _ _ _ Hout). cbv zeta.
           cbn [ret outcome_of trace_of fst snd]. rewrite app_nil_r.
           repeat split.
           ++ revert Hloc. apply forallb_weaken. intros ev H.
              unfold inLoop. now rewrite H.
           ++ now apply abortsAtFailure_clean.
           ++ eauto.
        -- rewrite (bind_Panicked _ _ _ _ Hout).
           cbn [outcome_of trace_of fst snd].
           repeat split.
           ++ revert Hloc. apply forallb_weaken. intros ev H.
              unfold inLoop. now rewrite H.
           ++ now apply abortsAtFailure_clean.
           ++ intros Hf. unfold trace_of in *. rewrite Hclean in Hf.
              discriminate Hf.
      * assert (Hclean := local_not_failed _ Hpre).
        assert (Hin : forallb inLoop (pre ++ [EvUploadBlockDo req res]) = true).
        { rewrite forallb_app. apply andb_true_iff. split; [| reflexivity].
          revert Hpre. apply forallb_weaken. intros ev H.
          unfold inLoop. now rewrite H. }
        assert (Hstop : forall err,
                   transferOutcome res = Returned (inr err) ->
                   let r := (r <- uploadBlock k apiNode fileMeta file m ;;
                             match r with
                             | inr err => ret (inr err)
                             | inl commitMeta =>
                                 uploadBlocks (k + 1) apiNode fileMeta file rest
                                              (acc ++ [commitMeta])
                             end) w in
                   forallb inLoop (trace_of r) = true
                   /\ abortsAtFailure (trace_of r) = true
                   /\ (existsb failedTransfer (trace_of r) = true ->
                       exists err, outcome_of r = Returned (inr err))).
        { intros err Herr. rewrite Herr in Hout.
          rewrite (bind_Returned _ _ _ _ Hout). cbv zeta.
          cbn [ret outcome_of trace_of fst snd]. rewrite app_nil_r.
          fold (trace_of (uploadBlock k apiNode fileMeta file m w)).
          rewrite Htr.
          repeat split; [exact Hin | now apply abortsAtFailure_last | eauto]. }
        destruct res as [response | err]; [| now apply (Hstop err)].
        cbn [transferOutcome] in *.
        destruct (String.eqb _ "BLOCK_COMPLETED") eqn:Hstat;
          [| now eapply Hstop].
        rewrite (bind_Returned _ _ _ _ Hout). cbv zeta.
        cbn [outcome_of trace_of fst snd].
        fold (trace_of (uploadBlock k apiNode fileMeta file m w)).
        rewrite Htr.
        match goal with
        | |- context [uploadBlocks (k + 1) apiNode fileMeta file rest ?a ?w'] =>
            destruct (IH (k + 1) apiNode fileMeta file a w')
              as [IH1 [IH2 IH3]]
        end.
        assert (Hclean' : existsb failedTransfer
                            (pre ++ [EvUploadBlockDo req (inl response)]) = false).
        { rewrite existsb_app, Hclean. cbn [existsb failedTransfer].
          rewrite Hstat. reflexivity. }
        repeat split.
        -- rewrite forallb_app. apply andb_true_iff. split; assumption.
        -- rewrite abortsAtFailure_app by exact Hclean'. exact IH2.
        -- rewrite existsb_app, Hclean'. exact IH3.
Qed.

End Transfer.

Section Commit.
Context {W : Type} {E : Env W}.

(** A run of [createFile] is its entry and at most one request. *)
Lemma createFile_run (parentId : string) (payload : UploadJson) (w : W) :
  exists rest,
    trace_of (createFile parentId payload w)
    = EvCreateFile parentId payload :: rest
    /\ forallb isCreateFileDo rest = true.
Proof.
  unfold createFile. rewrite bind_mark. cbv zeta. cbn [trace_of snd].
  eexists. split; [reflexivity |].
  destruct (json_Marshal payload) as [dataJson | err]; [| reflexivity].
  destruct (http_NewRequest _ _ _) as [request | err]; [| reflexivity].
  rewrite bind_call. cbv zeta. cbn [trace_of snd forallb isCreateFileDo andb].
  destruct (HttpClient_Do _ w) as [[response | err] w1]; cbn [fst snd];
    [| reflexivity].
  destruct (ReadAllErr response) as [err |]; [reflexivity |].
  destruct (negb _); reflexivity.
Qed.

(** C9.  When the commit request of [createFile] got a response whose body
    was read, [createFile] returns the [data.id] of the response if its
    [result] is "ok", and otherwise an error made of its [description]. *)
Theorem createFile_result (parentId : string) (payload : UploadJson) (w : W)
    (req : Request) (response : Response) :
  In (EvCreateFileDo req (inl response))
     (trace_of (createFile parentId payload w)) ->
  ReadAllErr response = None ->
  (gjson.String_ (gjson.Get (RespBody response) "result") = "ok" ->
   outcome_of (createFile parentId payload w)
   = Returned (inl (gjson.String_ (gjson.Get (RespBody response) "data.id"))))
  /\
  (gjson.String_ (gjson.Get (RespBody response) "result") <> "ok" ->
   outcome_of (createFile parentId payload w)
   = Returned
       (inr (errors_New
               (gjson.String_ (gjson.Get (RespBody response) "description"))))).
Proof.
  unfold createFile. rewrite bind_mark. cbv zeta.
  cbn [trace_of outcome_of fst snd].
  destruct (json_Marshal payload) as [dataJson | err].
  2: { intros [H | []]. discriminate H. }
  destruct (http_NewRequest _ _ _) as [request | err].
  2: { intros [H | []]. discriminate H. }
  rewrite bind_call. cbv zeta. cbn [trace_of outcome_of fst snd].
  destruct (HttpClient_Do _ w) as [[response' | err] w1]; cbn [fst snd].
  2: { intros [H | [H | []]]; discriminate H. }
  intros [H | [H | H]] Hread; try discriminate H.
  - injection H as _ ->. rewrite Hread.
    destruct (String.eqb_spec
                (gjson.String_ (gjson.Get (RespBody response) "result")) "ok")
      as [Hok | Hno]; split; intros H; try reflexivity; contradiction.
  - destruct (ReadAllErr response') as [err |];
      [| destruct (negb _)]; destruct H.
Qed.

End Commit.

Section Pipeline.
Context {W : Type} {E : Env W}.

Lemma Read_local (file : File) (b : Buffer) (w : W) :
  forallb isLocal (trace_of (Read file b w)) = true.
Proof.
  unfold Read, trace_of. destruct (file_Read file b w) as [[[d n] err] w1].
  reflexivity.
Qed.

Lemma blocksLoop_local (n : nat) (fileInfo : FileInfo) (file : File) :
  forall (i : Z) (b : Buffer) (acc : list BlockInfo) (w : W),
    forallb isLocal (trace_of (blocksLoop n fileInfo file i b acc w)) = true.
Proof.
  induction n as [| n IH]; intros i b acc w; [reflexivity |].
  cbn [blocksLoop]. apply bind_forallb.
  { apply call_forallb. reflexivity. }
  intros _ w1. apply bind_forallb.
  { destruct (len b >? _); [| reflexivity].
    unfold make. destruct (_ <? 0); reflexivity. }
  intros b1 w2. apply bind_forallb; [apply Read_local |].
  intros [b2 [err |]] w3; apply IH.
Qed.

Lemma buildBlockInfos_local (fileInfo : FileInfo) (filePath : string)
    (fileSize : Z) (fileSha1 : string) (w : W) :
  forallb isLocal
    (trace_of (buildBlockInfos fileInfo filePath fileSize fileSha1 w)) = true.
Proof.
  unfold buildBlockInfos. destruct (fileSize >? ChunkSize).
  - apply bind_forallb.
    + unfold getFileBlocks. apply bind_forallb.
      { apply call_forallb. reflexivity. }
      intros [file | err] w1; [| reflexivity].
      apply bind_forallb; [reflexivity |].
      intros b w2. apply bind_forallb; [apply blocksLoop_local | reflexivity].
    + intros [blockInfos | err] w1; reflexivity.
  - apply bind_forallb; [| reflexivity].
    apply call_forallb. reflexivity.
Qed.

Lemma commit_not_failed (t : list Event) :
  forallb isCommit t = true -> existsb failedTransfer t = false.
Proof.
  apply forallb_existsb_false. intros [] H; try discriminate H; reflexivity.
Qed.

Lemma createFile_commit (parentId : string) (payload : UploadJson) (w : W) :
  forallb isCommit (trace_of (createFile parentId payload w)) = true.
Proof.
  destruct (createFile_run parentId payload w) as [rest [-> Hrest]].
  cbn. revert Hrest. apply forallb_weaken. intros [] H; try discriminate H.
  reflexivity.
Qed.

Lemma inLoop_not_commit (t : list Event) :
  forallb inLoop t = true -> existsb isCommit t = false.
Proof.
  apply forallb_existsb_false. intros [] H; try discriminate H; reflexivity.
Qed.

(** What [UploadFile] leaves in the trace past the negotiation: no second
    negotiation, nothing after a failed transfer, and after a failed
    transfer an error and no commit. *)
Lemma afterNegotiation_run (filePath parentId fileName : string) (fileSize : Z)
    (fileSha1 : string) (resp : gjson.Result) (w : W) :
  forallb pastNegotiation
    (trace_of (afterNegotiation filePath parentId fileName fileSize fileSha1 resp w))
  = true
  /\ abortsAtFailure
       (trace_of (afterNegotiation filePath parentId fileName fileSize fileSha1 resp w))
     = true
  /\ (existsb failedTransfer
        (trace_of (afterNegotiation filePath parentId fileName fileSize fileSha1 resp w))
      = true ->
      (exists err,
          outcome_of (afterNegotiation filePath parentId fileName fileSize fileSha1 resp w)
          = Returned (inr err))
      /\ existsb isCommit
           (trace_of (afterNegotiation filePath parentId fileName fileSize fileSha1 resp w))
         = false).
Proof.
  assert (Hquiet : forall (o : outcome (string + error)) (w' : W),
             forallb pastNegotiation (trace_of (o, w', @nil Event)) = true
             /\ abortsAtFailure (trace_of (o, w', @nil Event)) = true
             /\ (existsb failedTransfer (trace_of (o, w', @nil Event)) = true ->
                 (exists err, outcome_of (o, w', @nil Event) = Returned (inr err))
                 /\ existsb isCommit (trace_of (o, w', @nil Event)) = false)).
  { intros o w'. cbn. repeat split; discriminate. }
  unfold afterNegotiation.
  destruct (negb (String.eqb _ "ok")); [apply Hquiet |].
  destruct (gjson.Bool _).
  { assert (Hc := createFile_commit parentId (existedPayload fileName resp) w).
    assert (Hclean := commit_not_failed _ Hc).
    repeat split.
    - revert Hc. apply forallb_weaken. intros ev H.
      unfold pastNegotiation. rewrite H. now rewrite orb_true_r.
    - now apply abortsAtFailure_clean.
    - rewrite Hclean in H. discriminate H.
    - rewrite Hclean in H. discriminate H. }
  destruct (gjson.Array _) as [| node0 nodes]; [apply Hquiet |].
  destruct (String.eqb _ ""); [apply Hquiet |].
  rewrite bind_call. cbv zeta. cbn [outcome_of trace_of fst snd].
  destruct (os_OpenFile filePath w) as [[file | err] w1]; cbn [fst snd].
  2: { cbn. repeat split; discriminate. }
  cbn [forallb pastNegotiation isLocal orb andb abortsAtFailure failedTransfer
       existsb isCommit].
  match goal with
  | |- context [uploadBlocks 0 ?a ?fm file ?bms []] =>
      destruct (uploadBlocks_run bms 0 a fm file [] w1) as [Hin [Hab Herr]];
      destruct (outcome_of (uploadBlocks 0 a fm file bms [] w1))
        as [[commitMetas | err] | msg] eqn:Hout
  end.
  - rewrite (bind_Returned _ _ _ _ Hout). cbv zeta.
    cbn [outcome_of trace_of fst snd].
    match goal with
    | |- context [createFile parentId ?p ?w'] =>
        assert (Hc := createFile_commit parentId p w')
    end.
    assert (Hclean := commit_not_failed _ Hc).
    match type of Hin with
    | forallb inLoop ?t = true =>
        assert (Hnone : existsb failedTransfer t = false)
    end.
    { match goal with
      | |- ?x = false => destruct x eqn:Hx; [| reflexivity]
      end.
      destruct (Herr eq_refl) as [err Hbad]. discriminate Hbad. }
    assert (Hall : forall t2, existsb failedTransfer t2 = false ->
               existsb failedTransfer
                 (trace_of (uploadBlocks 0 (gjson.String_ node0)
                    (gjson.String_
                       (gjson.Get (gjson.Get resp "data.storage.kss") "file_meta"))
                    file
                    (gjson.Array
                       (gjson.Get (gjson.Get resp "data.storage.kss") "block_metas"))
                    [] w1) ++ t2) = false).
    { intros t2 H2. rewrite existsb_app, Hnone, H2. reflexivity. }
    repeat split.
    + rewrite forallb_app. apply andb_true_iff. split.
      * revert Hin. apply forallb_weaken. intros ev H.
        unfold pastNegotiation. fold (inLoop ev). now rewrite H.
      * revert Hc. apply forallb_weaken. intros ev H.
        unfold pastNegotiation. rewrite H. now rewrite orb_true_r.
    + apply abortsAtFailure_clean. now apply Hall.
    + rewrite (Hall _ Hclean) in H. discriminate H.
    + rewrite (Hall _ Hclean) in H. discriminate H.
  - rewrite (bind_Returned _ _ _ _ Hout). cbv zeta.
    cbn [ret outcome_of trace_of fst snd]. rewrite app_nil_r.
    repeat split.
    + revert Hin. apply forallb_weaken. intros ev H.
      unfold pastNegotiation. fold (inLoop ev). now rewrite H.
    + exact Hab.
    + eauto.
    + now apply inLoop_not_commit.
  - rewrite (bind_Panicked _ _ _ _ Hout). cbn [outcome_of trace_of fst snd].
    repeat split.
    + revert Hin. apply forallb_weaken. intros ev H.
      unfold pastNegotiation. fold (inLoop ev). now rewrite H.
    + exact Hab.
    + destruct (Herr H) as [err Hbad]. discriminate Hbad.
    + now apply inLoop_not_commit.
Qed.

(** A run of [UploadFile] ends before the negotiation, or with a
    negotiation that failed in transport, or goes on from the response. *)
Lemma UploadFile_cases (filePath parentId : string) (w : W) :
  forallb isLocal (trace_of (UploadFile filePath parentId w)) = true
  \/ (exists pre form err,
        forallb isLocal pre = true
        /\ trace_of (UploadFile filePath parentId w)
           = pre ++ [EvPostForm CreateFile form (inr err)]
        /\ outcome_of (UploadFile filePath parentId w) = Returned (inr err))
  \/ (exists pre form resp fileSize fileSha1 w',
        forallb isLocal pre = true
        /\ trace_of (UploadFile filePath parentId w)
           = pre ++ EvPostForm CreateFile form (inl resp)
                 :: trace_of (afterNegotiation filePath parentId
                                (path_Base filePath) fileSize fileSha1 resp w')
        /\ outcome_of (UploadFile filePath parentId w)
           = outcome_of (afterNegotiation filePath parentId
                           (path_Base filePath) fileSize fileSha1 resp w')).
Proof.
  unfold UploadFile. rewrite bind_call. cbv zeta.
  cbn [outcome_of trace_of fst snd].
  destruct (os_Stat filePath w) as [[fileInfo | err] w1]; cbn [fst snd];
    [| left; reflexivity].
  destruct (_ || _); [left; reflexivity |].
  unfold FilePathHash. rewrite bind_call. cbv zeta.
  cbn [outcome_of trace_of fst snd].
  destruct (utils_FilePathHash filePath "sha1" w1) as [fileSha1 w2];
    cbn [fst snd].
  assert (Hloc := buildBlockInfos_local fileInfo filePath (fiSize fileInfo)
                    fileSha1 w2).
  destruct (outcome_of (buildBlockInfos fileInfo filePath (fiSize fileInfo)
                          fileSha1 w2)) as [[blockInfos | err] | msg] eqn:Hout.
  - rewrite (bind_Returned _ _ _ _ Hout). cbv zeta.
    cbn [outcome_of trace_of fst snd].
    rewrite bind_call. cbv zeta. cbn [outcome_of trace_of fst snd].
    destruct (api_postForm _ _ _) as [[resp | err] w3]; cbn [fst snd].
    + right. right.
      exists (EvStat filePath (inl fileInfo)
                :: EvFilePathHash filePath "sha1" fileSha1
                :: trace_of (buildBlockInfos fileInfo filePath (fiSize fileInfo)
                               fileSha1 w2)).
      do 5 eexists. split; [exact Hloc |]. split; reflexivity.
    + right. left.
      exists (EvStat filePath (inl fileInfo)
                :: EvFilePathHash filePath "sha1" fileSha1
                :: trace_of (buildBlockInfos fileInfo filePath (fiSize fileInfo)
                               fileSha1 w2)).
      do 2 eexists. split; [exact Hloc |]. split; reflexivity.
  - rewrite (bind_Returned _ _ _ _ Hout). cbv zeta.
    cbn [ret outcome_of trace_of fst snd]. rewrite app_nil_r.
    left. exact Hloc.
  - rewrite (bind_Panicked _ _ _ _ Hout). cbn [outcome_of trace_of fst snd].
    left. exact Hloc.
Qed.

Lemma local_no_negotiation (t : list Event) (url : string) (form : Values)
    (res : gjson.Result + error) :
  forallb isLocal t = true -> ~ In (EvPostForm url form res) t.
Proof.
  intros H Hin. rewrite forallb_forall in H. specialize (H _ Hin).
  discriminate H.
Qed.

(** The negotiation response seen in the trace is the one [UploadFile]
    goes on from. *)
Lemma negotiation_found (filePath parentId : string) (w : W) (url : string)
    (form : Values) (resp : gjson.Result) :
  In (EvPostForm url form (inl resp)) (trace_of (UploadFile filePath parentId w)) ->
  exists pre fileSize fileSha1 w',
    forallb isLocal pre = true
    /\ trace_of (UploadFile filePath parentId w)
       = pre ++ EvPostForm url form (inl resp)
             :: trace_of (afterNegotiation filePath parentId
                            (path_Base filePath) fileSize fileSha1 resp w')
    /\ outcome_of (UploadFile filePath parentId w)
       = outcome_of (afterNegotiation filePath parentId
                       (path_Base filePath) fileSize fileSha1 resp w').
Proof.
  intros Hin.
  destruct (UploadFile_cases filePath parentId w)
    as [Hloc | [[pre [form' [err [Hpre [Htr Hout]]]]]
               | [pre [form' [resp' [fileSize [fileSha1 [w' [Hpre [Htr Hout]]]]]]]]]].
  - exfalso. eapply local_no_negotiation; eauto.
  - exfalso. rewrite Htr in Hin. apply in_app_or in Hin as [Hin | [Hin | []]].
    + eapply local_no_negotiation; eauto.
    + discriminate Hin.
  - rewrite Htr in Hin. apply in_app_or in Hin as [Hin | [Hin | Hin]].
    + exfalso. eapply local_no_negotiation; eauto.
    + injection Hin as <- <- <-. eauto 10.
    + exfalso.
      destruct (afterNegotiation_run filePath parentId (path_Base filePath)
                  fileSize fileSha1 resp' w') as [Hpast _].
      rewrite forallb_forall in Hpast. specialize (Hpast _ Hin).
      discriminate Hpast.
Qed.

Lemma local_filter (P : Event -> bool) (t : list Event) :
  (forall ev, isLocal ev = true -> P ev = false) ->
  forallb isLocal t = true -> filter P t = [].
Proof.
  intros HP H. induction t as [| ev t IH]; [reflexivity |].
  cbn in *. apply andb_true_iff in H as [H1 H2].
  rewrite (HP _ H1). auto.
Qed.

Lemma local_neither (ev : Event) :
  isLocal ev = true ->
  isTransfer ev = false /\ isCommit ev = false /\ isCreateFileCall ev = false.
Proof. destruct ev; intros H; try discriminate H; auto. Qed.

(** C8.  When the negotiation response seen in the run has a [result]
    other than "ok", [UploadFile] returns the error made of the response's
    [description], and the run has no block transfer and no commit. *)
Theorem negotiation_rejected (filePath parentId : string) (w : W)
    (url : string) (form : Values) (resp : gjson.Result) :
  In (EvPostForm url form (inl resp)) (trace_of (UploadFile filePath parentId w)) ->
  gjson.String_ (gjson.Get resp "result") <> "ok" ->
  outcome_of (UploadFile filePath parentId w)
  = Returned
      (inr (errors_New
              ("create file block failed, error: "
               ++ gjson.String_ (gjson.Get resp "description"))%string))
  /\ existsb isTransfer (trace_of (UploadFile filePath parentId w)) = false
  /\ existsb isCommit (trace_of (UploadFile filePath parentId w)) = false.
Proof.
  intros Hin Hno.
  destruct (negotiation_found _ _ _ _ _ _ Hin)
    as [pre [fileSize [fileSha1 [w' [Hpre [Htr Hout]]]]]].
  rewrite Htr, Hout. unfold afterNegotiation.
  destruct (String.eqb_spec (gjson.String_ (gjson.Get resp "result")) "ok")
    as [Hok | _]; [contradiction |].
  cbn [negb ret outcome_of trace_of fst snd].
  split; [reflexivity |].
  rewrite !existsb_app. cbn.
  split.
  - rewrite (forallb_existsb_false isLocal isTransfer pre); auto.
    intros ev H. now apply local_neither.
  - rewrite (forallb_existsb_false isLocal isCommit pre); auto.
    intros ev H. now apply local_neither.
Qed.

(** C4, amended.  When the negotiation response seen in the run has the
    [result] "ok" and its [data.storage.exists] reads true, the run has no
    block transfer, [createFile] is entered once, with the payload that
    holds the [uploadId] of the response and the flag only, and
    [UploadFile] returns what that call returns. *)
Theorem existing_file_committed_directly (filePath parentId : string) (w : W)
    (url : string) (form : Values) (resp : gjson.Result) :
  In (EvPostForm url form (inl resp)) (trace_of (UploadFile filePath parentId w)) ->
  gjson.String_ (gjson.Get resp "result") = "ok" ->
  gjson.Bool (gjson.Get resp "data.storage.exists") = true ->
  existsb isTransfer (trace_of (UploadFile filePath parentId w)) = false
  /\ filter isCreateFileCall (trace_of (UploadFile filePath parentId w))
     = [EvCreateFile parentId
          {| Content :=
               {| Name := path_Base filePath;
                  Storage :=
                    UploadExistedStorage
                      (gjson.String_ (gjson.Get resp "data.storage.uploadId"))
                      true |} |}]
  /\ exists w',
      outcome_of (UploadFile filePath parentId w)
      = outcome_of
          (createFile parentId (existedPayload (path_Base filePath) resp) w').
Proof.
  intros Hin Hok Hex.
  destruct (negotiation_found _ _ _ _ _ _ Hin)
    as [pre [fileSize [fileSha1 [w' [Hpre [Htr Hout]]]]]].
  rewrite Htr, Hout. unfold afterNegotiation. rewrite Hok, Hex.
  cbn [String.eqb Ascii.eqb Bool.eqb negb].
  destruct (createFile_run parentId (existedPayload (path_Base filePath) resp) w')
    as [rest [Hrun Hrest]].
  rewrite Hrun. split; [| split; [| eauto]].
  - rewrite existsb_app. cbn [existsb isTransfer orb].
    rewrite (forallb_existsb_false isLocal isTransfer pre); auto.
    + apply (forallb_existsb_false isCreateFileDo); auto.
      intros [] H; try discriminate H; reflexivity.
    + intros ev H. now apply local_neither.
  - rewrite filter_app. cbn [filter isCreateFileCall].
    rewrite (local_filter isCreateFileCall pre); auto.
    + cbn [app]. f_equal.
      clear - Hrest. induction rest as [| ev rest IH]; [reflexivity |].
      cbn in *. apply andb_true_iff in Hrest as [H1 H2].
      destruct ev; try discriminate H1. auto.
    + intros ev H. now apply local_neither.
Qed.


(** The two ways a response can name no node (file.go:133-140): an empty
    list panics at the indexing, a first entry that reads as the empty
    string returns the error. *)
Lemma afterNegotiation_without_node (filePath parentId fileName : string)
    (fileSize : Z) (fileSha1 : string) (resp : gjson.Result) (w : W) :
  gjson.String_ (gjson.Get resp "result") = "ok" ->
  gjson.Bool (gjson.Get resp "data.storage.exists") = false ->
  gjson.Array (gjson.Get (gjson.Get resp "data.storage.kss") "node_urls") = [] ->
  afterNegotiation filePath parentId fileName fileSize fileSha1 resp w
  = (Panicked "index out of range [0] with length 0", w, []).
Proof.
  intros Hok Hex Hnodes. unfold afterNegotiation.
  rewrite Hok, Hex, Hnodes. reflexivity.
Qed.

Lemma afterNegotiation_blank_node (filePath parentId fileName : string)
    (fileSize : Z) (fileSha1 : string) (resp node0 : gjson.Result)
    (nodes : list gjson.Result) (w : W) :
  gjson.String_ (gjson.Get resp "result") = "ok" ->
  gjson.Bool (gjson.Get resp "data.storage.exists") = false ->
  gjson.Array (gjson.Get (gjson.Get resp "data.storage.kss") "node_urls")
  = node0 :: nodes ->
  gjson.String_ node0 = "" ->
  afterNegotiation filePath parentId fileName fileSize fileSha1 resp w
  = (Returned (inr (errors_New "no available url node")), w, []).
Proof.
  intros Hok Hex Hnodes Hblank. unfold afterNegotiation.
  rewrite Hok, Hex, Hnodes, Hblank. reflexivity.
Qed.


(** C10.  For a size [s] with [0 < s <= ChunkSize], the manifest is the one
    block whose [Sha1] is the digest of the file computed once at
    file.go:68, which is also the digest of the manifest, and whose [Size]
    is [s]; the run up to the negotiation is the [Stat], that SHA-1, the
    MD5 and the post of this manifest. *)
Theorem single_block_manifest (filePath parentId : string) (w w1 w2 w3 : W)
    (fileInfo : FileInfo) (fileSha1 md5 : string) :
  os_Stat filePath w = (inl fileInfo, w1) ->
  utils_FilePathHash filePath "sha1" w1 = (fileSha1, w2) ->
  utils_FilePathHash filePath "md5" w2 = (md5, w3) ->
  0 < fiSize fileInfo <= ChunkSize ->
  buildBlockInfos fileInfo filePath (fiSize fileInfo) fileSha1 w2
  = (Returned (inl [{| Sha1 := fileSha1; Md5 := md5; Size := fiSize fileInfo |}]),
     w3, [EvFilePathHash filePath "md5" md5])
  /\ exists res rest,
      trace_of (UploadFile filePath parentId w)
      = EvStat filePath (inl fileInfo)
          :: EvFilePathHash filePath "sha1" fileSha1
          :: EvFilePathHash filePath "md5" md5
          :: EvPostForm CreateFile
               (negotiationForm
                  {| Content :=
                       {| Name := path_Base filePath;
                          Storage :=
                            UploadStorage (fiSize fileInfo) fileSha1
                              (UploadKss
                                 [{| Sha1 := fileSha1; Md5 := md5;
                                     Size := fiSize fileInfo |}])
                              "" false |} |})
               res
          :: rest.
Proof.
  intros Hstat Hsha Hmd5 Hs.
  assert (Hb : buildBlockInfos fileInfo filePath (fiSize fileInfo) fileSha1 w2
               = (Returned (inl [{| Sha1 := fileSha1; Md5 := md5;
                                    Size := fiSize fileInfo |}]),
                  w3, [EvFilePathHash filePath "md5" md5])).
  { unfold buildBlockInfos.
    destruct (Z.gtb_spec (fiSize fileInfo) ChunkSize); [lia |].
    unfold FilePathHash. rewrite bind_call, Hmd5. reflexivity. }
  split; [exact Hb |].
  unfold UploadFile. rewrite bind_call, Hstat. cbv zeta.
  cbn [outcome_of world_of trace_of fst snd].
  replace ((fiSize fileInfo =? 0) || (fiSize fileInfo >=? 4 * 1024 * 1024 * 1024))
    with false
    by (symmetry; apply orb_false_iff; unfold ChunkSize in Hs; lia).
  unfold FilePathHash at 1. rewrite bind_call, Hsha. cbv zeta.
  cbn [outcome_of world_of trace_of fst snd].
  rewrite (bind_Returned _ _ _
             (inl [{| Sha1 := fileSha1; Md5 := md5; Size := fiSize fileInfo |}]))
    by (now rewrite Hb).
  cbv zeta. rewrite Hb. cbn [outcome_of world_of trace_of fst snd app].
  rewrite bind_call. cbv zeta. cbn [outcome_of world_of trace_of fst snd].
  unfold manifest. eauto.
Qed.

End Pipeline.

(** * The claims at concrete runs *)

Lemma UploadFile_size_check_witness :
  UploadFile (E := toyEnv toyEmpty) "a.bin" "0" 0
  = (Returned (inr SizeTooBigError), 0, [EvStat "a.bin" (inl {| fiSize := 0 |})])
  /\ exists rest,
      trace_of (UploadFile (E := toyEnv toySmall) "a.bin" "0" 0)
      = EvStat "a.bin" (inl {| fiSize := 1048576 |})
          :: EvFilePathHash "a.bin" "sha1" "sha1:a.bin" :: rest.
Proof.
  split.
  - apply (proj1 (UploadFile_size_check (E := toyEnv toyEmpty)
                    "a.bin" "0" 0 0 {| fiSize := 0 |} eq_refl)).
    left. reflexivity.
  - apply (proj2 (UploadFile_size_check (E := toyEnv toySmall)
                    "a.bin" "0" 0 0 {| fiSize := 1048576 |} eq_refl)).
    cbn [fiSize]. lia.
Defined.

Lemma existing_file_committed_directly_witness :
  existsb isTransfer
    (trace_of (UploadFile (E := toyEnv toyFileExists) "a.bin" "0" 0)) = false
  /\ filter isCreateFileCall
       (trace_of (UploadFile (E := toyEnv toyFileExists) "a.bin" "0" 0))
     = [EvCreateFile "0"
          {| Content :=
               {| Name := "a.bin";
                  Storage := UploadExistedStorage "u-7" true |} |}].
Proof.
  destruct (existing_file_committed_directly (E := toyEnv toyFileExists)
              "a.bin" "0" 0 "https://i.mi.test/create_block" toyForm
              respFileExists) as [Hnone [Hone _]].
  - vm_compute. do 3 right. left. reflexivity.
  - reflexivity.
  - reflexivity.
  - split; [exact Hnone | exact Hone].
Defined.

(** C4 as stated fails where the response says that the file exists but
    its [result] is not "ok": [createFile] is not entered and [UploadFile]
    returns the negotiation error. *)
Lemma exists_flag_without_ok_counterexample :
  In (EvPostForm "https://i.mi.test/create_block" toyForm (inl respRejectedExists))
     (trace_of (UploadFile (E := toyEnv toyRejectedExists) "a.bin" "0" 0))
  /\ gjson.Bool (gjson.Get respRejectedExists "data.storage.exists") = true
  /\ filter isCreateFileCall
       (trace_of (UploadFile (E := toyEnv toyRejectedExists) "a.bin" "0" 0))
     = []
  /\ outcome_of (UploadFile (E := toyEnv toyRejectedExists) "a.bin" "0" 0)
     = Returned
         (inr (errors_New "create file block failed, error: quota exceeded")).
Proof.
  split; [| split; [| split]].
  - vm_compute. do 3 right. left. reflexivity.
  - reflexivity.
  - vm_compute. reflexivity.
  - vm_compute. reflexivity.
Qed.


Lemma existing_blocks_not_transferred_witness :
  uploadBlocks (E := toyEnv toyUpload) 0 "https://node.test" "fm" 3
    [existing "cm0"; existingTrue "cm1"] [] 0
  = (Returned (inl [[("commit_meta", "cm0")]; [("commit_meta", "cm1")]]), 0, []).
Proof.
  apply (proj2 (existing_blocks_not_transferred (E := toyEnv toyUpload))
           "https://node.test" "fm" 3 [existing "cm0"; existingTrue "cm1"] 0).
  repeat constructor.
Defined.

Lemma negotiation_rejected_witness :
  outcome_of (UploadFile (E := toyEnv toyRejectedExists) "a.bin" "0" 0)
  = Returned
      (inr (errors_New "create file block failed, error: quota exceeded"))
  /\ existsb isTransfer
       (trace_of (UploadFile (E := toyEnv toyRejectedExists) "a.bin" "0" 0))
     = false
  /\ existsb isCommit
       (trace_of (UploadFile (E := toyEnv toyRejectedExists) "a.bin" "0" 0))
     = false.
Proof.
  apply (negotiation_rejected (E := toyEnv toyRejectedExists)
           "a.bin" "0" 0 "https://i.mi.test/create_block" toyForm
           respRejectedExists).
  - vm_compute. do 3 right. left. reflexivity.
  - discriminate.
Defined.

Lemma createFile_result_witness :
  outcome_of (createFile (E := toyEnv toyFileExists) "0"
                (existedPayload "a.bin" respFileExists) 0)
  = Returned (inl "42").
Proof.
  apply (proj1 (createFile_result (E := toyEnv toyFileExists) "0"
                  (existedPayload "a.bin" respFileExists) 0
                  toyCommitRequest committedResponse
                  ltac:(vm_compute; right; left; reflexivity) eq_refl)).
  reflexivity.
Defined.

Lemma single_block_manifest_witness :
  buildBlockInfos (E := toyEnv toySmall) {| fiSize := 1048576 |} "a.bin"
    1048576 "sha1:a.bin" 0
  = (Returned (inl [{| Sha1 := "sha1:a.bin"; Md5 := "md5:a.bin";
                       Size := 1048576 |}]),
     0, [EvFilePathHash "a.bin" "md5" "md5:a.bin"]).
Proof.
  apply (proj1 (single_block_manifest (E := toyEnv toySmall) "a.bin" "0"
                  0 0 0 0 {| fiSize := 1048576 |} "sha1:a.bin" "md5:a.bin"
                  eq_refl eq_refl eq_refl
                  ltac:(cbn [fiSize]; unfold ChunkSize; lia))).
Defined.

(** C6, at a negotiation response whose [node_urls] is empty: line 137
    indexes the list before line 138 looks at the address, and the run
    panics. *)
Theorem empty_node_list_panics :
  outcome_of (UploadFile (E := toyEnv toyNoNode) "a.bin" "0" 0)
  = Panicked "index out of range [0] with length 0".
Proof. vm_compute. reflexivity. Qed.

(** A file of two blocks, one known to the server and one transferred, is
    committed with both tokens in order. *)
Example upload_two_blocks :
  outcome_of (UploadFile (E := toyEnv toyUpload) "a.bin" "0" 0)
  = Returned (inl "42")
  /\ count isTransfer (trace_of (UploadFile (E := toyEnv toyUpload) "a.bin" "0" 0))
     = 1%nat
  /\ filter isCreateFileCall
       (trace_of (UploadFile (E := toyEnv toyUpload) "a.bin" "0" 0))
     = [EvCreateFile "0"
          (commitPayload "a.bin" (ChunkSize + 1) "sha1:a.bin"
             (kssOf [gjson.JString "https://node.test"]
                    [existing "cm0"; needed "bm1"])
             [[("commit_meta", "cm0")]; [("commit_meta", "cm1")]])].
Proof. vm_compute. repeat split. Qed.

(** * Further properties of the chunking pass *)

Section ChunkingPass.
Context {W : Type} {E : Env W}.

(** Whatever the reads return, the loop of [getFileBlocks] visits the
    blocks from [i] on, and appends one entry for each read that returned
    no error. *)
Lemma blocksLoop_pass (n : nat) (fileInfo : FileInfo) (file : File) :
  0 < fiSize fileInfo < 4294967296 ->
  forall (i : Z) (b : Buffer) (acc : list BlockInfo) (w : W),
    1 <= i ->
    Z.of_nat (S n) = numBlocks (fiSize fileInfo) - i + 1 ->
    len b = ChunkSize ->
    exists blocks,
      outcome_of (blocksLoop (S n) fileInfo file i b acc w)
      = Returned (acc ++ blocks)
      /\ map Size blocks
         = readLengths (trace_of (blocksLoop (S n) fileInfo file i b acc w))
      /\ ranges (trace_of (blocksLoop (S n) fileInfo file i b acc w))
         = map (blockRange (fiSize fileInfo)) (seq (Z.to_nat (i - 1)) (S n))
      /\ (List.length blocks
          + count isFailedRead
              (trace_of (blocksLoop (S n) fileInfo file i b acc w)))%nat
         = S n.
Proof.
  intros Hs. induction n as [| n IH]; intros i b acc w Hi Hn Hb.
  - destruct (blocksLoop_step 0 fileInfo file i b acc w Hs ltac:(lia) Hb)
      as [b1 [Hlen Hstep]].
    cbv zeta in Hstep. rewrite Hstep. clear Hstep.
    cbn [blocksLoop ret outcome_of trace_of fst snd].
    assert (Hrange : blockRange (fiSize fileInfo) (Z.to_nat (i - 1))
                     = ((i - 1) * ChunkSize,
                        Z.min ChunkSize (fiSize fileInfo - (i - 1) * ChunkSize))).
    { unfold blockRange. rewrite Z2Nat.id by lia. reflexivity. }
    destruct (snd (fst (file_Read file b1 _))) as [err |].
    + exists []. rewrite app_nil_r. cbn [seq map]. rewrite Hrange.
      repeat split.
    + eexists [_]. cbn [seq map]. rewrite Hrange. repeat split.
  - destruct (blocksLoop_step (S n) fileInfo file i b acc w Hs ltac:(lia) Hb)
      as [b1 [Hlen Hstep]].
    cbv zeta in Hstep. rewrite Hstep. clear Hstep.
    assert (Hfull : Z.min ChunkSize (fiSize fileInfo - (i - 1) * ChunkSize)
                    = ChunkSize).
    { assert (Hnum := numBlocks_div (fiSize fileInfo)).
      unfold ChunkSize in *. Z.div_mod_to_equations. lia. }
    assert (Hrange : blockRange (fiSize fileInfo) (Z.to_nat (i - 1))
                     = ((i - 1) * ChunkSize,
                        Z.min ChunkSize (fiSize fileInfo - (i - 1) * ChunkSize))).
    { unfold blockRange. rewrite Z2Nat.id by lia. reflexivity. }
    assert (Hnext : Z.to_nat (i + 1 - 1) = S (Z.to_nat (i - 1))) by lia.
    cbn [outcome_of trace_of fst snd].
    match goal with
    | |- context [blocksLoop (S n) fileInfo file (i + 1) ?b2 ?acc2 ?w2] =>
        destruct (IH (i + 1) b2 acc2 w2 ltac:(lia) ltac:(lia) Hfull)
          as [blocks [Hout [Hsizes [Hranges Hcount]]]]
    end.
    unfold outcome_of, trace_of in *. rewrite Hnext in Hranges.
    change (seq (Z.to_nat (i - 1)) (S (S n)))
      with (Z.to_nat (i - 1) :: seq (S (Z.to_nat (i - 1))) (S n)).
    cbn [map]. rewrite Hrange.
    destruct (snd (fst (file_Read file b1 _))) as [err |].
    + exists blocks. rewrite Hout.
      cbn [ranges readLengths flat_map app count filter isFailedRead List.length].
      fold (readLengths). unfold count in *.
      repeat split; try assumption.
      * now rewrite Hranges.
      * lia.
    + eexists (_ :: blocks). rewrite Hout.
      cbn [ranges readLengths flat_map app count filter isFailedRead
           List.length map Size].
      unfold count in *.
      repeat split.
      * now rewrite <- app_assoc.
      * f_equal. exact Hsizes.
      * now rewrite Hranges.
      * cbn [List.length]. lia.
Qed.

Lemma tiles_blockRanges (size : Z) :
  0 < size ->
  forall (n k : nat),
    Z.of_nat (k + S n) = numBlocks size ->
    tiles (map (blockRange size) (seq k (S n))) (Z.of_nat k * ChunkSize) size.
Proof.
  intros Hs. assert (Hnum := numBlocks_div size).
  induction n as [| n IH]; intros k Hk.
  - cbn [seq map tiles blockRange]. unfold blockRange.
    repeat split; unfold ChunkSize in *; Z.div_mod_to_equations; lia.
  - change (seq k (S (S n))) with (k :: seq (S k) (S n)).
    cbn [map tiles]. unfold blockRange at 1.
    assert (Hfull : Z.min ChunkSize (size - Z.of_nat k * ChunkSize) = ChunkSize).
    { unfold ChunkSize in *. Z.div_mod_to_equations. lia. }
    rewrite Hfull. split; [reflexivity |].
    split; [unfold ChunkSize; lia |].
    replace (Z.of_nat k * ChunkSize + ChunkSize)
      with (Z.of_nat (S k) * ChunkSize) by lia.
    apply IH. lia.
Qed.

(** Past the open, the run of [getFileBlocks] is the open and the loop. *)
Lemma getFileBlocks_opened (fileInfo : FileInfo) (filePath : string)
    (w w1 : W) (file : File) :
  os_OpenFile filePath w = (inl file, w1) ->
  0 < fiSize fileInfo < 4294967296 ->
  exists n blocks,
    Z.of_nat (S n) = numBlocks (fiSize fileInfo)
    /\ outcome_of (getFileBlocks fileInfo filePath w) = Returned (inl blocks)
    /\ outcome_of (blocksLoop (S n) fileInfo file 1
                     {| len := ChunkSize; data := fun _ => Byte.x00 |} [] w1)
       = Returned blocks
    /\ trace_of (getFileBlocks fileInfo filePath w)
       = EvOpen filePath (inl file)
           :: trace_of (blocksLoop (S n) fileInfo file 1
                          {| len := ChunkSize; data := fun _ => Byte.x00 |} [] w1).
Proof.
  intros Hopen Hs.
  assert (Hnum := numBlocks_div (fiSize fileInfo)).
  exists (Z.to_nat (numBlocks (fiSize fileInfo) - 1)).
  assert (Hn : Z.to_nat (numBlocks (fiSize fileInfo))
               = S (Z.to_nat (numBlocks (fiSize fileInfo) - 1))).
  { unfold ChunkSize in *. Z.div_mod_to_equations. lia. }
  destruct (blocksLoop_pass (Z.to_nat (numBlocks (fiSize fileInfo) - 1))
              fileInfo file Hs 1
              {| len := ChunkSize; data := fun _ => Byte.x00 |} [] w1
              ltac:(lia) ltac:(lia) eq_refl) as [blocks [Hout _]].
  cbn [app] in Hout. exists blocks.
  split; [lia |].
  unfold getFileBlocks. rewrite bind_call, Hopen. cbv zeta.
  cbn [outcome_of world_of trace_of fst snd].
  rewrite make_nonneg by (unfold ChunkSize; lia). rewrite bind_ret.
  rewrite Hn. rewrite (bind_Returned _ _ _ _ Hout). cbv zeta.
  cbn [ret outcome_of world_of trace_of fst snd]. rewrite app_nil_r.
  repeat split. exact Hout.
Qed.

(** X1.  Past the open, and whatever the reads return, [getFileBlocks]
    seeks and reads the blocks of the file one after the other: block [k]
    at the offset [k * ChunkSize], on [ChunkSize] bytes or what is left of
    the file; the ranges cover the file from its first byte to its last. *)
Theorem getFileBlocks_reads_every_block (fileInfo : FileInfo)
    (filePath : string) (w w1 : W) (file : File) :
  os_OpenFile filePath w = (inl file, w1) ->
  0 < fiSize fileInfo < 4 * 1024 * 1024 * 1024 ->
  ranges (trace_of (getFileBlocks fileInfo filePath w))
  = blockRanges (fiSize fileInfo)
  /\ tiles (blockRanges (fiSize fileInfo)) 0 (fiSize fileInfo).
Proof.
  intros Hopen Hs.
  destruct (getFileBlocks_opened fileInfo filePath w w1 file Hopen Hs)
    as [n [blocks [Hn [_ [_ Htr]]]]].
  destruct (blocksLoop_pass n fileInfo file Hs 1
              {| len := ChunkSize; data := fun _ => Byte.x00 |} [] w1
              ltac:(lia) ltac:(lia) eq_refl) as [blocks' [_ [_ [Hranges _]]]].
  unfold blockRanges. replace (Z.to_nat (numBlocks (fiSize fileInfo))) with (S n)
    by lia.
  split.
  - rewrite Htr. cbn [ranges]. exact Hranges.
  - apply (tiles_blockRanges (fiSize fileInfo) ltac:(lia) n 0%nat). lia.
Qed.

(** X2.  Past the open, [getFileBlocks] returns a list and no error: one
    entry, with the length of the read as its [Size], for each read that
    returned no error, in the order of the reads; the entries and the
    failed reads together are as many as the file has blocks. *)
Theorem getFileBlocks_keeps_what_was_read (fileInfo : FileInfo)
    (filePath : string) (w w1 : W) (file : File) :
  os_OpenFile filePath w = (inl file, w1) ->
  0 < fiSize fileInfo < 4 * 1024 * 1024 * 1024 ->
  exists blocks,
    outcome_of (getFileBlocks fileInfo filePath w) = Returned (inl blocks)
    /\ map Size blocks = readLengths (trace_of (getFileBlocks fileInfo filePath w))
    /\ Z.of_nat (List.length blocks)
       + Z.of_nat (count isFailedRead
                     (trace_of (getFileBlocks fileInfo filePath w)))
       = (fiSize fileInfo + ChunkSize - 1) / ChunkSize.
Proof.
  intros Hopen Hs.
  destruct (getFileBlocks_opened fileInfo filePath w w1 file Hopen Hs)
    as [n [blocks [Hn [Hout [Hloop Htr]]]]].
  destruct (blocksLoop_pass n fileInfo file Hs 1
              {| len := ChunkSize; data := fun _ => Byte.x00 |} [] w1
              ltac:(lia) ltac:(lia) eq_refl)
    as [blocks' [Hout' [Hsizes [_ Hcount]]]].
  cbn [app] in Hout'. rewrite Hloop in Hout'. injection Hout' as <-.
  exists blocks. split; [exact Hout |]. rewrite Htr.
  cbn [readLengths flat_map app]. fold readLengths.
  unfold count in *. cbn [filter isFailedRead].
  split; [exact Hsizes |].
  rewrite <- numBlocks_ceil by lia. lia.
Qed.

End ChunkingPass.

Lemma getFileBlocks_reads_every_block_witness :
  ranges (trace_of (getFileBlocks (E := toyEnv toyBadRead)
                      {| fiSize := ChunkSize + 1 |} "a.bin" 0))
  = [(0, ChunkSize); (ChunkSize, 1)].
Proof.
  destruct (getFileBlocks_reads_every_block (E := toyEnv toyBadRead)
              {| fiSize := ChunkSize + 1 |} "a.bin" 0 0 3 eq_refl
              ltac:(cbn [fiSize]; unfold ChunkSize; lia)) as [H _].
  rewrite H. vm_compute. reflexivity.
Defined.

Lemma getFileBlocks_keeps_what_was_read_witness :
  exists blocks,
    outcome_of (getFileBlocks (E := toyEnv toyBadRead)
                  {| fiSize := ChunkSize + 1 |} "a.bin" 0)
    = Returned (inl blocks)
    /\ map Size blocks = [ChunkSize].
Proof.
  destruct (getFileBlocks_keeps_what_was_read (E := toyEnv toyBadRead)
              {| fiSize := ChunkSize + 1 |} "a.bin" 0 0 3 eq_refl
              ltac:(cbn [fiSize]; unfold ChunkSize; lia))
    as [blocks [Hout [Hsizes _]]].
  exists blocks. split; [exact Hout |]. rewrite Hsizes.
  vm_compute. reflexivity.
Defined.

(** * Further properties of the transfer and of the commit *)

Section Exchange.
Context {W : Type} {E : Env W}.

Lemma local_no_response (t : list Event) :
  forallb isLocal t = true ->
  transferResponses t = [] /\ filter isTransfer t = [].
Proof.
  induction t as [| ev t IH]; intros H; [split; reflexivity |].
  cbn [forallb] in H. apply andb_true_iff in H as [H1 H2].
  destruct (IH H2) as [IH1 IH2].
  destruct ev; try discriminate H1; cbn; auto.
Qed.

(** When the loop of [UploadFile] returns tokens, they are the tokens of
    all entries in the order of the entries, every entry that needed the
    transfer was transferred once, and no transfer failed. *)
Lemma uploadBlocks_returned (blockMetas : list gjson.Result) :
  forall (k : Z) (apiNode fileMeta : string) (file : File)
         (acc commitMetas : list CommitMeta) (w : W),
    outcome_of (uploadBlocks k apiNode fileMeta file blockMetas acc w)
    = Returned (inl commitMetas) ->
    commitMetas
    = acc ++ mergeTokens blockMetas
               (transferResponses
                  (trace_of (uploadBlocks k apiNode fileMeta file blockMetas acc w)))
    /\ List.length commitMetas
       = (List.length acc + List.length blockMetas)%nat
    /\ count isTransfer
         (trace_of (uploadBlocks k apiNode fileMeta file blockMetas acc w))
       = List.length (filter needsUpload blockMetas)
    /\ existsb failedTransfer
         (trace_of (uploadBlocks k apiNode fileMeta file blockMetas acc w))
       = false.
Proof.
  induction blockMetas as [| m rest IH];
    intros k apiNode fileMeta file acc commitMetas w.
  - cbn. intros H. injection H as <-. rewrite app_nil_r.
    repeat split. lia.
  - cbn [uploadBlocks filter mergeTokens List.length].
    destruct (Z.eqb_spec (gjson.Int (gjson.Get m "is_existed")) 1) as [He | Hn].
    + assert (Hneeds : needsUpload m = false).
      { unfold needsUpload. rewrite He. reflexivity. }
      rewrite !Hneeds.
      rewrite (bind_Returned _ _ _ (inl (existingToken m)))
        by (now rewrite uploadBlock_existing).
      cbv zeta. rewrite uploadBlock_existing by exact He.
      cbn [world_of trace_of outcome_of fst snd app].
      intros Hout. destruct (IH _ _ _ _ _ _ _ Hout) as [H1 [H2 [H3 H4]]].
      unfold trace_of in *.
      repeat split; try assumption.
      * rewrite H1 at 1. now rewrite <- app_assoc.
      * rewrite H2, length_app. cbn. lia.
    + assert (Hneeds : needsUpload m = true).
      { unfold needsUpload. apply negb_true_iff. now apply Z.eqb_neq. }
      rewrite !Hneeds.
      destruct (uploadBlock_needed_run k apiNode fileMeta file m w Hn)
        as [[Hloc Hfail] | [pre [req [res [Hpre [Htr Hres]]]]]].
      * destruct (outcome_of (uploadBlock k apiNode fileMeta file m w))
          as [[c | err] | msg] eqn:Hout.
        -- exfalso. now apply (Hfail c).
        -- rewrite (bind_Returned _ _ _ _ Hout). discriminate.
        -- rewrite (bind_Panicked _ _ _ _ Hout). discriminate.
      * destruct res as [response | err]; cbn [transferOutcome] in Hres.
        2: { rewrite (bind_Returned _ _ _ _ Hres). discriminate. }
        destruct (String.eqb _ "BLOCK_COMPLETED") eqn:Hstat.
        2: { rewrite (bind_Returned _ _ _ _ Hres). discriminate. }
        rewrite (bind_Returned _ _ _ _ Hres). cbv zeta.
        cbn [outcome_of trace_of fst snd].
        fold (trace_of (uploadBlock k apiNode fileMeta file m w)).
        rewrite Htr. intros Hout.
        destruct (IH _ _ _ _ _ _ _ Hout) as [H1 [H2 [H3 H4]]].
        unfold trace_of in *.
        destruct (local_no_response _ Hpre) as [Hr Hf].
        unfold transferResponses, count in *.
        rewrite !flat_map_app, !filter_app, !existsb_app, !length_app.
        fold transferResponses. unfold transferResponses in Hr. rewrite Hr, Hf.
        rewrite (local_not_failed _ Hpre).
        cbn [flat_map filter isTransfer app List.length existsb failedTransfer
             mergeTokens orb].
        rewrite Hstat. cbn [negb orb].
        repeat split.
        -- rewrite H1 at 1. now rewrite <- app_assoc.
        -- rewrite H2, length_app. cbn. lia.
        -- rewrite H3. reflexivity.
        -- exact H4.
Qed.

(** A run of [createFile] stops before its request, and then returns no
    identifier, or is the request and returns what the answer decides. *)
Lemma createFile_cases (parentId : string) (payload : UploadJson) (w : W) :
  (trace_of (createFile parentId payload w) = [EvCreateFile parentId payload]
   /\ forall id, outcome_of (createFile parentId payload w) <> Returned (inl id))
  \/ (exists req res,
        trace_of (createFile parentId payload w)
        = [EvCreateFile parentId payload; EvCreateFileDo req res]
        /\ outcome_of (createFile parentId payload w) = commitOutcome res).
Proof.
  unfold createFile. rewrite bind_mark. cbv zeta.
  cbn [outcome_of trace_of fst snd].
  destruct (json_Marshal payload) as [dataJson | err].
  2: { left. split; [reflexivity | discriminate]. }
  destruct (http_NewRequest _ _ _) as [request | err].
  2: { left. split; [reflexivity | discriminate]. }
  rewrite bind_call. cbv zeta. cbn [outcome_of trace_of fst snd].
  right. unfold commitOutcome.
  destruct (HttpClient_Do _ w) as [[response | err] w1]; cbn [fst snd].
  2: { do 2 eexists. split; reflexivity. }
  destruct (ReadAllErr response) as [err |] eqn:Hread.
  { do 2 eexists. split; [reflexivity |]. cbv beta iota. rewrite Hread.
    reflexivity. }
  destruct (String.eqb _ "ok") eqn:Hok; cbn [negb];
    do 2 eexists; (split; [reflexivity |]); cbv beta iota;
    rewrite Hread, Hok; reflexivity.
Qed.

End Exchange.

(** * Further properties of a whole upload *)

Section EndToEnd.
Context {W : Type} {E : Env W}.

(** Past the negotiation a run of [UploadFile] either returns no
    identifier, having entered no commit, or ends with the one call of
    [createFile], entered straight away for a file that exists and after
    the loop returned the tokens otherwise. *)
Lemma afterNegotiation_shape (filePath parentId fileName : string)
    (fileSize : Z) (fileSha1 : string) (resp : gjson.Result) (w : W) :
  (forallb inLoop
     (trace_of (afterNegotiation filePath parentId fileName fileSize fileSha1 resp w))
   = true
   /\ forall id,
       outcome_of (afterNegotiation filePath parentId fileName fileSize fileSha1 resp w)
       <> Returned (inl id))
  \/ (exists pre payload w2,
        forallb inLoop pre = true
        /\ trace_of (afterNegotiation filePath parentId fileName fileSize fileSha1 resp w)
           = pre ++ trace_of (createFile parentId payload w2)
        /\ outcome_of (afterNegotiation filePath parentId fileName fileSize fileSha1 resp w)
           = outcome_of (createFile parentId payload w2)
        /\ gjson.String_ (gjson.Get resp "result") = "ok"
        /\ ((gjson.Bool (gjson.Get resp "data.storage.exists") = true
             /\ pre = []
             /\ payload = existedPayload fileName resp)
            \/ (gjson.Bool (gjson.Get resp "data.storage.exists") = false
                /\ exists commitMetas,
                    payload = commitPayload fileName fileSize fileSha1 resp commitMetas
                    /\ commitMetas
                       = mergeTokens
                           (gjson.Array
                              (gjson.Get (gjson.Get resp "data.storage.kss")
                                         "block_metas"))
                           (transferResponses pre)
                    /\ List.length commitMetas
                       = List.length
                           (gjson.Array
                              (gjson.Get (gjson.Get resp "data.storage.kss")
                                         "block_metas"))
                    /\ count isTransfer pre
                       = List.length
                           (filter needsUpload
                              (gjson.Array
                                 (gjson.Get (gjson.Get resp "data.storage.kss")
                                            "block_metas")))
                    /\ existsb failedTransfer pre = false))).
Proof.
  unfold afterNegotiation.
  destruct (String.eqb_spec (gjson.String_ (gjson.Get resp "result")) "ok")
    as [Hok | Hno]; cbn [negb].
  2: { left. split; [reflexivity | discriminate]. }
  destruct (gjson.Bool (gjson.Get resp "data.storage.exists")) eqn:Hex.
  { right. exists [], (existedPayload fileName resp), w.
    repeat split; auto. }
  destruct (gjson.Array (gjson.Get (gjson.Get resp "data.storage.kss") "node_urls"))
    as [| node0 nodes].
  { left. split; [reflexivity | discriminate]. }
  destruct (String.eqb (gjson.String_ node0) "").
  { left. split; [reflexivity | discriminate]. }
  rewrite bind_call. cbv zeta. cbn [outcome_of trace_of fst snd].
  destruct (os_OpenFile filePath w) as [[file | err] w1]; cbn [fst snd].
  2: { left. split; [reflexivity | discriminate]. }
  set (blockMetas := gjson.Array
                       (gjson.Get (gjson.Get resp "data.storage.kss") "block_metas")).
  set (fileMeta := gjson.String_
                     (gjson.Get (gjson.Get resp "data.storage.kss") "file_meta")).
  destruct (uploadBlocks_run blockMetas 0 (gjson.String_ node0) fileMeta file [] w1)
    as [Hin _].
  destruct (outcome_of (uploadBlocks 0 (gjson.String_ node0) fileMeta file
                          blockMetas [] w1))
    as [[commitMetas | err] | msg] eqn:Hout.
  - destruct (uploadBlocks_returned _ _ _ _ _ _ _ _ Hout)
      as [Htokens [Hlen [Hcount Hclean]]].
    cbn [app List.length] in Htokens, Hlen.
    rewrite (bind_Returned _ _ _ _ Hout). cbv zeta.
    cbn [outcome_of trace_of fst snd].
    right.
    exists (EvOpen filePath (inl file)
              :: trace_of (uploadBlocks 0 (gjson.String_ node0) fileMeta file
                             blockMetas [] w1)).
    do 2 eexists.
    split; [exact Hin |]. split; [reflexivity |]. split; [reflexivity |].
    split; [exact Hok |]. right. split; [reflexivity |].
    exists commitMetas. repeat split; assumption.
  - rewrite (bind_Returned _ _ _ _ Hout). cbv zeta.
    cbn [ret outcome_of trace_of fst snd]. rewrite app_nil_r.
    left. split; [exact Hin | discriminate].
  - rewrite (bind_Panicked _ _ _ _ Hout). cbn [outcome_of trace_of fst snd].
    left. split; [exact Hin | discriminate].
Qed.

(** A run of [UploadFile] ends before the negotiation without an
    identifier, or with a negotiation that failed in transport, or goes on
    from the response to the manifest it posted. *)
Lemma UploadFile_outcome_cases (filePath parentId : string) (w : W) :
  (forallb isLocal (trace_of (UploadFile filePath parentId w)) = true
   /\ forall id, outcome_of (UploadFile filePath parentId w) <> Returned (inl id))
  \/ (exists pre form err,
        forallb isLocal pre = true
        /\ trace_of (UploadFile filePath parentId w)
           = pre ++ [EvPostForm CreateFile form (inr err)]
        /\ outcome_of (UploadFile filePath parentId w) = Returned (inr err))
  \/ (exists fileInfo fileSha1 tb blockInfos resp w',
        forallb isLocal tb = true
        /\ trace_of (UploadFile filePath parentId w)
           = (EvStat filePath (inl fileInfo)
                :: EvFilePathHash filePath "sha1" fileSha1 :: tb)
             ++ EvPostForm CreateFile
                  (negotiationForm
                     (manifest (path_Base filePath) (fiSize fileInfo) fileSha1
                        blockInfos))
                  (inl resp)
             :: trace_of (afterNegotiation filePath parentId (path_Base filePath)
                            (fiSize fileInfo) fileSha1 resp w')
        /\ outcome_of (UploadFile filePath parentId w)
           = outcome_of (afterNegotiation filePath parentId (path_Base filePath)
                           (fiSize fileInfo) fileSha1 resp w')).
Proof.
  unfold UploadFile. rewrite bind_call. cbv zeta.
  cbn [outcome_of trace_of fst snd].
  destruct (os_Stat filePath w) as [[fileInfo | err] w1]; cbn [fst snd].
  2: { left. split; [reflexivity | discriminate]. }
  destruct (_ || _).
  { left. split; [reflexivity | discriminate]. }
  unfold FilePathHash. rewrite bind_call. cbv zeta.
  cbn [outcome_of trace_of fst snd].
  destruct (utils_FilePathHash filePath "sha1" w1) as [fileSha1 w2];
    cbn [fst snd].
  assert (Hloc := buildBlockInfos_local fileInfo filePath (fiSize fileInfo)
                    fileSha1 w2).
  destruct (outcome_of (buildBlockInfos fileInfo filePath (fiSize fileInfo)
                          fileSha1 w2)) as [[blockInfos | err] | msg] eqn:Hout.
  - rewrite (bind_Returned _ _ _ _ Hout). cbv zeta.
    cbn [outcome_of trace_of fst snd].
    rewrite bind_call. cbv zeta. cbn [outcome_of trace_of fst snd].
    destruct (api_postForm _ _ _) as [[resp | err] w3]; cbn [fst snd].
    + right. right. do 6 eexists.
      split; [exact Hloc |]. split; reflexivity.
    + right. left.
      exists (EvStat filePath (inl fileInfo)
                :: EvFilePathHash filePath "sha1" fileSha1
                :: trace_of (buildBlockInfos fileInfo filePath (fiSize fileInfo)
                               fileSha1 w2)).
      do 2 eexists. split; [exact Hloc |]. split; reflexivity.
  - rewrite (bind_Returned _ _ _ _ Hout). cbv zeta.
    cbn [ret outcome_of trace_of fst snd]. rewrite app_nil_r.
    left. split; [exact Hloc | discriminate].
  - rewrite (bind_Panicked _ _ _ _ Hout). cbn [outcome_of trace_of fst snd].
    left. split; [exact Hloc | discriminate].
Qed.

Lemma count_app (P : Event -> bool) (t1 t2 : list Event) :
  count P (t1 ++ t2) = (count P t1 + count P t2)%nat.
Proof. unfold count. now rewrite filter_app, length_app. Qed.

Lemma count_none (P Q : Event -> bool) (t : list Event) :
  (forall ev, P ev = true -> Q ev = false) ->
  forallb P t = true -> count Q t = 0%nat.
Proof.
  intros HPQ H. unfold count. induction t as [| ev t IH]; [reflexivity |].
  cbn in *. apply andb_true_iff in H as [H1 H2]. rewrite (HPQ _ H1). auto.
Qed.

Lemma not_in_class (P : Event -> bool) (t : list Event) (ev : Event) :
  forallb P t = true -> P ev = false -> ~ In ev t.
Proof.
  intros H Hev Hin. rewrite forallb_forall in H. specialize (H _ Hin).
  congruence.
Qed.

Lemma inLoop_other (ev : Event) :
  inLoop ev = true ->
  isPostForm ev = false /\ isCreateFileCall ev = false
  /\ isCreateFileDo ev = false /\ isCommit ev = false.
Proof. destruct ev; intros H; try discriminate H; auto. Qed.

Lemma local_inLoop (t : list Event) :
  forallb isLocal t = true -> forallb inLoop t = true.
Proof.
  apply forallb_weaken. intros ev H. unfold inLoop. now rewrite H.
Qed.

(** X3.  [UploadFile] returns an identifier only when the last event of
    the run is a commit request whose response was read to the end and has
    the [result] "ok", and the identifier is the [data.id] of that response;
    and a run that holds such a response returns its [data.id]. *)
Theorem UploadFile_returns_committed_id (filePath parentId : string) (w : W) :
  (forall id,
      outcome_of (UploadFile filePath parentId w) = Returned (inl id) ->
      exists pre req response,
        trace_of (UploadFile filePath parentId w)
        = pre ++ [EvCreateFileDo req (inl response)]
        /\ ReadAllErr response = None
        /\ gjson.String_ (gjson.Get (RespBody response) "result") = "ok"
        /\ id = gjson.String_ (gjson.Get (RespBody response) "data.id"))
  /\
  (forall req response,
      In (EvCreateFileDo req (inl response))
         (trace_of (UploadFile filePath parentId w)) ->
      ReadAllErr response = None ->
      gjson.String_ (gjson.Get (RespBody response) "result") = "ok" ->
      outcome_of (UploadFile filePath parentId w)
      = Returned (inl (gjson.String_ (gjson.Get (RespBody response) "data.id")))).
Proof.
  destruct (UploadFile_outcome_cases filePath parentId w)
    as [[Hloc Hno] | [[pre [form [err [Hpre [Htr Hout]]]]]
       | [fileInfo [fileSha1 [tb [blockInfos [resp [w' [Htb [Htr Hout]]]]]]]]]].
  - split.
    + intros id H. exfalso. now apply (Hno id).
    + intros req response Hin _ _. exfalso.
      now refine (not_in_class _ _ _ Hloc _ Hin).
  - split.
    + intros id H. rewrite Hout in H. discriminate H.
    + intros req response Hin _ _. exfalso. rewrite Htr in Hin.
      apply in_app_or in Hin as [Hin | [Hin | []]]; [| discriminate Hin].
      now refine (not_in_class _ _ _ Hpre _ Hin).
  - rewrite Htr, Hout.
    destruct (afterNegotiation_shape filePath parentId (path_Base filePath)
                (fiSize fileInfo) fileSha1 resp w')
      as [[Hin Hno] | [pre [payload [w2 [Hpre [Htr2 [Hout2 _]]]]]]].
    + split.
      * intros id H. exfalso. now apply (Hno id).
      * intros req response H _ _. exfalso.
        apply in_app_or in H as [H | [H | H]]; [| discriminate H |].
        -- destruct H as [H | [H | H]]; try discriminate H.
           now refine (not_in_class _ _ _ Htb _ H).
        -- now refine (not_in_class _ _ _ Hin _ H).
    + rewrite Htr2, Hout2.
      destruct (createFile_cases parentId payload w2)
        as [[Hc Hno] | [req' [res' [Hc Hres]]]]; rewrite Hc.
      * split.
        -- intros id H. exfalso. now apply (Hno id).
        -- intros req response H _ _. exfalso.
           apply in_app_or in H as [H | [H | H]]; [| discriminate H |].
           ++ destruct H as [H | [H | H]]; try discriminate H.
              now refine (not_in_class _ _ _ Htb _ H).
           ++ apply in_app_or in H as [H | [H | []]]; [| discriminate H].
              now refine (not_in_class _ _ _ Hpre _ H).
      * rewrite Hres. split.
        -- intros id H.
           exists ((EvStat filePath (inl fileInfo)
                      :: EvFilePathHash filePath "sha1" fileSha1 :: tb)
                     ++ EvPostForm CreateFile
                          (negotiationForm
                             (manifest (path_Base filePath) (fiSize fileInfo)
                                fileSha1 blockInfos)) (inl resp)
                     :: pre ++ [EvCreateFile parentId payload]).
           destruct res' as [response | err]; [| discriminate H].
           exists req', response. cbn [commitOutcome] in H.
           split.
           { rewrite <- !app_assoc. cbn [app]. rewrite <- !app_assoc.
             reflexivity. }
           destruct (ReadAllErr response); [discriminate H |].
           destruct (String.eqb_spec
                       (gjson.String_ (gjson.Get (RespBody response) "result"))
                       "ok") as [Hok | _]; [| discriminate H].
           injection H as <-. auto.
        -- intros req response H Hread Hok.
           apply in_app_or in H as [H | [H | H]]; [| discriminate H |].
           ++ exfalso. destruct H as [H | [H | H]]; try discriminate H.
              now refine (not_in_class _ _ _ Htb _ H).
           ++ apply in_app_or in H as [H | [H | [H | []]]];
                [| discriminate H |].
              ** exfalso. now refine (not_in_class _ _ _ Hpre _ H).
              ** injection H as _ ->. cbn [commitOutcome].
                 rewrite Hread, Hok. reflexivity.
Qed.

(** X4.  A run of [UploadFile] posts at most one negotiation, enters
    [createFile] at most once and sends at most one commit request. *)
Theorem UploadFile_commits_at_most_once (filePath parentId : string) (w : W) :
  (count isPostForm (trace_of (UploadFile filePath parentId w)) <= 1)%nat
  /\ (count isCreateFileCall (trace_of (UploadFile filePath parentId w)) <= 1)%nat
  /\ (count isCreateFileDo (trace_of (UploadFile filePath parentId w)) <= 1)%nat.
Proof.
  assert (Hl : forall P t,
             (forall ev, isLocal ev = true -> P ev = false) ->
             forallb isLocal t = true -> count P t = 0%nat).
  { intros P t. apply count_none. }
  assert (Hi : forall P t,
             (forall ev, inLoop ev = true -> P ev = false) ->
             forallb inLoop t = true -> count P t = 0%nat).
  { intros P t. apply count_none. }
  assert (L1 : forall ev, isLocal ev = true -> isPostForm ev = false)
    by (intros []; intros H; try discriminate H; reflexivity).
  assert (L2 : forall ev, isLocal ev = true -> isCreateFileCall ev = false)
    by (intros []; intros H; try discriminate H; reflexivity).
  assert (L3 : forall ev, isLocal ev = true -> isCreateFileDo ev = false)
    by (intros []; intros H; try discriminate H; reflexivity).
  assert (I1 : forall ev, inLoop ev = true -> isPostForm ev = false)
    by (intros ev H; now apply inLoop_other).
  assert (I2 : forall ev, inLoop ev = true -> isCreateFileCall ev = false)
    by (intros ev H; now apply inLoop_other).
  assert (I3 : forall ev, inLoop ev = true -> isCreateFileDo ev = false)
    by (intros ev H; now apply inLoop_other).
  destruct (UploadFile_outcome_cases filePath parentId w)
    as [[Hloc _] | [[pre [form [err [Hpre [Htr _]]]]]
       | [fileInfo [fileSha1 [tb [blockInfos [resp [w' [Htb [Htr _]]]]]]]]]].
  - rewrite (Hl _ _ L1 Hloc), (Hl _ _ L2 Hloc), (Hl _ _ L3 Hloc). lia.
  - rewrite Htr, !count_app.
    rewrite (Hl _ _ L1 Hpre), (Hl _ _ L2 Hpre), (Hl _ _ L3 Hpre).
    cbn. lia.
  - rewrite Htr.
    change (EvStat filePath (inl fileInfo)
              :: EvFilePathHash filePath "sha1" fileSha1 :: tb)
      with ([EvStat filePath (inl fileInfo);
             EvFilePathHash filePath "sha1" fileSha1] ++ tb).
    match goal with
    | |- context [?a ++ ?x :: ?b] => change (a ++ x :: b) with (a ++ [x] ++ b)
    end.
    rewrite !count_app.
    rewrite (Hl _ _ L1 Htb), (Hl _ _ L2 Htb), (Hl _ _ L3 Htb).
    destruct (afterNegotiation_shape filePath parentId (path_Base filePath)
                (fiSize fileInfo) fileSha1 resp w')
      as [[Hin _] | [pre [payload [w2 [Hpre [Htr2 _]]]]]].
    + rewrite (Hi _ _ I1 Hin), (Hi _ _ I2 Hin), (Hi _ _ I3 Hin). cbn. lia.
    + rewrite Htr2, !count_app.
      rewrite (Hi _ _ I1 Hpre), (Hi _ _ I2 Hpre), (Hi _ _ I3 Hpre).
      destruct (createFile_cases parentId payload w2)
        as [[Hc _] | [req [res [Hc _]]]]; rewrite Hc; cbn; lia.
Qed.

Lemma createFile_no_transfer (parentId : string) (payload : UploadJson) (w : W) :
  transferResponses (trace_of (createFile parentId payload w)) = []
  /\ count isTransfer (trace_of (createFile parentId payload w)) = 0%nat
  /\ existsb failedTransfer (trace_of (createFile parentId payload w)) = false
  /\ existsb isTransfer (trace_of (createFile parentId payload w)) = false.
Proof.
  destruct (createFile_cases parentId payload w)
    as [[Hc _] | [req [res [Hc _]]]]; rewrite Hc; repeat split.
Qed.

(** X5.  [createFile] is entered in a run of [UploadFile] only for the
    caller's [parentId] and after a negotiation response with the [result]
    "ok"; when that response does not say that the file exists, the
    payload carries the size given by [os.Stat], the SHA-1 computed at the
    start, and one token for each entry of [block_metas] in the order of
    the entries, the entry's own or the one the node returned, every
    entry that needed the transfer having been transferred once and no
    transfer having failed. *)
Theorem commit_payload (filePath parentId : string) (w : W)
    (p : string) (payload : UploadJson) :
  In (EvCreateFile p payload) (trace_of (UploadFile filePath parentId w)) ->
  p = parentId
  /\ exists fileInfo fileSha1 form resp,
      In (EvStat filePath (inl fileInfo)) (trace_of (UploadFile filePath parentId w))
      /\ In (EvFilePathHash filePath "sha1" fileSha1)
            (trace_of (UploadFile filePath parentId w))
      /\ In (EvPostForm CreateFile form (inl resp))
            (trace_of (UploadFile filePath parentId w))
      /\ gjson.String_ (gjson.Get resp "result") = "ok"
      /\ ((gjson.Bool (gjson.Get resp "data.storage.exists") = true
           /\ payload = existedPayload (path_Base filePath) resp)
          \/ (gjson.Bool (gjson.Get resp "data.storage.exists") = false
              /\ exists commitMetas,
                  payload
                  = commitPayload (path_Base filePath) (fiSize fileInfo)
                      fileSha1 resp commitMetas
                  /\ commitMetas
                     = mergeTokens
                         (gjson.Array
                            (gjson.Get (gjson.Get resp "data.storage.kss")
                                       "block_metas"))
                         (transferResponses
                            (trace_of (UploadFile filePath parentId w)))
                  /\ List.length commitMetas
                     = List.length
                         (gjson.Array
                            (gjson.Get (gjson.Get resp "data.storage.kss")
                                       "block_metas"))
                  /\ count isTransfer (trace_of (UploadFile filePath parentId w))
                     = List.length
                         (filter needsUpload
                            (gjson.Array
                               (gjson.Get (gjson.Get resp "data.storage.kss")
                                          "block_metas")))
                  /\ existsb failedTransfer
                       (trace_of (UploadFile filePath parentId w)) = false)).
Proof.
  intros Hin.
  destruct (UploadFile_outcome_cases filePath parentId w)
    as [[Hloc _] | [[pre [form [err [Hpre [Htr _]]]]]
       | [fileInfo [fileSha1 [tb [blockInfos [resp [w' [Htb [Htr _]]]]]]]]]].
  { exfalso. now refine (not_in_class _ _ _ Hloc _ Hin). }
  { exfalso. rewrite Htr in Hin.
    apply in_app_or in Hin as [Hin | [Hin | []]]; [| discriminate Hin].
    now refine (not_in_class _ _ _ Hpre _ Hin). }
  destruct (afterNegotiation_shape filePath parentId (path_Base filePath)
              (fiSize fileInfo) fileSha1 resp w')
    as [[Hloop _] | [pre [payload' [w2 [Hpre [Htr2 [_ [Hok Hkind]]]]]]]].
  { exfalso. rewrite Htr in Hin.
    apply in_app_or in Hin as [Hin | [Hin | Hin]]; [| discriminate Hin |].
    - destruct Hin as [Hin | [Hin | Hin]]; try discriminate Hin.
      now refine (not_in_class _ _ _ Htb _ Hin).
    - now refine (not_in_class _ _ _ Hloop _ Hin). }
  rewrite Htr2 in Htr.
  assert (Hsame : p = parentId /\ payload = payload').
  { rewrite Htr in Hin.
    apply in_app_or in Hin as [Hin | [Hin | Hin]]; [| discriminate Hin |].
    - exfalso. destruct Hin as [Hin | [Hin | Hin]]; try discriminate Hin.
      now refine (not_in_class _ _ _ Htb _ Hin).
    - apply in_app_or in Hin as [Hin | Hin].
      + exfalso. now refine (not_in_class _ _ _ Hpre _ Hin).
      + destruct (createFile_cases parentId payload' w2)
          as [[Hc _] | [req [res [Hc _]]]]; rewrite Hc in Hin.
        * destruct Hin as [Hin | []]. injection Hin as -> ->. auto.
        * destruct Hin as [Hin | [Hin | []]]; [| discriminate Hin].
          injection Hin as -> ->. auto. }
  destruct Hsame as [-> ->]. split; [reflexivity |].
  exists fileInfo, fileSha1,
    (negotiationForm
       (manifest (path_Base filePath) (fiSize fileInfo) fileSha1 blockInfos)),
    resp.
  rewrite Htr.
  split; [left; reflexivity |].
  split; [right; left; reflexivity |].
  split; [apply in_or_app; right; left; reflexivity |].
  split; [exact Hok |].
  destruct Hkind as [[Hex [_ Hpay]] | [Hex [cms [Hpay [Htok [Hlen [Hcnt Hclean]]]]]]];
    [left; auto | right].
  split; [exact Hex |]. exists cms.
  destruct (createFile_no_transfer parentId payload' w2) as [Hr [Hc [Hf _]]].
  destruct (local_no_response _ Htb) as [Hr0 Hf0].
  assert (Hresp : transferResponses
                    ((EvStat filePath (inl fileInfo)
                        :: EvFilePathHash filePath "sha1" fileSha1 :: tb)
                       ++ EvPostForm CreateFile
                            (negotiationForm
                               (manifest (path_Base filePath) (fiSize fileInfo)
                                  fileSha1 blockInfos)) (inl resp)
                       :: pre ++ trace_of (createFile parentId payload' w2))
                  = transferResponses pre).
  { unfold transferResponses in *. rewrite flat_map_app. cbn [flat_map app].
    rewrite Hr0. cbn [app]. rewrite flat_map_app, Hr. now rewrite app_nil_r. }
  rewrite Hresp. split; [exact Hpay |]. split; [exact Htok |].
  split; [exact Hlen |]. split.
  - rewrite <- Hcnt.
    change (EvStat filePath (inl fileInfo)
              :: EvFilePathHash filePath "sha1" fileSha1 :: tb)
      with ([EvStat filePath (inl fileInfo);
             EvFilePathHash filePath "sha1" fileSha1] ++ tb).
    match goal with
    | |- context [?a ++ ?x :: ?b] => change (a ++ x :: b) with (a ++ [x] ++ b)
    end.
    rewrite !count_app, Hc.
    rewrite (count_none isLocal isTransfer tb
               (fun ev H => proj1 (local_neither ev H)) Htb).
    cbn. lia.
  - rewrite existsb_app. cbn [existsb failedTransfer orb].
    rewrite (local_not_failed _ Htb). cbn [orb].
    rewrite existsb_app, Hclean, Hf. reflexivity.
Qed.

(** X6.  When the negotiation cannot be sent or answered, [UploadFile]
    returns the error of [postForm] as it is; the failed post is the last
    event of the run, and the run has no transfer and no commit. *)
Theorem negotiation_transport_error (filePath parentId : string) (w : W)
    (url : string) (form : Values) (err : error) :
  In (EvPostForm url form (inr err)) (trace_of (UploadFile filePath parentId w)) ->
  outcome_of (UploadFile filePath parentId w) = Returned (inr err)
  /\ (exists pre,
        trace_of (UploadFile filePath parentId w)
        = pre ++ [EvPostForm url form (inr err)])
  /\ existsb isTransfer (trace_of (UploadFile filePath parentId w)) = false
  /\ existsb isCommit (trace_of (UploadFile filePath parentId w)) = false.
Proof.
  intros Hin.
  destruct (UploadFile_outcome_cases filePath parentId w)
    as [[Hloc _] | [[pre [form' [err' [Hpre [Htr Hout]]]]]
       | [fileInfo [fileSha1 [tb [blockInfos [resp [w' [Htb [Htr _]]]]]]]]]].
  - exfalso. now refine (not_in_class _ _ _ Hloc _ Hin).
  - rewrite Htr in Hin. apply in_app_or in Hin as [Hin | [Hin | []]].
    { exfalso. now refine (not_in_class _ _ _ Hpre _ Hin). }
    injection Hin as <- <- <-. rewrite Hout, Htr.
    split; [reflexivity |]. split; [eauto |].
    rewrite !existsb_app. cbn.
    rewrite (forallb_existsb_false isLocal isTransfer pre),
            (forallb_existsb_false isLocal isCommit pre); auto;
      intros ev H; now apply local_neither.
  - exfalso. rewrite Htr in Hin.
    apply in_app_or in Hin as [Hin | [Hin | Hin]]; [| discriminate Hin |].
    + destruct Hin as [Hin | [Hin | Hin]]; try discriminate Hin.
      now refine (not_in_class _ _ _ Htb _ Hin).
    + destruct (afterNegotiation_run filePath parentId (path_Base filePath)
                  (fiSize fileInfo) fileSha1 resp w') as [Hpast _].
      now refine (not_in_class _ _ _ Hpast _ Hin).
Qed.

(** X7.  When the open of the chunking pass fails, [UploadFile] returns
    the error "get file blocks failed" in place of the error of the open,
    and the run stops there: nothing is posted. *)
Theorem chunking_open_error_is_replaced (filePath parentId : string)
    (w w1 w2 w3 : W) (fileInfo : FileInfo) (fileSha1 : string) (err : error) :
  os_Stat filePath w = (inl fileInfo, w1) ->
  ChunkSize < fiSize fileInfo < 4 * 1024 * 1024 * 1024 ->
  utils_FilePathHash filePath "sha1" w1 = (fileSha1, w2) ->
  os_OpenFile filePath w2 = (inr err, w3) ->
  UploadFile filePath parentId w
  = (Returned (inr (errors_New "get file blocks failed")), w3,
     [EvStat filePath (inl fileInfo);
      EvFilePathHash filePath "sha1" fileSha1;
      EvOpen filePath (inr err)]).
Proof.
  intros Hstat Hs Hsha Hopen.
  unfold UploadFile. rewrite bind_call, Hstat. cbv zeta.
  cbn [outcome_of world_of trace_of fst snd].
  replace ((fiSize fileInfo =? 0) || (fiSize fileInfo >=? 4 * 1024 * 1024 * 1024))
    with false
    by (symmetry; apply orb_false_iff; unfold ChunkSize in Hs; lia).
  unfold FilePathHash. rewrite bind_call, Hsha. cbv zeta.
  cbn [outcome_of world_of trace_of fst snd].
  assert (Hb : buildBlockInfos fileInfo filePath (fiSize fileInfo) fileSha1 w2
               = (Returned (inr (errors_New "get file blocks failed")), w3,
                  [EvOpen filePath (inr err)])).
  { unfold buildBlockInfos.
    destruct (Z.gtb_spec (fiSize fileInfo) ChunkSize); [| lia].
    assert (Hg : getFileBlocks fileInfo filePath w2
                 = (Returned (inr err), w3, [EvOpen filePath (inr err)])).
    { unfold getFileBlocks. rewrite bind_call, Hopen. reflexivity. }
    rewrite (bind_Returned _ _ _ (inr err)) by (now rewrite Hg).
    cbv zeta. rewrite Hg. reflexivity. }
  rewrite (bind_Returned _ _ _ (inr (errors_New "get file blocks failed")))
    by (now rewrite Hb).
  cbv zeta. rewrite Hb. reflexivity.
Qed.

(** X21.  [UploadFile] does not compare the entries of [block_metas] with
    the blocks of its manifest: when the response, with the [result] "ok"
    and a node, holds no entry, and the file opens, the commit is made at
    once with no token. *)
Theorem no_entries_commits_at_once (filePath parentId fileName : string)
    (fileSize : Z) (fileSha1 : string) (resp node0 : gjson.Result)
    (nodes : list gjson.Result) (w w1 : W) (file : File) :
  gjson.String_ (gjson.Get resp "result") = "ok" ->
  gjson.Bool (gjson.Get resp "data.storage.exists") = false ->
  gjson.Array (gjson.Get (gjson.Get resp "data.storage.kss") "node_urls")
  = node0 :: nodes ->
  gjson.String_ node0 <> "" ->
  gjson.Array (gjson.Get (gjson.Get resp "data.storage.kss") "block_metas") = [] ->
  os_OpenFile filePath w = (inl file, w1) ->
  trace_of (afterNegotiation filePath parentId fileName fileSize fileSha1 resp w)
  = EvOpen filePath (inl file)
      :: trace_of (createFile parentId
                     (commitPayload fileName fileSize fileSha1 resp []) w1)
  /\ outcome_of (afterNegotiation filePath parentId fileName fileSize fileSha1
                   resp w)
     = outcome_of (createFile parentId
                     (commitPayload fileName fileSize fileSha1 resp []) w1).
Proof.
  intros Hok Hex Hnodes Hnode Hnone Hopen. unfold afterNegotiation.
  rewrite Hok, Hex, Hnodes, Hnone. cbn [String.eqb Ascii.eqb Bool.eqb negb].
  destruct (String.eqb_spec (gjson.String_ node0) "") as [He | _];
    [contradiction |].
  rewrite bind_call, Hopen. cbv zeta. cbn [outcome_of trace_of fst snd].
  cbn [uploadBlocks]. rewrite bind_ret. split; reflexivity.
Qed.

End EndToEnd.

Lemma commit_payload_witness :
  existsb failedTransfer
    (trace_of (UploadFile (E := toyEnv toyUpload) "a.bin" "0" 0)) = false.
Proof.
  destruct (commit_payload (E := toyEnv toyUpload) "a.bin" "0" 0 "0"
              (commitPayload "a.bin" (ChunkSize + 1) "sha1:a.bin"
                 (kssOf [gjson.JString "https://node.test"]
                        [existing "cm0"; needed "bm1"])
                 [[("commit_meta", "cm0")]; [("commit_meta", "cm1")]]))
    as [_ [fileInfo [fileSha1 [form [resp [_ [_ [_ [_ H]]]]]]]]].
  - vm_compute. do 13 right. left. reflexivity.
  - destruct H as [[_ H] | [_ [commitMetas [_ [_ [_ [_ H]]]]]]].
    + discriminate H.
    + exact H.
Defined.

Lemma no_entries_commits_at_once_witness :
  outcome_of (UploadFile (E := toyEnv toyNoEntries) "a.bin" "0" 0)
  = Returned (inl "42")
  /\ outcome_of
       (afterNegotiation (E := toyEnv toyNoEntries) "a.bin" "0" "a.bin"
          (ChunkSize + 1) "sha1:a.bin"
          (kssOf [gjson.JString "https://node.test"] []) 0)
     = outcome_of
         (createFile (E := toyEnv toyNoEntries) "0"
            (commitPayload "a.bin" (ChunkSize + 1) "sha1:a.bin"
               (kssOf [gjson.JString "https://node.test"] []) []) 0).
Proof.
  split; [vm_compute; reflexivity |].
  apply (no_entries_commits_at_once (E := toyEnv toyNoEntries) "a.bin" "0"
           "a.bin" (ChunkSize + 1) "sha1:a.bin"
           (kssOf [gjson.JString "https://node.test"] [])
           (gjson.JString "https://node.test") [] 0 0 3).
  - reflexivity.
  - reflexivity.
  - reflexivity.
  - discriminate.
  - reflexivity.
  - reflexivity.
Defined.

Lemma negotiation_transport_error_witness :
  outcome_of (UploadFile (E := toyEnv toyOffline) "a.bin" "0" 0)
  = Returned (inr (os_error "connection refused")).
Proof.
  apply (negotiation_transport_error (E := toyEnv toyOffline) "a.bin" "0" 0
           "https://i.mi.test/create_block" toyForm
           (os_error "connection refused")).
  vm_compute. do 3 right. left. reflexivity.
Defined.

Lemma chunking_open_error_is_replaced_witness :
  outcome_of (UploadFile (E := toyEnvNoOpen toyTwoBlocks) "a.bin" "0" 0)
  = Returned (inr (errors_New "get file blocks failed")).
Proof.
  rewrite (chunking_open_error_is_replaced (E := toyEnvNoOpen toyTwoBlocks)
             "a.bin" "0" 0 0 0 0 {| fiSize := ChunkSize + 1 |} "sha1:a.bin"
             (os_error "permission denied") eq_refl
             ltac:(cbn [fiSize]; unfold ChunkSize; lia) eq_refl eq_refl).
  reflexivity.
Defined.

Lemma UploadFile_returns_committed_id_witness :
  exists pre req response,
    trace_of (UploadFile (E := toyEnv toyUpload) "a.bin" "0" 0)
    = pre ++ [EvCreateFileDo req (inl response)]
    /\ gjson.String_ (gjson.Get (RespBody response) "data.id") = "42".
Proof.
  destruct (proj1 (UploadFile_returns_committed_id (E := toyEnv toyUpload)
                     "a.bin" "0" 0) "42")
    as [pre [req [response [Htr [_ [_ Hid]]]]]].
  - vm_compute. reflexivity.
  - exists pre, req, response. split; [exact Htr | now symmetry].
Defined.

(** * Further properties of [uploadBlock] and [createFile] *)

Section Requests.
Context {W : Type} {E : Env W}.

(** The run of [uploadBlock] up to its read, on an entry that needs the
    transfer and a file whose size [file.Stat] gives. *)
Lemma uploadBlock_reads (num : Z) (apiNode fileMeta : string) (file : File)
    (m : gjson.Result) (w w1 : W) (fileInfo : FileInfo) :
  gjson.Int (gjson.Get m "is_existed") <> 1 ->
  file_Stat file w = (inl fileInfo, w1) ->
  0 <= num < 4294967296 ->
  0 <= fiSize fileInfo < 4611686018427387904 ->
  num * ChunkSize <= fiSize fileInfo ->
  exists err rest,
    trace_of (uploadBlock num apiNode fileMeta file m w)
    = EvFileStat file
        :: EvSeek file (num * ChunkSize)
        :: EvRead file (Z.min ChunkSize (fiSize fileInfo - num * ChunkSize)) err
        :: rest
    /\ forallb isTransfer rest = true.
Proof.
  intros Hneed Hstat Hnum Hsize Hin. unfold uploadBlock.
  destruct (Z.eqb_spec (gjson.Int (gjson.Get m "is_existed")) 1) as [|_];
    [contradiction |].
  rewrite bind_call, Hstat. cbv zeta. cbn [outcome_of trace_of fst snd].
  rewrite (int64_small (num * ChunkSize)) by (unfold ChunkSize; lia).
  rewrite (int64_small (fiSize fileInfo - num * ChunkSize))
    by (unfold ChunkSize in *; lia).
  replace (if ChunkSize >? fiSize fileInfo - num * ChunkSize
           then fiSize fileInfo - num * ChunkSize else ChunkSize)
    with (Z.min ChunkSize (fiSize fileInfo - num * ChunkSize))
    by (destruct (Z.gtb_spec ChunkSize (fiSize fileInfo - num * ChunkSize)); lia).
  rewrite make_nonneg by (unfold ChunkSize in *; lia).
  rewrite bind_ret. unfold Seek. rewrite bind_call. cbv zeta.
  rewrite bind_Read. cbv zeta. cbn [outcome_of trace_of fst snd len].
  destruct (file_Read _ _ _) as [[[d cnt] [err |]] w2]; cbn [fst snd].
  { do 2 eexists. split; reflexivity. }
  destruct (http_NewRequest _ _ _) as [request | err].
  2: { do 2 eexists. split; reflexivity. }
  rewrite bind_call. cbv zeta. cbn [outcome_of trace_of fst snd].
  destruct (HttpClient_Do _ _) as [[response | err] w3]; cbn [fst snd];
    [destruct (negb _) |]; do 2 eexists; split; reflexivity.
Qed.

(** X8.  For the entry of index [k] of a file of [s] bytes, [k] below the
    number of blocks, [uploadBlock] reads the byte range that the chunking
    pass of [getFileBlocks] reads for its block [k]: from [k * ChunkSize],
    on [ChunkSize] bytes or what is left of the file. *)
Theorem uploadBlock_reads_its_block (k : nat) (apiNode fileMeta : string)
    (file : File) (m : gjson.Result) (w w1 : W) (fileInfo : FileInfo) :
  gjson.Int (gjson.Get m "is_existed") <> 1 ->
  file_Stat file w = (inl fileInfo, w1) ->
  0 < fiSize fileInfo < 4 * 1024 * 1024 * 1024 ->
  Z.of_nat k < (fiSize fileInfo + ChunkSize - 1) / ChunkSize ->
  nth_error (blockRanges (fiSize fileInfo)) k
  = Some (Z.of_nat k * ChunkSize,
          Z.min ChunkSize (fiSize fileInfo - Z.of_nat k * ChunkSize))
  /\ ranges (trace_of (uploadBlock (Z.of_nat k) apiNode fileMeta file m w))
     = [(Z.of_nat k * ChunkSize,
         Z.min ChunkSize (fiSize fileInfo - Z.of_nat k * ChunkSize))].
Proof.
  intros Hneed Hstat Hs Hk.
  assert (Hnum := numBlocks_ceil (fiSize fileInfo) ltac:(lia)).
  split.
  - unfold blockRanges. rewrite nth_error_map.
    rewrite nth_error_seq.
    destruct (Nat.ltb_spec k (Z.to_nat (numBlocks (fiSize fileInfo))));
      [reflexivity | lia].
  - destruct (uploadBlock_reads (Z.of_nat k) apiNode fileMeta file m w w1
                fileInfo Hneed Hstat) as [err [rest [Htr Hrest]]].
    + unfold ChunkSize in *. Z.div_mod_to_equations. lia.
    + lia.
    + unfold ChunkSize in *. Z.div_mod_to_equations. lia.
    + rewrite Htr. cbn [ranges]. f_equal.
      clear - Hrest. induction rest as [| ev rest IH]; [reflexivity |].
      cbn [forallb] in Hrest. apply andb_true_iff in Hrest as [H1 H2].
      destruct ev; try discriminate H1. cbn [ranges]. auto.
Qed.

(** X9.  On an entry that needs the transfer, of an index below 2^32 and
    whose offset [num * ChunkSize] lies strictly past the size that
    [file.Stat] gives, [uploadBlock] panics on the negative length of the
    slice, after the [file.Stat] and before any seek, read or request. *)
Theorem uploadBlock_past_the_end (num : Z) (apiNode fileMeta : string)
    (file : File) (m : gjson.Result) (w w1 : W) (fileInfo : FileInfo) :
  gjson.Int (gjson.Get m "is_existed") <> 1 ->
  file_Stat file w = (inl fileInfo, w1) ->
  0 <= num < 4294967296 ->
  0 <= fiSize fileInfo < num * ChunkSize ->
  uploadBlock num apiNode fileMeta file m w
  = (Panicked "makeslice: len out of range", w1, [EvFileStat file]).
Proof.
  intros Hneed Hstat Hnum Hsize. unfold uploadBlock.
  destruct (Z.eqb_spec (gjson.Int (gjson.Get m "is_existed")) 1) as [|_];
    [contradiction |].
  rewrite bind_call, Hstat. cbv zeta. cbn [outcome_of world_of trace_of fst snd].
  rewrite (int64_small (num * ChunkSize)) by (unfold ChunkSize; lia).
  rewrite (int64_small (fiSize fileInfo - num * ChunkSize))
    by (unfold ChunkSize in *; lia).
  destruct (Z.gtb_spec ChunkSize (fiSize fileInfo - num * ChunkSize));
    [| unfold ChunkSize in *; lia].
  unfold make.
  destruct (Z.ltb_spec (fiSize fileInfo - num * ChunkSize) 0); [| lia].
  rewrite bind_panic. reflexivity.
Qed.

(** X10.  A transfer answered with the [stat] "BLOCK_COMPLETED" makes
    [uploadBlock] return the [commit_meta] of the answer, whether or not
    the read of the body reported an error. *)
Theorem completed_transfer_gives_token (num : Z) (apiNode fileMeta : string)
    (file : File) (m : gjson.Result) (w : W) (req : Request)
    (response : Response) :
  In (EvUploadBlockDo req (inl response))
     (trace_of (uploadBlock num apiNode fileMeta file m w)) ->
  gjson.String_ (gjson.Get (RespBody response) "stat") = "BLOCK_COMPLETED" ->
  outcome_of (uploadBlock num apiNode fileMeta file m w)
  = Returned
      (inl [("commit_meta",
             gjson.String_ (gjson.Get (RespBody response) "commit_meta"))]).
Proof.
  intros Hin Hstat.
  destruct (Z.eq_dec (gjson.Int (gjson.Get m "is_existed")) 1) as [He | Hneed].
  { rewrite uploadBlock_existing in Hin by exact He. destruct Hin. }
  destruct (uploadBlock_needed_run num apiNode fileMeta file m w Hneed)
    as [[Hloc _] | [pre [req' [res' [Hpre [Htr Hres]]]]]].
  - exfalso. rewrite forallb_forall in Hloc. specialize (Hloc _ Hin).
    discriminate Hloc.
  - rewrite Htr in Hin. apply in_app_or in Hin as [Hin | [Hin | []]].
    + exfalso. rewrite forallb_forall in Hpre. specialize (Hpre _ Hin).
      discriminate Hpre.
    + injection Hin as -> ->. rewrite Hres. cbn [transferOutcome].
      rewrite Hstat. reflexivity.
Qed.

(** X11.  [createFile] returns the error of the transport as it is, and
    the error of the read of the body as it is, whatever the part of the
    body that was read says; its run is its entry and at most one
    request. *)
Theorem createFile_errors (parentId : string) (payload : UploadJson) (w : W) :
  (forall req err,
      In (EvCreateFileDo req (inr err)) (trace_of (createFile parentId payload w)) ->
      outcome_of (createFile parentId payload w) = Returned (inr err))
  /\
  (forall req response err,
      In (EvCreateFileDo req (inl response))
         (trace_of (createFile parentId payload w)) ->
      ReadAllErr response = Some err ->
      outcome_of (createFile parentId payload w) = Returned (inr err))
  /\
  (count isCreateFileCall (trace_of (createFile parentId payload w)) = 1
   /\ count isCreateFileDo (trace_of (createFile parentId payload w)) <= 1)%nat.
Proof.
  destruct (createFile_cases parentId payload w)
    as [[Hc _] | [req' [res' [Hc Hres]]]]; rewrite Hc.
  - split; [| split].
    + intros req err [H | []]. discriminate H.
    + intros req response err [H | []]. discriminate H.
    + cbn. lia.
  - rewrite Hres. split; [| split].
    + intros req err [H | [H | []]]; [discriminate H |].
      injection H as _ ->. reflexivity.
    + intros req response err [H | [H | []]] Hread; [discriminate H |].
      injection H as _ ->. cbn [commitOutcome]. rewrite Hread. reflexivity.
    + cbn. lia.
Qed.

Lemma ranges_after_transfers (rest t : list Event) :
  forallb isTransfer rest = true -> ranges (rest ++ t) = ranges t.
Proof.
  induction rest as [| ev rest IH]; intros H; [reflexivity |].
  cbn [forallb] in H. apply andb_true_iff in H as [H1 H2].
  destruct ev; try discriminate H1. cbn [app ranges]. auto.
Qed.

Lemma uploadBlocks_ranges (size : Z) (file : File) (apiNode fileMeta : string) :
  (forall w, fst (file_Stat file w) = inl {| fiSize := size |}) ->
  0 < size < 4 * 1024 * 1024 * 1024 ->
  forall (blockMetas : list gjson.Result) (k : nat)
         (acc commitMetas : list CommitMeta) (w : W),
    Z.of_nat (k + List.length blockMetas) <= (size + ChunkSize - 1) / ChunkSize ->
    outcome_of (uploadBlocks (Z.of_nat k) apiNode fileMeta file blockMetas acc w)
    = Returned (inl commitMetas) ->
    ranges (trace_of (uploadBlocks (Z.of_nat k) apiNode fileMeta file
                        blockMetas acc w))
    = map (blockRange size) (neededFrom k blockMetas).
Proof.
  intros Hstat Hs. induction blockMetas as [| m rest IH];
    intros k acc commitMetas w Hk; [reflexivity |].
  cbn [uploadBlocks neededFrom List.length] in *.
  replace (Z.of_nat k + 1) with (Z.of_nat (S k)) by lia.
  destruct (Z.eq_dec (gjson.Int (gjson.Get m "is_existed")) 1) as [He | Hn].
  - assert (Hneeds : needsUpload m = false).
    { unfold needsUpload. rewrite He. reflexivity. }
    rewrite Hneeds.
    rewrite (bind_Returned _ _ _ (inl (existingToken m)))
      by (now rewrite uploadBlock_existing).
    cbv zeta. rewrite uploadBlock_existing by exact He.
    cbn [world_of trace_of outcome_of fst snd app].
    intros Hout. apply (IH (S k) _ _ _ ltac:(lia) Hout).
  - assert (Hneeds : needsUpload m = true).
    { unfold needsUpload. apply negb_true_iff. now apply Z.eqb_neq. }
    rewrite Hneeds.
    destruct (file_Stat file w) as [st w1] eqn:Hst.
    assert (Hfi : st = inl {| fiSize := size |}).
    { specialize (Hstat w). rewrite Hst in Hstat. exact Hstat. }
    subst st.
    destruct (uploadBlock_reads (Z.of_nat k) apiNode fileMeta file m w w1
                {| fiSize := size |} Hn Hst)
      as [err [tail [Htr Htail]]].
    { unfold ChunkSize in *. Z.div_mod_to_equations. lia. }
    { cbn [fiSize]. lia. }
    { cbn [fiSize]. unfold ChunkSize in *. Z.div_mod_to_equations. lia. }
    cbn [fiSize] in Htr.
    destruct (outcome_of (uploadBlock (Z.of_nat k) apiNode fileMeta file m w))
      as [[c | e] | msg] eqn:Hout1.
    + rewrite (bind_Returned _ _ _ _ Hout1). cbv zeta.
      cbn [outcome_of trace_of fst snd].
      fold (trace_of (uploadBlock (Z.of_nat k) apiNode fileMeta file m w)).
      rewrite Htr. intros Hout.
      cbn [app ranges map]. unfold blockRange at 1. f_equal.
      rewrite ranges_after_transfers by exact Htail.
      apply (IH (S k) _ _ _ ltac:(lia) Hout).
    + rewrite (bind_Returned _ _ _ _ Hout1). discriminate.
    + rewrite (bind_Panicked _ _ _ _ Hout1). discriminate.
Qed.

(** X18.  When the loop of [UploadFile] returns its tokens, for a file
    whose size [file.Stat] gives as the [s] of the chunking pass and a
    list of entries no longer than the blocks of the file, the byte ranges
    it read are the blocks of the entries that needed the transfer, in
    ascending order. *)
Theorem uploadBlocks_reads_needed_blocks (size : Z) (file : File)
    (apiNode fileMeta : string) (blockMetas : list gjson.Result)
    (commitMetas : list CommitMeta) (w : W) :
  (forall w', fst (file_Stat file w') = inl {| fiSize := size |}) ->
  0 < size < 4 * 1024 * 1024 * 1024 ->
  Z.of_nat (List.length blockMetas) <= (size + ChunkSize - 1) / ChunkSize ->
  outcome_of (uploadBlocks 0 apiNode fileMeta file blockMetas [] w)
  = Returned (inl commitMetas) ->
  ranges (trace_of (uploadBlocks 0 apiNode fileMeta file blockMetas [] w))
  = map (blockRange size) (neededFrom 0 blockMetas).
Proof.
  intros Hstat Hs Hlen Hout.
  exact (uploadBlocks_ranges size file apiNode fileMeta Hstat Hs blockMetas
           0%nat [] commitMetas w Hlen Hout).
Qed.

(** X19.  The request of a transfer is a POST to the address of the node
    followed by [/upload_block_chunk?chunk_pos=0&file_meta=], the token of
    the file, [&block_meta=] and the [block_meta] of the entry; its body is
    a slice of at most [ChunkSize] bytes, and the four fixed headers are
    set on it, the content type being [application/octet-stream]. *)
Theorem uploadBlock_request (num : Z) (apiNode fileMeta : string)
    (file : File) (m : gjson.Result) (w : W) (req : Request)
    (res : Response + error) :
  In (EvUploadBlockDo req res)
     (trace_of (uploadBlock num apiNode fileMeta file m w)) ->
  exists request fileBlock,
    http_NewRequest "POST"
      (apiNode ++ "/upload_block_chunk?chunk_pos=0&file_meta=" ++ fileMeta
       ++ "&block_meta=" ++ gjson.String_ (gjson.Get m "block_meta"))%string
      (BytesBody fileBlock)
    = inl request
    /\ 0 <= len fileBlock <= ChunkSize
    /\ Method req = Method request /\ URL req = URL request
    /\ ReqBody req = ReqBody request
    /\ Header req
       = Header request
           ++ [("DNT", "1"); ("Origin", "https://i.mi.com");
               ("Referer", "https://i.mi.com/drive");
               ("Content-Type", "application/octet-stream")].
Proof.
  unfold uploadBlock.
  destruct (gjson.Int (gjson.Get m "is_existed") =? 1); [intros [] |].
  rewrite bind_call. cbv zeta. cbn [outcome_of trace_of fst snd].
  destruct (file_Stat file w) as [[fileInfo | err] w1]; cbn [fst snd].
  2: { intros [H | []]. discriminate H. }
  set (offset := int64 (num * ChunkSize)).
  set (chunkSize := if ChunkSize >? int64 (fiSize fileInfo - offset)
                    then int64 (fiSize fileInfo - offset) else ChunkSize).
  assert (Hle : chunkSize <= ChunkSize).
  { subst chunkSize.
    destruct (Z.gtb_spec ChunkSize (int64 (fiSize fileInfo - offset))); lia. }
  unfold make. destruct (Z.ltb_spec chunkSize 0) as [Hneg | Hpos].
  { rewrite bind_panic. intros [H | []]. discriminate H. }
  rewrite bind_ret. unfold Seek. rewrite bind_call. cbv zeta.
  rewrite bind_Read. cbv zeta. cbn [outcome_of trace_of fst snd len].
  destruct (file_Read _ _ _) as [[[d cnt] [err |]] w2]; cbn [fst snd].
  { intros [H | [H | [H | []]]]; discriminate H. }
  destruct (http_NewRequest _ _ _) as [request | err] eqn:Hnew.
  2: { intros [H | [H | [H | []]]]; discriminate H. }
  rewrite bind_call. cbv zeta. cbn [outcome_of trace_of fst snd].
  intros [H | [H | [H | [H | H]]]]; try discriminate H.
  - injection H as <- _.
    exists request, {| len := chunkSize; data := d |}.
    split; [exact Hnew |]. cbn [len]. split; [lia |].
    unfold setHeaders, Header_Set. cbn [Method URL ReqBody Header].
    repeat split. now rewrite <- !app_assoc.
  - destruct (fst (HttpClient_Do _ _)) as [response | err];
      [destruct (negb _) |]; destruct H.
Qed.

(** X20.  The request of the commit is a POST to the commit address of the
    form made of the serialised payload, the service token and the
    [parentId], with the four fixed headers set on it, the content type
    being [application/x-www-form-urlencoded]. *)
Theorem createFile_request (parentId : string) (payload : UploadJson) (w : W)
    (req : Request) (res : Response + error) :
  In (EvCreateFileDo req res) (trace_of (createFile parentId payload w)) ->
  exists dataJson request,
    json_Marshal payload = inl dataJson
    /\ http_NewRequest "POST" UploadFileURL
         (StringBody
            (url_Encode [("data", [dataJson]); ("serviceToken", [ServiceToken]);
                         ("parentId", [parentId])]))
       = inl request
    /\ Method req = Method request /\ URL req = URL request
    /\ ReqBody req = ReqBody request
    /\ Header req
       = Header request
           ++ [("DNT", "1"); ("Origin", "https://i.mi.com");
               ("Referer", "https://i.mi.com/drive");
               ("Content-Type", "application/x-www-form-urlencoded")].
Proof.
  unfold createFile. rewrite bind_mark. cbv zeta.
  cbn [outcome_of trace_of fst snd].
  destruct (json_Marshal payload) as [dataJson | err].
  2: { intros [H | []]. discriminate H. }
  destruct (http_NewRequest _ _ _) as [request | err] eqn:Hnew.
  2: { intros [H | []]. discriminate H. }
  rewrite bind_call. cbv zeta. cbn [outcome_of trace_of fst snd].
  intros [H | [H | H]]; try discriminate H.
  - injection H as <- _. exists dataJson, request.
    split; [reflexivity |]. split; [exact Hnew |].
    unfold setHeaders, Header_Set. cbn [Method URL ReqBody Header].
    repeat split. now rewrite <- !app_assoc.
  - destruct (fst (HttpClient_Do _ _)) as [response | err];
      [destruct (ReadAllErr response); [| destruct (negb _)] |]; destruct H.
Qed.

End Requests.

Lemma uploadBlock_reads_its_block_witness :
  ranges (trace_of (uploadBlock (E := toyEnv toyUpload) 1 "https://node.test"
                      "fm" 3 (needed "bm1") 0))
  = [(ChunkSize, 1)].
Proof.
  destruct (uploadBlock_reads_its_block (E := toyEnv toyUpload) 1
              "https://node.test" "fm" 3 (needed "bm1") 0 0
              {| fiSize := ChunkSize + 1 |}) as [_ H].
  - vm_compute. discriminate.
  - reflexivity.
  - cbn [fiSize]. unfold ChunkSize. lia.
  - vm_compute. reflexivity.
  - exact H.
Defined.

Lemma uploadBlocks_reads_needed_blocks_witness :
  ranges (trace_of (uploadBlocks (E := toyEnv toyUpload) 0 "https://node.test"
                      "fm" 3 [existing "cm0"; needed "bm1"] [] 0))
  = [(ChunkSize, 1)].
Proof.
  rewrite (uploadBlocks_reads_needed_blocks (E := toyEnv toyUpload)
             (ChunkSize + 1) 3 "https://node.test" "fm"
             [existing "cm0"; needed "bm1"]
             [[("commit_meta", "cm0")]; [("commit_meta", "cm1")]] 0).
  - vm_compute. reflexivity.
  - intros w'. reflexivity.
  - unfold ChunkSize. lia.
  - vm_compute. discriminate.
  - vm_compute. reflexivity.
Defined.

Lemma uploadBlock_request_witness :
  exists request fileBlock,
    http_NewRequest (Env := toyEnv toyUpload) "POST"
      "https://node.test/upload_block_chunk?chunk_pos=0&file_meta=fm&block_meta=bm1"
      (BytesBody fileBlock)
    = inl request
    /\ 0 <= len fileBlock <= ChunkSize.
Proof.
  pose (t := trace_of (uploadBlock (E := toyEnv toyUpload) 1 "https://node.test"
                         "fm" 3 (needed "bm1") 0)).
  destruct (uploadBlock_request (E := toyEnv toyUpload) 1 "https://node.test"
              "fm" 3 (needed "bm1") 0
              (match last t (EvSeek 0 0) with
               | EvUploadBlockDo req _ => req
               | _ => toyCommitRequest
               end)
              (match last t (EvSeek 0 0) with
               | EvUploadBlockDo _ res => res
               | _ => inr SizeTooBigError
               end))
    as [request [fileBlock [Hnew [Hlen _]]]].
  - vm_compute. do 3 right. left. reflexivity.
  - exists request, fileBlock. split; [exact Hnew | exact Hlen].
Defined.

Lemma createFile_request_witness :
  exists dataJson request,
    json_Marshal (Env := toyEnv toyFileExists)
      (existedPayload "a.bin" respFileExists) = inl dataJson
    /\ Header toyCommitRequest
       = Header request
           ++ [("DNT", "1"); ("Origin", "https://i.mi.com");
               ("Referer", "https://i.mi.com/drive");
               ("Content-Type", "application/x-www-form-urlencoded")].
Proof.
  destruct (createFile_request (E := toyEnv toyFileExists) "0"
              (existedPayload "a.bin" respFileExists) 0
              toyCommitRequest committed)
    as [dataJson [request [Hm [_ [_ [_ [_ Hh]]]]]]].
  - vm_compute. right. left. reflexivity.
  - exists dataJson, request. split; [exact Hm | exact Hh].
Defined.

Lemma uploadBlock_past_the_end_witness :
  uploadBlock (E := toyEnv toyTooManyBlocks) 1 "https://node.test" "fm" 3
    (needed "bm1") 1048576
  = (Panicked "makeslice: len out of range", 1048576, [EvFileStat 3]).
Proof.
  apply (uploadBlock_past_the_end (E := toyEnv toyTooManyBlocks) 1
           "https://node.test" "fm" 3 (needed "bm1") 1048576 1048576
           {| fiSize := 1048576 |}).
  - vm_compute. discriminate.
  - reflexivity.
  - lia.
  - cbn [fiSize]. unfold ChunkSize. lia.
Defined.

Lemma completed_transfer_gives_token_witness :
  outcome_of (uploadBlock (E := toyEnv toyUpload) 1 "https://node.test" "fm" 3
                (needed "bm1") 0)
  = Returned (inl [("commit_meta", "cm1")]).
Proof.
  pose (t := trace_of (uploadBlock (E := toyEnv toyUpload) 1 "https://node.test"
                         "fm" 3 (needed "bm1") 0)).
  pose (response := {| RespBody := obj [("stat", gjson.JString "BLOCK_COMPLETED");
                                        ("commit_meta", gjson.JString "cm1")];
                       ReadAllErr := None |}).
  apply (completed_transfer_gives_token (E := toyEnv toyUpload) 1
           "https://node.test" "fm" 3 (needed "bm1") 0
           (match last t (EvSeek 0 0) with
            | EvUploadBlockDo req _ => req
            | _ => toyCommitRequest
            end) response).
  - vm_compute. do 3 right. left. reflexivity.
  - reflexivity.
Defined.

Lemma createFile_errors_witness :
  outcome_of (createFile (E := toyEnv toyOffline) "0"
                (existedPayload "a.bin" respFileExists) 0)
  = Returned (inr (os_error "connection refused")).
Proof.
  apply (proj1 (createFile_errors (E := toyEnv toyOffline) "0"
                  (existedPayload "a.bin" respFileExists) 0)
           toyCommitRequest (os_error "connection refused")).
  vm_compute. right. left. reflexivity.
Defined.

(** * The other operations of the file *)

Section FolderOperations.
Context {W : Type} {E : Env W}.
Variable CreateFolderURL : string.
Variable DeleteFilesURL : string.
Variable marshalRecords : list DeleteFileRecord -> string + error.

(** X12.  [CreateFolder] posts once, whatever the answer; it returns an
    identifier exactly when the post was answered with the [result] "ok",
    and then the [data.id] of the answer; any other answer gives the one
    fixed error, the [description] of the server not being read. *)
Theorem CreateFolder_result (name parentId : string) (w : W) :
  trace_of (CreateFolder CreateFolderURL name parentId w)
  = [EvPostForm CreateFolderURL (createFolderForm name parentId)
       (fst (api_postForm CreateFolderURL (createFolderForm name parentId) w))]
  /\ (forall id,
        outcome_of (CreateFolder CreateFolderURL name parentId w)
        = Returned (inl id)
        <-> exists resp,
            fst (api_postForm CreateFolderURL (createFolderForm name parentId) w)
            = inl resp
            /\ gjson.String_ (gjson.Get resp "result") = "ok"
            /\ id = gjson.String_ (gjson.Get resp "data.id"))
  /\ (forall resp,
        fst (api_postForm CreateFolderURL (createFolderForm name parentId) w)
        = inl resp ->
        gjson.String_ (gjson.Get resp "result") <> "ok" ->
        outcome_of (CreateFolder CreateFolderURL name parentId w)
        = Returned (inr (errors_New "创建目录失败")))
  /\ (forall err,
        fst (api_postForm CreateFolderURL (createFolderForm name parentId) w)
        = inr err ->
        outcome_of (CreateFolder CreateFolderURL name parentId w)
        = Returned (inr err)).
Proof.
  unfold CreateFolder. rewrite bind_call. cbv zeta.
  cbn [outcome_of trace_of fst snd].
  destruct (api_postForm CreateFolderURL (createFolderForm name parentId) w)
    as [[resp | err] w1]; cbn [fst snd].
  - destruct (String.eqb_spec (gjson.String_ (gjson.Get resp "result")) "ok")
      as [Hok | Hno]; cbn [ret outcome_of trace_of fst snd].
    + split; [reflexivity |]. split; [| split].
      * intros id. split.
        -- intros H. injection H as <-. eauto.
        -- intros [resp' [H [_ ->]]]. injection H as <-. reflexivity.
      * intros resp' H Hno. injection H as <-. contradiction.
      * intros err H. discriminate H.
    + split; [reflexivity |]. split; [| split].
      * intros id. split.
        -- intros H. discriminate H.
        -- intros [resp' [H [Hok _]]]. injection H as <-. contradiction.
      * reflexivity.
      * intros err H. discriminate H.
  - split; [reflexivity |]. split; [| split].
    + intros id. split.
      * intros H. discriminate H.
      * intros [resp' [H _]]. discriminate H.
    + intros resp H. discriminate H.
    + intros err' H. injection H as <-. reflexivity.
Qed.

(** X13.  [DeleteFile] posts once, with the operation "DELETE" and the one
    record of the identifier and the type; it returns nil exactly when the
    post was answered with the [result] "ok". *)
Theorem DeleteFile_result (id fType : string) (w : W) :
  trace_of (DeleteFile DeleteFilesURL marshalRecords id fType w)
  = [EvPostForm DeleteFilesURL
       [("operateType", ["DELETE"]);
        ("operateRecords",
         [match marshalRecords [{| Id := id; Type_ := fType |}] with
          | inl s => s
          | inr _ => ""
          end]);
        ("serviceToken", [ServiceToken])]
       (fst (api_postForm DeleteFilesURL
               (deleteForm marshalRecords id fType) w))]
  /\ (outcome_of (DeleteFile DeleteFilesURL marshalRecords id fType w)
      = Returned None
      <-> exists resp,
          fst (api_postForm DeleteFilesURL (deleteForm marshalRecords id fType) w)
          = inl resp
          /\ gjson.String_ (gjson.Get resp "result") = "ok")
  /\ (forall err,
        fst (api_postForm DeleteFilesURL (deleteForm marshalRecords id fType) w)
        = inr err ->
        outcome_of (DeleteFile DeleteFilesURL marshalRecords id fType w)
        = Returned (Some err)).
Proof.
  unfold DeleteFile. rewrite bind_call. cbv zeta.
  cbn [outcome_of trace_of fst snd].
  destruct (api_postForm DeleteFilesURL (deleteForm marshalRecords id fType) w)
    as [[resp | err] w1]; cbn [fst snd].
  - destruct (String.eqb_spec (gjson.String_ (gjson.Get resp "result")) "ok")
      as [Hok | Hno]; cbn [ret outcome_of trace_of fst snd].
    + split; [reflexivity |]. split; [| intros err H; discriminate H].
      split; [eauto | reflexivity].
    + split; [reflexivity |]. split; [| intros err H; discriminate H].
      split.
      * intros H. discriminate H.
      * intros [resp' [H Hok]]. injection H as <-. contradiction.
  - split; [reflexivity |]. split.
    + split.
      * intros H. discriminate H.
      * intros [resp' [H _]]. discriminate H.
    + intros err' H. injection H as <-. reflexivity.
Qed.

End FolderOperations.

Lemma CreateFolder_result_witness :
  outcome_of (CreateFolder (E := toyEnv toyFolders) "https://i.mi.test/folder"
                "photos" "0" 0)
  = Returned (inl "f-9").
Proof.
  apply (proj1 (proj2 (CreateFolder_result (E := toyEnv toyFolders)
                         "https://i.mi.test/folder" "photos" "0" 0))).
  eexists. split; [reflexivity |]. split; reflexivity.
Defined.

Lemma DeleteFile_result_witness :
  outcome_of (DeleteFile (E := toyEnv toyFolders) "https://i.mi.test/delete"
                toyMarshalRecords "f-9" "folder" 0)
  = Returned None.
Proof.
  apply (proj1 (proj2 (DeleteFile_result (E := toyEnv toyFolders)
                         "https://i.mi.test/delete" toyMarshalRecords
                         "f-9" "folder" 0))).
  eexists. split; reflexivity.
Defined.

Section Trimming.
Variable cutset : string.

Lemma TrimRight_kept (s : string) (d : ascii) :
  lastChar s = Some d -> inCutset cutset d = false ->
  TrimRight s cutset = s.
Proof.
  induction s as [| c rest IH]; intros Hlast Hd; [discriminate Hlast |].
  cbn [TrimRight]. destruct rest as [| c' rest'].
  - cbn in *. injection Hlast as ->. now rewrite Hd.
  - rewrite IH by assumption. reflexivity.
Qed.

Lemma TrimRight_cut (s : string) (c : ascii) :
  inCutset cutset c = true ->
  TrimRight (s ++ String c "") cutset = TrimRight s cutset.
Proof.
  intros Hc. induction s as [| a s IH].
  - cbn. now rewrite Hc.
  - cbn [append TrimRight]. now rewrite IH.
Qed.

Lemma TrimRight_after (s t : string) :
  TrimRight t cutset <> "" ->
  TrimRight (s ++ t) cutset = (s ++ TrimRight t cutset)%string.
Proof.
  intros Ht. induction s as [| a s IH]; [reflexivity |].
  cbn [append TrimRight]. rewrite IH.
  destruct (s ++ TrimRight t cutset)%string eqn:Heq; [| reflexivity].
  exfalso. destruct s; [| discriminate Heq]. now apply Ht.
Qed.

Lemma TrimLeft_kept (s : string) :
  delimited cutset s = true -> TrimLeft s cutset = s.
Proof.
  destruct s as [| c rest]; [discriminate |].
  unfold delimited. destruct (lastChar (String c rest)); [| discriminate].
  intros H. apply andb_true_iff in H as [H _]. apply negb_true_iff in H.
  cbn [TrimLeft]. now rewrite H.
Qed.

Lemma delimited_last (s : string) :
  delimited cutset s = true ->
  exists d, lastChar s = Some d /\ inCutset cutset d = false /\ s <> "".
Proof.
  destruct s as [| c rest]; [discriminate |].
  unfold delimited. destruct (lastChar (String c rest)) as [d |]; [| discriminate].
  intros H. apply andb_true_iff in H as [_ H]. apply negb_true_iff in H.
  exists d. repeat split; [exact H | discriminate].
Qed.

End Trimming.

(** The trim of file.go:42 and 304 takes the wrapper off a text that begins
    and ends outside the cutset, and leaves such a text alone. *)
Lemma Trim_callback (body : string) :
  delimited "callback()" body = true ->
  Trim ("callback(" ++ body ++ ")") "callback()" = body
  /\ Trim body "callback()" = body.
Proof.
  intros Hd. destruct (delimited_last _ _ Hd) as [d [Hlast [Hout Hne]]].
  assert (Hr : TrimRight body "callback()" = body)
    by (eapply TrimRight_kept; eauto).
  unfold Trim. split.
  - rewrite TrimRight_after.
    + rewrite TrimRight_cut by reflexivity. rewrite Hr.
      cbn. now apply TrimLeft_kept.
    + rewrite TrimRight_cut by reflexivity. now rewrite Hr.
  - rewrite Hr. now apply TrimLeft_kept.
Qed.

Example Trim_eats_the_payload : Trim "callback(null)" "callback()" = "nu".
Proof. reflexivity. Qed.

Section ReadingOperations.
Context {W : Type}.
Variable DriveFile : Type.
Variable api_get : string -> W -> (string + error) * W.
Variable HttpClient_Get : string -> W -> (Response + error) * W.
Variable HttpClient_PostForm : string -> Values -> W -> (Response + error) * W.
Variable gjson_Parse : string -> gjson.Result.
Variable json_Unmarshal : string -> Msg DriveFile + error.
Variable GetFiles : string -> string.
Variable GetFolders : string -> string.

(** X14.  When the second response of [GetFile] is a text that begins and
    ends outside the characters of "callback()", alone or wrapped in
    [callback(] and [)], the text is what is parsed: [GetFile] posts the
    [meta] of that document to its [url], and returns the response or the
    error of that post. *)
Theorem GetFile_posts_unwrapped (id : string) (w w1 w2 : W)
    (result text body : string) :
  api_get (GetFiles id) w = (inl result, w1) ->
  gjson.String_ (gjson.Get (gjson_Parse result) "data.storage.jsonpUrl") <> "" ->
  api_get (gjson.String_ (gjson.Get (gjson_Parse result) "data.storage.jsonpUrl"))
          w1
  = (inl text, w2) ->
  text = ("callback(" ++ body ++ ")")%string \/ text = body ->
  delimited "callback()" body = true ->
  GetFile api_get HttpClient_PostForm gjson_Parse GetFiles id w
  = HttpClient_PostForm
      (gjson.String_ (gjson.Get (gjson_Parse body) "url"))
      [("meta", [gjson.String_ (gjson.Get (gjson_Parse body) "meta")])] w2.
Proof.
  intros Hfirst Hurl Hsecond Htext Hd.
  destruct (Trim_callback body Hd) as [Hwrapped Hplain].
  assert (Hreal : realUrlOf gjson_Parse text = gjson_Parse body).
  { unfold realUrlOf. destruct Htext as [-> | ->]; congruence. }
  unfold GetFile. rewrite Hfirst.
  destruct (String.eqb_spec
              (gjson.String_
                 (gjson.Get (gjson_Parse result) "data.storage.jsonpUrl")) "")
    as [He | _]; [contradiction |].
  rewrite Hsecond. cbv zeta. rewrite Hreal.
  destruct (HttpClient_PostForm _ _ w2) as [[resp | err] w3]; reflexivity.
Qed.

(** X15.  In the same case [GetFileDownLoadUrl] returns the text of the
    document parsed from the unwrapped text, with no error. *)
Theorem GetFileDownLoadUrl_unwrapped (id : string) (w w1 w2 : W)
    (resp : Response) (text body : string) :
  HttpClient_Get (GetFiles id) w = (inl resp, w1) ->
  ReadAllErr resp = None ->
  gjson.String_ (gjson.Get (RespBody resp) "data.storage.jsonpUrl") <> "" ->
  api_get (gjson.String_ (gjson.Get (RespBody resp) "data.storage.jsonpUrl")) w1
  = (inl text, w2) ->
  text = ("callback(" ++ body ++ ")")%string \/ text = body ->
  delimited "callback()" body = true ->
  GetFileDownLoadUrl api_get HttpClient_Get gjson_Parse GetFiles id w
  = (inl (gjson.String_ (gjson_Parse body)), w2).
Proof.
  intros Hfirst Hread Hurl Hsecond Htext Hd.
  destruct (Trim_callback body Hd) as [Hwrapped Hplain].
  assert (Hreal : realUrlOf gjson_Parse text = gjson_Parse body).
  { unfold realUrlOf. destruct Htext as [-> | ->]; congruence. }
  unfold GetFileDownLoadUrl. rewrite Hfirst, Hread.
  destruct (String.eqb_spec
              (gjson.String_ (gjson.Get (RespBody resp) "data.storage.jsonpUrl"))
              "") as [He | _]; [contradiction |].
  rewrite Hsecond. cbv zeta. rewrite Hreal. reflexivity.
Qed.

(** X16.  When the first response holds no [data.storage.jsonpUrl], or an
    empty one, [GetFile] and [GetFileDownLoadUrl] return the error "get
    fileUrl failed" and make no second request: the world is left as the
    first request left it. *)
Theorem no_url_no_second_request (id : string) (w w1 : W) :
  (forall result,
      api_get (GetFiles id) w = (inl result, w1) ->
      gjson.String_ (gjson.Get (gjson_Parse result) "data.storage.jsonpUrl") = "" ->
      GetFile api_get HttpClient_PostForm gjson_Parse GetFiles id w
      = (inr (errors_New "get fileUrl failed"), w1))
  /\
  (forall resp,
      HttpClient_Get (GetFiles id) w = (inl resp, w1) ->
      ReadAllErr resp = None ->
      gjson.String_ (gjson.Get (RespBody resp) "data.storage.jsonpUrl") = "" ->
      GetFileDownLoadUrl api_get HttpClient_Get gjson_Parse GetFiles id w
      = (inr (errors_New "get fileUrl failed"), w1)).
Proof.
  split.
  - intros result Hfirst Hnone. unfold GetFile. rewrite Hfirst, Hnone.
    reflexivity.
  - intros resp Hfirst Hread Hnone. unfold GetFileDownLoadUrl.
    rewrite Hfirst, Hread, Hnone. reflexivity.
Qed.

(** X17.  [GetFolder] makes one request; it returns the list of the
    decoded listing exactly when the request succeeded, the body was
    decoded and its [Result] is "ok"; the error of the request or of the
    decoder is returned as it is. *)
Theorem GetFolder_result (id : string) (w : W) :
  snd (GetFolder DriveFile api_get json_Unmarshal GetFolders id w)
  = snd (api_get (GetFolders id) w)
  /\ (forall files,
        fst (GetFolder DriveFile api_get json_Unmarshal GetFolders id w) = inl files
        <-> exists result msg,
            fst (api_get (GetFolders id) w) = inl result
            /\ json_Unmarshal result = inl msg
            /\ msgResult msg = "ok"
            /\ files = msgList msg)
  /\ (forall err,
        fst (api_get (GetFolders id) w) = inr err ->
        fst (GetFolder DriveFile api_get json_Unmarshal GetFolders id w) = inr err)
  /\ (forall result err,
        fst (api_get (GetFolders id) w) = inl result ->
        json_Unmarshal result = inr err ->
        fst (GetFolder DriveFile api_get json_Unmarshal GetFolders id w) = inr err).
Proof.
  unfold GetFolder.
  destruct (api_get (GetFolders id) w) as [[result | err] w1]; cbn [fst snd].
  - destruct (json_Unmarshal result) as [msg | err] eqn:Hdec.
    + destruct (String.eqb_spec (msgResult msg) "ok") as [Hok | Hno];
        cbn [fst snd].
      * split; [reflexivity |]. split; [| split].
        -- intros files. split.
           ++ intros H. injection H as <-. exists result, msg. auto.
           ++ intros [result' [msg' [H1 [H2 [_ ->]]]]].
              injection H1 as <-. rewrite Hdec in H2. injection H2 as <-.
              reflexivity.
        -- intros err H. discriminate H.
        -- intros result' err H1 H2. injection H1 as <-.
           rewrite Hdec in H2. discriminate H2.
      * split; [reflexivity |]. split; [| split].
        -- intros files. split.
           ++ intros H. discriminate H.
           ++ intros [result' [msg' [H1 [H2 [Hok _]]]]].
              injection H1 as <-. rewrite Hdec in H2. injection H2 as <-.
              contradiction.
        -- intros err H. discriminate H.
        -- intros result' err H1 H2. injection H1 as <-.
           rewrite Hdec in H2. discriminate H2.
    + split; [reflexivity |]. split; [| split].
      * intros files. split.
        -- intros H. discriminate H.
        -- intros [result' [msg' [H1 [H2 _]]]].
           injection H1 as <-. rewrite Hdec in H2. discriminate H2.
      * intros err' H. discriminate H.
      * intros result' err' H1 H2. injection H1 as <-.
        rewrite Hdec in H2. injection H2 as <-. reflexivity.
  - split; [reflexivity |]. split; [| split].
    + intros files. split.
      * intros H. discriminate H.
      * intros [result' [msg' [H1 _]]]. discriminate H1.
    + intros err' H. injection H as <-. reflexivity.
    + intros result' err' H1. discriminate H1.
Qed.

End ReadingOperations.

Lemma GetFile_posts_unwrapped_witness :
  GetFile toyGet toyPostForm toyParse toyFilesFormat "7" 0%nat
  = (inl toyDownload, 3%nat).
Proof.
  rewrite (GetFile_posts_unwrapped toyGet toyPostForm toyParse toyFilesFormat
             "7" 0%nat 1%nat 2%nat toyMetaText
             ("callback(" ++ toyRealText ++ ")")%string toyRealText
             eq_refl ltac:(vm_compute; discriminate) eq_refl
             (or_introl eq_refl) eq_refl).
  reflexivity.
Defined.

Lemma GetFileDownLoadUrl_unwrapped_witness :
  GetFileDownLoadUrl toyGet toyHttpGet toyParse toyFilesFormat "7" 0%nat
  = (inl toyRealText, 2%nat).
Proof.
  rewrite (GetFileDownLoadUrl_unwrapped toyGet toyHttpGet toyParse toyFilesFormat
             "7" 0%nat 1%nat 2%nat
             {| RespBody := toyParse toyMetaText; ReadAllErr := None |}
             ("callback(" ++ toyRealText ++ ")")%string toyRealText
             eq_refl eq_refl ltac:(vm_compute; discriminate) eq_refl
             (or_introl eq_refl) eq_refl).
  reflexivity.
Defined.

Lemma no_url_no_second_request_witness :
  GetFileDownLoadUrl toyGet toyHttpGet toyParse toyFilesFormat "8" 0%nat
  = (inr (errors_New "get fileUrl failed"), 1%nat).
Proof.
  apply (proj2 (no_url_no_second_request toyGet toyHttpGet toyPostForm toyParse
                  toyFilesFormat "8" 0%nat 1%nat)
           {| RespBody := obj [("data", obj [])]; ReadAllErr := None |});
    reflexivity.
Defined.

Lemma GetFolder_result_witness :
  fst (GetFolder string toyGet toyUnmarshal toyFoldersFormat "0" 0%nat)
  = inl ["a.bin"; "b.bin"].
Proof.
  apply (proj1 (proj2 (GetFolder_result string toyGet toyUnmarshal
                         toyFoldersFormat "0" 0%nat))).
  exists "listing", {| msgResult := "ok"; msgList := ["a.bin"; "b.bin"] |}.
  repeat split.
Defined.
